(** * pdf2pdfocr: a shallow embedding of the OCR pipeline core

    The development follows [pdf2pdfocr.py].  Pure helpers become Rocq
    functions; methods of [Pdf2PdfOcr] that touch the temporary
    workspace become state-passing functions over a [world]; Python
    exceptions become the [Raise] constructor of [outcome].

    Numbers: page counts and pixel coordinates are Python [int]s and are
    modelled in [Z].  Lengths in PDF points are Python floats; they are
    modelled by exact rationals ([Q], compared with [==]), so rounding is
    not represented.  The one place where rounding decides what the
    program does, the float quotient of two integers in
    [calculate_ranges], is modelled with its rounding to binary64.

    Environment: external programs act on the workspace through the
    [exec] field of an [environment], about which nothing is assumed.
    Reading a file that is missing or of the wrong kind raises, as the
    libraries do.  The worker pool runs its units one after another, in
    list order; the polling loops and their progress messages are left
    out. *)

From Stdlib Require Import ZArith QArith Qfield Qround List String Ascii Bool Lia.
From stdpp Require Import gmap strings list pretty.

Local Open Scope Z_scope.
Set Warnings "-register-all".

(** ** Exceptions and results *)

Inductive exn : Type :=
| Pdf2PdfOcrException (msg : string)
| HocrTransformError (msg : string)
| ArithmeticError (msg : string)
| ZeroDivisionError
| PdfReadError (msg : string)
| OSError (msg : string)
| IndexError
| OverflowError (msg : string)
| TypeError (msg : string)
| ValueError (msg : string).

Inductive outcome (A : Type) : Type :=
| Ok (a : A)
| Raise (e : exn).
Arguments Ok {A} a.
Arguments Raise {A} e.

Definition rbind {A B} (r : outcome A) (k : A -> outcome B) : outcome B :=
  match r with
  | Ok a => k a
  | Raise e => Raise e
  end.

(** ** Page range partitioner: [Pdf2PdfOcr.calculate_ranges] *)

Module Ranges.

(** *** The quotient of two integers as a float *)

(** [num / den] rounded to the nearest integer, ties to the even one,
    for a positive [den]. *)
Definition round_half_even (num den : Z) : Z :=
  let f := num / den in
  match 2 * (num mod den) ?= den with
  | Lt => f
  | Gt => f + 1
  | Eq => if Z.even f then f else f + 1
  end.

(** The integer part of the binary logarithm of [a / b], for positive [a]
    and [b]. *)
Definition ilog2 (a b : Z) : Z :=
  let d := Z.log2 a - Z.log2 b in
  if (if 0 <=? d then b * 2 ^ d <=? a else b <=? a * 2 ^ (- d)) then d else d - 1.

(** The number [m * 2 ^ e]. *)
Definition dyadic (m e : Z) : Q :=
  if 0 <=? e then inject_Z (m * 2 ^ e) else Qmake m (Z.to_pos (2 ^ (- e))).

(** The binary64 number nearest to [a / b] for positive [a] and [b], as
    mantissa and exponent: 53 bits, the exponent not below -1074, ties to
    the even mantissa. *)
Definition nearest_binary64 (a b : Z) : Z * Z :=
  let e := Z.max (ilog2 a b - 52) (-1074) in
  let m := if 0 <=? e then round_half_even a (b * 2 ^ e)
           else round_half_even (a * 2 ^ (- e)) b in
  (m, e).

(** [a / b] on two [int]s: the float nearest to the exact quotient. *)
Definition true_divide (a b : Z) : outcome Q :=
  if b =? 0 then Raise ZeroDivisionError
  else if a =? 0 then Ok 0%Q
  else
    let '(m, e) := nearest_binary64 (Z.abs a) (Z.abs b) in
    if Qle_bool (inject_Z (2 ^ 1024)) (dyadic m e)
    then Raise (OverflowError "integer division result too large for a float")
    else Ok (dyadic (Z.sgn a * Z.sgn b * m) e).

(** [math.ceil] of a float. *)
Definition math_ceil (x : Q) : Z := Qceiling x.

(** *** The partitioner *)

(** The ceiling of the exact quotient [a / b] for a positive divisor:
    the [ceil(n/w)] of the specification. *)
Definition ceil_div (a b : Z) : Z := - ((- a) / b).

Definition page_range : Type := Z * Z.

(** Body of the [for i in range(0, number_of_ranges)] loop. *)
Definition make_range (n range_size i : Z) : page_range :=
  let range_start := range_size * i + 1 in
  let range_end := range_size * i + range_size in
  let range_end := if range_end >? n then n else range_end in
  (range_start, range_end).

Definition range_loop (n range_size number_of_ranges : Z) : list page_range :=
  map (fun i => make_range n range_size (Z.of_nat i))
      (seq 0 (Z.to_nat number_of_ranges)).

(** The accumulation [check_pages += (r[1] - r[0]) + 1]. *)
Definition check_pages (result : list page_range) : Z :=
  fold_left (fun acc r => acc + ((snd r - fst r) + 1)) result 0.

Definition check_result (n : Z) (result : list page_range)
  : outcome (option (list page_range)) :=
  if negb (check_pages result =? n)
  then Raise (ArithmeticError
                "Please check 'calculate_ranges' function, something is wrong...")
  else Ok (Some result).

Definition calculate_ranges (input_file_number_of_pages : option Z)
           (cpu_to_use : Z) : outcome (option (list page_range)) :=
  match input_file_number_of_pages with
  | None => Ok None
  | Some n =>
      if n <? 20 then Ok None
      else
        rbind (true_divide n cpu_to_use) (fun quotient =>
        let range_size := math_ceil quotient in
        rbind (true_divide n range_size) (fun quotient =>
        let number_of_ranges := math_ceil quotient in
        check_result n (range_loop n range_size number_of_ranges)))
  end.

(** What the specification asks of a partition: contiguous ranges that
    begin at [s]; every range but the last holds exactly [size] pages,
    the last one ends at page [n] and holds between 1 and [size]. *)
Inductive partition_from (size n : Z) : Z -> list page_range -> Prop :=
| partition_last s :
    s <= n -> n <= s + size - 1 ->
    partition_from size n s [(s, n)]
| partition_step s rest :
    s + size - 1 < n ->
    partition_from size n (s + size) rest ->
    partition_from size n s ((s, s + size - 1) :: rest).

Definition range_length (r : page_range) : Z := snd r - fst r + 1.

Definition total_length (rs : list page_range) : Z :=
  foldr Z.add 0 (map range_length rs).

End Ranges.

(** ** Python numbers and strings *)

(** A Python [str]: a sequence of Unicode code points. *)
Definition pychar : Type := N.
Definition pystr : Type := list pychar.

(** [str.isspace] for one code point: the characters [str.rstrip()]
    removes. *)
Definition is_space (c : pychar) : bool :=
  ((9 <=? c) && (c <=? 13) || (28 <=? c) && (c <=? 32)
   || (c =? 133) || (c =? 160) || (c =? 5760)
   || (8192 <=? c) && (c <=? 8202)
   || (c =? 8232) || (c =? 8233) || (c =? 8239) || (c =? 8287)
   || (c =? 12288))%N.

Fixpoint lstrip (s : pystr) : pystr :=
  match s with
  | c :: s' => if is_space c then lstrip s' else s
  | [] => []
  end.

Definition rstrip (s : pystr) : pystr := rev (lstrip (rev s)).

(** Float division [a / b]: raises on a zero divisor. *)
Definition pydiv (a b : Q) : outcome Q :=
  if Qeq_bool b 0 then Raise ZeroDivisionError else Ok (a / b)%Q.

(** [reportlab.lib.units.inch] *)
Definition inch : Q := 72.

(** ** hOCR to PDF: class [HocrTransform] *)

Module Hocr.

Local Open Scope string_scope.

(** An [xml.etree.ElementTree] element.  The tag ['{uri}name'] is kept
    in two parts, [ns] being [''] or ['{uri}'].  Of the attributes only
    [class] and [title] are read by the code; [title_bbox] is the four
    integers that [boxPattern] finds in [title], if the attribute is
    there and the pattern matches. *)
Inductive element : Type :=
  Element (ns name : string) (class : option string)
          (title_bbox : option (Z * Z * Z * Z))
          (text tail : option pystr) (children : list element).

Definition ns (e : element) := let 'Element n _ _ _ _ _ _ := e in n.
Definition name (e : element) := let 'Element _ n _ _ _ _ _ := e in n.
Definition class (e : element) := let 'Element _ _ c _ _ _ _ := e in c.
Definition title_bbox (e : element) := let 'Element _ _ _ b _ _ _ := e in b.
Definition children (e : element) := let 'Element _ _ _ _ _ _ cs := e in cs.

Definition tag (e : element) : string := ns e +:+ name e.

Record Rect (A : Type) : Type := mkRect { x1 : A; y1 : A; x2 : A; y2 : A }.
Arguments mkRect {A}.
Arguments x1 {A}. Arguments y1 {A}. Arguments x2 {A}. Arguments y2 {A}.

(** [Element.iter()]: the element and its descendants, in document
    order. *)
Fixpoint iter (e : element) : list element :=
  match e with
  | Element _ _ _ _ _ _ cs => e :: flat_map iter cs
  end.

(** [root.findall(".//<tag>[@class='<cls>']")]: proper descendants of the
    root with that tag and that [class] attribute. *)
Definition findall (root : element) (tg cls : string) : list element :=
  List.filter (fun e => String.eqb (tag e) tg
                   && match class e with
                      | Some c => String.eqb c cls
                      | None => false
                      end)
         (flat_map iter (children root)).

Definition find (root : element) (tg cls : string) : option element :=
  head (findall root tg cls).

(** [re.match(r'({.*})html', root.tag)], group 1. *)
Definition root_xmlns (root : element) : string :=
  if negb (String.eqb (ns root) "") && String.prefix "html" (name root)
  then ns root else "".

Fixpoint _get_element_text (e : element) : pystr :=
  match e with
  | Element _ _ _ _ text tail cs =>
      ((match text with Some t => t | None => [] end)
         ++ flat_map _get_element_text cs
         ++ (match tail with Some t => t | None => [] end))%list
  end.

Definition element_coordinates (e : element) : Rect Z :=
  match title_bbox e with
  | Some (a, b, c, d) => mkRect a b c d
  | None => mkRect 0 0 0 0
  end.

(** [pt_from_pixel]: [c / self.dpi * inch] for each coordinate. *)
Definition pt_from_pixel (dpi : Z) (pxl : Rect Z) : outcome (Rect Q) :=
  rbind (pydiv (inject_Z (x1 pxl)) (inject_Z dpi)) (fun a =>
  rbind (pydiv (inject_Z (y1 pxl)) (inject_Z dpi)) (fun b =>
  rbind (pydiv (inject_Z (x2 pxl)) (inject_Z dpi)) (fun c =>
  rbind (pydiv (inject_Z (y2 pxl)) (inject_Z dpi)) (fun d =>
  Ok (mkRect (a * inch) (b * inch) (c * inch) (d * inch))%Q)))).

(** Ligatures U+FB02 and U+FB01 become "fl" and "fi". *)
Definition replace_unsupported_chars (s : pystr) : pystr :=
  flat_map (fun c => if (c =? 64257)%N then [102; 105]%N else [c])
    (flat_map (fun c => if (c =? 64258)%N then [102; 108]%N else [c]) s).

(** The object after [__init__]. *)
Record HocrTransform : Type := mkHocrTransform {
  dpi : Z;
  hocr : element;
  xmlns : string;
  width : Q;
  height : Q
}.

Definition init (hocr_tree : element) (dpi : Z) : outcome HocrTransform :=
  let xmlns := root_xmlns hocr_tree in
  match findall hocr_tree (xmlns +:+ "div") "ocr_page" with
  | div :: _ =>
      let coords := element_coordinates div in
      rbind (pt_from_pixel dpi coords) (fun pt_coords =>
      Ok (mkHocrTransform dpi hocr_tree xmlns
            (x2 pt_coords - x1 pt_coords)%Q
            (y2 pt_coords - y1 pt_coords)%Q))
  | [] => Raise (HocrTransformError "hocr file is missing page dimensions")
  end.

(** *** The reportlab canvas, as the list of calls made on it *)

Record text_object : Type := mkText {
  font_name : string;
  font_size : Q;
  render_mode : Z;       (* 0 unless [setTextRenderMode] is called *)
  origin : Q * Q;
  horiz_scale : Q;       (* argument of [setHorizScale], a percentage *)
  line : pystr
}.

Inductive canvas_op : Type :=
| setStrokeColorRGB (r g b : Q)
| setFillColorRGB (r g b : Q)
| setLineWidth (w : Q)
| setDash (on off : Q)
| rect (x y w h : Q) (fill : bool)
| drawText (t : text_object)
| drawImage (image_file_name : string) (x y w h : Q)
| showPage.

Record Canvas : Type := mkCanvas {
  pagesize : Q * Q;
  ops : list canvas_op
}.

(** Sequencing of loop bodies that may raise. *)
Fixpoint for_each {A B} (body : A -> outcome (list B)) (l : list A)
  : outcome (list B) :=
  match l with
  | [] => Ok []
  | a :: l' =>
      rbind (body a) (fun bs =>
      rbind (for_each body l') (fun rest => Ok (bs ++ rest)%list))
  end.

Section ToPdf.
(** [pdf.stringWidth(text, fontname, fontsize)] of reportlab. *)
Variable stringWidth : pystr -> string -> Q -> Q.

Definition paragraph_body (self : HocrTransform) (show_bounding_boxes : bool)
           (elem : element) : outcome (list canvas_op) :=
  let elemtxt := rstrip (_get_element_text elem) in
  if (length elemtxt =? 0)%nat then Ok []
  else
    let pxl_coords := element_coordinates elem in
    rbind (pt_from_pixel (dpi self) pxl_coords) (fun pt =>
    if show_bounding_boxes
    then Ok [rect (x1 pt) (height self - y2 pt) (x2 pt - x1 pt)
                  (y2 pt - y1 pt) true]%Q
    else Ok []).

Definition span_body (self : HocrTransform) (show_bounding_boxes : bool)
           (fontname : string) (invisible_text : bool)
           (elem : element) : outcome (list canvas_op) :=
  let elemtxt := rstrip (_get_element_text elem) in
  let elemtxt := replace_unsupported_chars elemtxt in
  if (length elemtxt =? 0)%nat then Ok []
  else
    let pxl_coords := element_coordinates elem in
    rbind (pt_from_pixel (dpi self) pxl_coords) (fun pt =>
    let box := if show_bounding_boxes
               then [rect (x1 pt) (height self - y2 pt) (x2 pt - x1 pt)
                          (y2 pt - y1 pt) false]%Q
               else [] in
    let fontsize := (y2 pt - y1 pt)%Q in
    let mode := if invisible_text then 3 else 0 in
    rbind (pydiv (100 * (x2 pt - x1 pt)) (stringWidth elemtxt fontname fontsize))
          (fun scale =>
    Ok (box ++ [drawText (mkText fontname fontsize mode
                            (x1 pt, height self - y2 pt)%Q scale elemtxt)])%list)).

Definition to_pdf (self : HocrTransform) (image_file_name : option string)
           (show_bounding_boxes : bool) (fontname : string)
           (invisible_text : bool) : outcome Canvas :=
  rbind (for_each (paragraph_body self show_bounding_boxes)
           (findall (hocr self) (xmlns self +:+ "p") "ocr_par")) (fun par_ops =>
  let elemclass :=
    match find (hocr self) (xmlns self +:+ "span") "ocrx_word" with
    | Some _ => "ocrx_word"
    | None => "ocr_line"
    end in
  rbind (for_each (span_body self show_bounding_boxes fontname invisible_text)
           (findall (hocr self) (xmlns self +:+ "span") elemclass)) (fun span_ops =>
  let image_ops :=
    match image_file_name with
    | Some f => [drawImage f 0 0 (width self) (height self)]
    | None => []
    end in
  Ok (mkCanvas (width self, height self)
        ([setStrokeColorRGB 0 1 1; setFillColorRGB 0 1 1; setLineWidth 0]
           ++ par_ops
           ++ [setStrokeColorRGB 1 0 0; setLineWidth (1 # 2); setDash 6 3;
               setFillColorRGB 0 0 0]
           ++ span_ops ++ image_ops ++ [showPage])%list))).

(** [HocrTransform(file, dpi).to_pdf(out, image_file_name=None,
    show_bounding_boxes=False, invisible_text=True)], as both OCR
    workers call it. *)
Definition hocr_to_pdf (hocr_tree : element) (dpi : Z) : outcome Canvas :=
  rbind (init hocr_tree dpi) (fun h => to_pdf h None false "Helvetica" true).

End ToPdf.

(** *** Vocabulary of the geometry claim *)


Definition span_text (elem : element) : pystr :=
  replace_unsupported_chars (rstrip (_get_element_text elem)).

(** The word spans, or the line spans when the document has no word
    span, that carry text. *)
Definition text_spans (root : element) : list element :=
  let spans := root_xmlns root +:+ "span" in
  List.filter (fun e => negb (length (span_text e) =? 0)%nat)
    (findall root spans
       (match find root spans "ocrx_word" with
        | Some _ => "ocrx_word"
        | None => "ocr_line"
        end)).

(** The text objects drawn, in drawing order. *)
Definition texts_of (l : list canvas_op) : list text_object :=
  flat_map (fun op => match op with drawText t => [t] | _ => [] end) l.

Definition text_objects (pdf : Canvas) : list text_object := texts_of (ops pdf).

(** Pixels to points, exactly. *)
Definition pt (dpi c : Z) : Q := (inject_Z c / inject_Z dpi * 72)%Q.

(** Font size the code computes for a span. *)
Definition span_font_size (dpi : Z) (elem : element) : Q :=
  let b := element_coordinates elem in
  (inject_Z (y2 b) / inject_Z dpi * inch - inject_Z (y1 b) / inject_Z dpi * inch)%Q.

Section Placed.
Variable stringWidth : pystr -> string -> Q -> Q.

End Placed.

End Hocr.

(** ** The pipeline object: class [Pdf2PdfOcr] *)

Module Pipeline.

Import Hocr.
Local Open Scope string_scope.

(** *** The workspace *)

Inductive ext : Type :=
  ext_jpg | ext_pdf | ext_osd | ext_hocr | ext_fixed_hocr | ext_txt | ext_tmp.

(** The files a run touches.  Page artifacts live in the temporary
    directory under the name of their page image, whose stem begins with
    the run's prefix. *)
Inductive path : Type :=
| input_file                                    (* self.input_file *)
| page_file (image_no_ext : string) (e : ext)   (* tmp_dir + stem + '.' + e *)
| rebuild_file (image_no_ext : string)          (* tmp_dir + 'REBUILD_' + stem + '.pdf' *)
| tmp_file (suffix : string).                   (* tmp_dir + prefix + suffix *)

#[global] Instance ext_eq_dec : EqDecision ext.
Proof. solve_decision. Defined.
#[global] Instance path_eq_dec : EqDecision path.
Proof. solve_decision. Defined.

Definition ext_code (e : ext) : nat :=
  match e with
  | ext_jpg => 0 | ext_pdf => 1 | ext_osd => 2 | ext_hocr => 3
  | ext_fixed_hocr => 4 | ext_txt => 5 | ext_tmp => 6
  end%nat.
Definition code_ext (n : nat) : ext :=
  match n with
  | 0 => ext_jpg | 1 => ext_pdf | 2 => ext_osd | 3 => ext_hocr
  | 4 => ext_fixed_hocr | 5 => ext_txt | _ => ext_tmp
  end%nat.
#[global] Instance ext_countable : Countable ext.
Proof. apply (inj_countable' ext_code code_ext). intros []; reflexivity. Defined.

Definition path_code (p : path) : unit + (string * ext) + (string + string) :=
  match p with
  | input_file => inl (inl tt)
  | page_file s e => inl (inr (s, e))
  | rebuild_file s => inr (inl s)
  | tmp_file s => inr (inr s)
  end.
Definition code_path (c : unit + (string * ext) + (string + string)) : path :=
  match c with
  | inl (inl _) => input_file
  | inl (inr (s, e)) => page_file s e
  | inr (inl s) => rebuild_file s
  | inr (inr s) => tmp_file s
  end.
#[global] Instance path_countable : Countable path.
Proof. apply (inj_countable' path_code code_path). intros []; reflexivity. Defined.

(** A raster page, as PIL opens it: its size in pixels and its RGB
    pixels. *)
Record image : Type := mkImage {
  size : Z * Z;
  pixels : list (N * N * N)
}.

Record pdf_page : Type := mkPage {
  mediabox : Q * Q;                 (* width and height, in points *)
  page_text : list text_object;
  rotation : Z                      (* degrees, clockwise *)
}.

Inductive file : Type :=
| jpeg (im : image)
| pdf_doc (pages : list pdf_page)
| osd_info (rotate : option Z)      (* the [Rotate] entry, when there is one *)
| hocr_doc (tree : element)
| data.                             (* any other content *)

(** *** External processes *)

Inductive command : Type :=
| cmd_file (f : path)                               (* file -b --mime-type f *)
| cmd_pdffonts (f : path)
| cmd_qpdf_underlay (image_pdf text_pdf result_pdf : path)
    (* qpdf --underlay image_pdf -- text_pdf result_pdf *)
| cmd_qpdf_overlay (text_pdf image_pdf result_pdf : path)
    (* qpdf --overlay text_pdf -- image_pdf result_pdf *)
| cmd_multibackground (image_pdf text_pdf result_pdf : path)
| cmd_pdf2ps (src dst : path)
| cmd_ps2pdf (src dst : path)
| cmd_tesseract_osd (lang : string) (image_no_ext : string)
| cmd_cuneiform (lang : string) (image_no_ext : string)
| cmd_convert (image_no_ext : string) (convert_params : string).

Inductive event : Type :=
| popen (c : command)                       (* subprocess.Popen(...).wait() *)
| submit_ocr (engine image_no_ext : string) (* one unit of the OCR pool map *)
| pool_terminated.

(** What the run does not decide: the external programs, the font
    metrics and the input document as the probing tools report it. *)
Record environment : Type := mkEnv {
  exec : command -> gmap path file -> gmap path file;
  do_ocr_tesseract : string -> gmap path file -> gmap path file;
  stringWidth : pystr -> string -> Q -> Q;
  input_size : Z;                             (* os.path.getsize, bytes *)
  mime_type : string;                         (* output of [file] *)
  pdf_reader : option (option Z * bool);      (* pages and is_encrypted;
                                                 None: PdfReadError *)
  pdffonts_lines : nat;                       (* lines printed by pdffonts *)
  path_cuneiform : option string;             (* shutil.which: None when the *)
  path_pdf2ps : option string;                (* program is not installed    *)
  path_ps2pdf : option string
}.

(** *** Options (from the command line) and attributes set on the way *)

Record options : Type := mkOptions {
  check_text_mode : bool;
  ignore_existing_text : bool;
  check_protection_mode : bool;
  avoid_high_pages_pages : option Z;          (* max_pages *)
  avoid_small_file_limit_kb : option Z;       (* min_kbytes *)
  force_rebuild_mode : bool;
  user_convert_params : string;
  use_deskew_mode : bool;
  use_autorotate : bool;
  tess_langs : string;
  image_resolution : Z;
  ocr_engine : string;
  delete_temps : bool;
  path_qpdf : option string;
  cpu_to_use : Z
}.

Record state : Type := mkState {
  input_file_type : string;
  input_file_is_encrypted : bool;
  input_file_has_text : bool;
  input_file_number_of_pages : option Z;
  rebuild_pdf_from_images : bool;
  ocr_ignored : bool;
  blank_pages : list string;
  blank_pages_dimensions : list (Z * Z);
  main_pool : bool;                           (* false: set to None *)
  files : gmap path file;
  trace : list event
}.

Definition M (A : Type) : Type := state -> outcome A * state.

Definition ret {A} (a : A) : M A := fun s => (Ok a, s).
Definition raise {A} (e : exn) : M A := fun s => (Raise e, s).
Definition bind {A B} (m : M A) (k : A -> M B) : M B :=
  fun s => match m s with
           | (Ok a, s') => k a s'
           | (Raise e, s') => (Raise e, s')
           end.
Definition seq_ {B} (m : M unit) (k : M B) : M B := bind m (fun _ => k).
Definition lift {A} (r : outcome A) : M A := fun s => (r, s).

Notation "m >>= k" := (bind m k) (at level 58, right associativity).
Notation "m >> k" := (seq_ m k) (at level 58, right associativity).

Definition set_files (fs : gmap path file) (s : state) : state :=
  mkState (input_file_type s) (input_file_is_encrypted s) (input_file_has_text s)
          (input_file_number_of_pages s) (rebuild_pdf_from_images s) (ocr_ignored s)
          (blank_pages s) (blank_pages_dimensions s) (main_pool s) fs (trace s).

Definition add_event (e : event) (s : state) : state :=
  mkState (input_file_type s) (input_file_is_encrypted s) (input_file_has_text s)
          (input_file_number_of_pages s) (rebuild_pdf_from_images s) (ocr_ignored s)
          (blank_pages s) (blank_pages_dimensions s) (main_pool s) (files s)
          (trace s ++ [e])%list.

Definition set_main_pool (b : bool) (s : state) : state :=
  mkState (input_file_type s) (input_file_is_encrypted s) (input_file_has_text s)
          (input_file_number_of_pages s) (rebuild_pdf_from_images s) (ocr_ignored s)
          (blank_pages s) (blank_pages_dimensions s) b (files s) (trace s).

Definition set_ocr_ignored (b : bool) (s : state) : state :=
  mkState (input_file_type s) (input_file_is_encrypted s) (input_file_has_text s)
          (input_file_number_of_pages s) (rebuild_pdf_from_images s) b
          (blank_pages s) (blank_pages_dimensions s) (main_pool s) (files s) (trace s).

Definition set_rebuild_pdf_from_images (b : bool) (s : state) : state :=
  mkState (input_file_type s) (input_file_is_encrypted s) (input_file_has_text s)
          (input_file_number_of_pages s) b (ocr_ignored s)
          (blank_pages s) (blank_pages_dimensions s) (main_pool s) (files s) (trace s).

Definition set_input_file_type (t : string) (s : state) : state :=
  mkState t (input_file_is_encrypted s) (input_file_has_text s)
          (input_file_number_of_pages s) (rebuild_pdf_from_images s) (ocr_ignored s)
          (blank_pages s) (blank_pages_dimensions s) (main_pool s) (files s) (trace s).

Definition set_input_file_is_encrypted (b : bool) (s : state) : state :=
  mkState (input_file_type s) b (input_file_has_text s)
          (input_file_number_of_pages s) (rebuild_pdf_from_images s) (ocr_ignored s)
          (blank_pages s) (blank_pages_dimensions s) (main_pool s) (files s) (trace s).

Definition set_input_file_has_text (b : bool) (s : state) : state :=
  mkState (input_file_type s) (input_file_is_encrypted s) b
          (input_file_number_of_pages s) (rebuild_pdf_from_images s) (ocr_ignored s)
          (blank_pages s) (blank_pages_dimensions s) (main_pool s) (files s) (trace s).

Definition set_input_file_number_of_pages (n : option Z) (s : state) : state :=
  mkState (input_file_type s) (input_file_is_encrypted s) (input_file_has_text s)
          n (rebuild_pdf_from_images s) (ocr_ignored s)
          (blank_pages s) (blank_pages_dimensions s) (main_pool s) (files s) (trace s).

Definition append_blank_page (t_image : string) (dim : Z * Z) (s : state) : state :=
  mkState (input_file_type s) (input_file_is_encrypted s) (input_file_has_text s)
          (input_file_number_of_pages s) (rebuild_pdf_from_images s) (ocr_ignored s)
          (blank_pages s ++ [t_image])%list (blank_pages_dimensions s ++ [dim])%list
          (main_pool s) (files s) (trace s).

Definition modify (f : state -> state) : M unit := fun s => (Ok tt, f s).
Definition get {A} (f : state -> A) : M A := fun s => (Ok (f s), s).

(** [os.path.isfile] *)
Definition isfile (p : path) : M bool :=
  get (fun s => match files s !! p with Some _ => true | None => false end).

Definition write_file (p : path) (f : file) : M unit :=
  modify (fun s => set_files (<[p := f]> (files s)) s).

(** [subprocess.Popen(cmd, ...)] followed by [wait()].  The log files
    opened for the output of the run are not among the files of the
    workspace. *)
Definition Popen (env : environment) (c : command) : M unit :=
  modify (fun s => add_event (popen c) (set_files (exec env c (files s)) s)).

(** [Popen] of a program that need not be installed: handed [None] for
    the program, [subprocess.Popen] raises and nothing is run. *)
Definition Popen_found (program : option string) (env : environment) (c : command)
  : M unit :=
  match program with
  | Some _ => Popen env c
  | None => raise (TypeError "expected str, bytes or os.PathLike object, not NoneType")
  end.

Definition in_tmp_dir (p : path) : bool :=
  match p with input_file => false | _ => true end.

(** [cleanup]: the pool is shut down and, unless temporary files are
    kept, the temporary directory is removed. *)
Definition cleanup (o : options) : M unit :=
  modify (fun s =>
    let s := if main_pool s
             then add_event pool_terminated (set_main_pool false s) else s in
    if delete_temps o
    then set_files (filter (fun kv => in_tmp_dir (fst kv) = false) (files s)) s
    else s).

(** [sorted(glob.glob(tmp_dir + prefix + '*.' + e))], as image stems. *)
Fixpoint insert_sorted (x : string) (l : list string) : list string :=
  match l with
  | [] => [x]
  | y :: l' => if String.leb x y then x :: l else y :: insert_sorted x l'
  end.

Definition sorted (l : list string) : list string :=
  fold_right insert_sorted [] l.

Definition glob_pages (e : ext) (fs : gmap path file) : list string :=
  sorted (flat_map (fun kv => match fst kv with
                              | page_file x e' => if decide (e' = e) then [x] else []
                              | _ => []
                              end) (map_to_list fs)).

Definition glob_rebuild (fs : gmap path file) : list string :=
  sorted (flat_map (fun kv => match fst kv with
                              | rebuild_file x => [x]
                              | _ => []
                              end) (map_to_list fs)).

(** *** Sandwich merger *)

(** [PdfReader(f).pages[0].mediaBox], width times height. *)
Definition first_page_area (fs : gmap path file) (p : path) : outcome Q :=
  match fs !! p with
  | None => Raise (OSError "No such file or directory")
  | Some (pdf_doc (pg :: _)) => Ok (fst (mediabox pg) * snd (mediabox pg))%Q
  | Some (pdf_doc []) => Raise IndexError
  | Some _ => Raise (PdfReadError "")
  end.

(** The command [_merge_ocr] starts, given what it read.  The image
    area is [None] when reading it raised [PdfReadError]. *)
Definition merge_command (path_qpdf : option string)
           (first_page_img_area : option Q) (first_page_txt_area : Q)
           (image_pdf_file_path text_pdf_file_path result_pdf_file_path : path)
  : command :=
  match path_qpdf with
  | Some _ =>
      let first_page_img_area :=
        match first_page_img_area with
        | Some a => a
        | None => 0%Q          (* except PdfReadError *)
        end in
      if Qlt_le_dec first_page_txt_area first_page_img_area
      then cmd_qpdf_underlay image_pdf_file_path text_pdf_file_path result_pdf_file_path
      else cmd_qpdf_overlay text_pdf_file_path image_pdf_file_path result_pdf_file_path
  | None =>
      cmd_multibackground image_pdf_file_path text_pdf_file_path result_pdf_file_path
  end.

Definition _merge_ocr (o : options) (env : environment)
           (image_pdf_file_path text_pdf_file_path result_pdf_file_path : path)
           (tag : string) : M unit :=
  (match path_qpdf o with
   | Some _ =>
       get files >>= fun fs =>
       (match first_page_area fs image_pdf_file_path with
        | Ok a => ret (Some a)
        | Raise (PdfReadError _) => ret None
        | Raise e => raise e
        end) >>= fun first_page_img_area =>
       lift (first_page_area fs text_pdf_file_path) >>= fun first_page_txt_area =>
       ret (first_page_img_area, first_page_txt_area)
   | None => ret (None, 0%Q)
   end) >>= fun areas =>
  Popen env (merge_command (path_qpdf o) (fst areas) (snd areas)
               image_pdf_file_path text_pdf_file_path result_pdf_file_path).

Definition try_repair_input_and_merge (o : options) (env : environment) : M unit :=
  Popen_found (path_pdf2ps env) env
    (cmd_pdf2ps input_file (tmp_file "-fixPDF.ps")) >>
  Popen_found (path_ps2pdf env) env
    (cmd_ps2pdf (tmp_file "-fixPDF.ps") (tmp_file "-fixPDF.pdf")) >>
  _merge_ocr o env (tmp_file "-fixPDF.pdf") (tmp_file "-ocr.pdf")
    (tmp_file "-OUTPUT.pdf") "repair_input".

(** [shutil.copyfile] *)
Definition copyfile (src dst : path) : M unit :=
  get files >>= fun fs =>
  match fs !! src with
  | Some f => write_file dst f
  | None => raise (OSError "No such file or directory")
  end.

(** [PdfReader(f).pages] *)
Definition read_pdf (fs : gmap path file) (p : path) : outcome (list pdf_page) :=
  match fs !! p with
  | None => Raise (OSError "No such file or directory")
  | Some (pdf_doc pages) => Ok pages
  | Some _ => Raise (PdfReadError "")
  end.

Fixpoint map_outcome {A B} (f : A -> outcome B) (l : list A) : outcome (list B) :=
  match l with
  | [] => Ok []
  | a :: l' =>
      rbind (f a) (fun b => rbind (map_outcome f l') (fun bs => Ok (b :: bs)))
  end.

Fixpoint for_ {A} (l : list A) (body : A -> M unit) : M unit :=
  match l with
  | [] => ret tt
  | a :: l' => body a >> for_ l' body
  end.

(** [PdfMerger]: append every file of the list, write the result. *)
Definition pdf_merge (parts : list path) (dst : path) : M unit :=
  get files >>= fun fs =>
  lift (map_outcome (read_pdf fs) parts) >>= fun docs =>
  write_file dst (pdf_doc (concat docs)).

(** *** Rebuild engine *)

Definition preset_fast := "-threshold 60% -compress Group4".
Definition preset_best :=
  "-colors 2 -colorspace gray -normalize -threshold 60% -compress Group4".
Definition preset_grayscale :=
  "-threshold 85% -morphology Dilate Diamond -compress Group4".
Definition preset_jpeg :=
  "-strip -interlace Plane -gaussian-blur 0.05 -quality 50% -compress JPEG".
Definition preset_jpeg2000 := "-quality 32% -compress JPEG2000".

(** [ImageChops.difference(a, b)]: absolute difference, pixel by pixel. *)
Definition difference (a b : list N) : list N :=
  map (fun xy => if (fst xy <? snd xy)%N then (snd xy - fst xy)%N
                 else (fst xy - snd xy)%N) (combine a b).

(** [Image.getextrema()] of one band: minimum and maximum. *)
Definition getextrema (band : list N) : N * N :=
  (fold_right N.min 255%N band, fold_right N.max 0%N band).

(** [Image.split()] of an RGB image. *)
Definition split (im : image) : list N * list N * list N :=
  (map (fun p => fst (fst p)) (pixels im),
   map (fun p => snd (fst p)) (pixels im),
   map (fun p => snd p) (pixels im)).

Definition do_check_img_greyscale (im : image) : bool :=
  let '(r, g, b) := split im in
  if negb (snd (getextrema (difference r g)) =? 0)%N then false
  else if negb (snd (getextrema (difference r b)) =? 0)%N then false
  else true.

(** The choice of [convert_params] in [rebuild_and_merge];
    [result_check_img] is only looked at in smart mode. *)
Definition choose_convert_params (user_convert_params : string)
           (result_check_img : list bool) : string :=
  let user_convert_params :=
    if String.eqb user_convert_params "smart"
    then (if forallb (fun b => b) result_check_img then "best" else "jpeg")
    else user_convert_params in
  let convert_params :=
    if String.eqb user_convert_params "fast" then preset_fast
    else if String.eqb user_convert_params "best" then preset_best
    else if String.eqb user_convert_params "grayscale" then preset_grayscale
    else if String.eqb user_convert_params "jpeg" then preset_jpeg
    else if String.eqb user_convert_params "jpeg2000" then preset_jpeg2000
    else user_convert_params in
  if String.eqb convert_params "" then preset_best else convert_params.

(** [shlex.split]: the reading of tokens in POSIX mode, split at
    whitespace only, without comments. *)

(** The states of [shlex.shlex.read_token]: between tokens, inside a
    word, inside quotes, after the escape character (and where it goes
    back to: [None] for a word, the quote for a quoted part). *)
Inductive lex_state : Type :=
| between
| in_word
| in_quotes (q : ascii)
| escaped (back : option ascii).

Definition is_shlex_whitespace (c : ascii) : bool :=
  (Ascii.eqb c " " || Ascii.eqb c "009" || Ascii.eqb c "013" || Ascii.eqb c "010")%char.
Definition is_shlex_quote (c : ascii) : bool :=
  (Ascii.eqb c "'" || Ascii.eqb c "034")%char.
Definition is_shlex_escape (c : ascii) : bool := Ascii.eqb c "\"%char.

(** [token] is kept reversed. *)
Definition emit (token : list ascii) (quoted : bool) (acc : list string) : list string :=
  if match token with [] => quoted | _ => true end
  then (acc ++ [string_of_list_ascii (rev token)])%list else acc.

Fixpoint read_tokens (instream : list ascii) (state : lex_state)
         (token : list ascii) (quoted : bool) (acc : list string)
  : outcome (list string) :=
  match instream with
  | [] =>
      match state with
      | between => Ok acc
      | in_word => Ok (emit token quoted acc)
      | in_quotes _ => Raise (ValueError "No closing quotation")
      | escaped _ => Raise (ValueError "No escaped character")
      end
  | nextchar :: rest =>
      match state with
      | between =>
          if is_shlex_whitespace nextchar then read_tokens rest between [] false acc
          else if is_shlex_escape nextchar then read_tokens rest (escaped None) [] false acc
          else if is_shlex_quote nextchar
               then read_tokens rest (in_quotes nextchar) [] true acc
          else read_tokens rest in_word [nextchar] false acc
      | in_quotes q =>
          if Ascii.eqb nextchar q then read_tokens rest in_word token true acc
          else if is_shlex_escape nextchar && Ascii.eqb q "034"%char
               then read_tokens rest (escaped (Some q)) token true acc
          else read_tokens rest (in_quotes q) (nextchar :: token) true acc
      | escaped back =>
          let token :=
            match back with
            | Some q =>
                if negb (is_shlex_escape nextchar) && negb (Ascii.eqb nextchar q)
                then "\"%char :: token else token
            | None => token
            end in
          read_tokens rest (match back with Some q => in_quotes q | None => in_word end)
            (nextchar :: token) quoted acc
      | in_word =>
          if is_shlex_whitespace nextchar
          then read_tokens rest between [] false (emit token quoted acc)
          else if is_shlex_quote nextchar
               then read_tokens rest (in_quotes nextchar) token true acc
          else if is_shlex_escape nextchar
               then read_tokens rest (escaped None) token quoted acc
          else read_tokens rest in_word (nextchar :: token) quoted acc
      end
  end.

(** [shlex.split(s)] *)
Definition shlex_split (s : string) : outcome (list string) :=
  read_tokens (list_ascii_of_string s) between [] false [].

(** One unit of the rebuild pool: [do_rebuild].  The parameters are split
    before [convert] is started. *)
Definition do_rebuild (env : environment) (param_image_no_ext : string)
           (param_convert_params : string) : M unit :=
  lift (shlex_split param_convert_params) >>= fun convert_params_list =>
  Popen env (cmd_convert param_image_no_ext param_convert_params).

(** One unit of a [starmap_async] whose result is never fetched: what the
    worker raises is lost. *)
Definition pool_worker (w : M unit) : M unit :=
  fun s => (Ok tt, snd (w s)).

(** [Image.open] of a page image. *)
Definition read_image (fs : gmap path file) (x : string) : outcome image :=
  match fs !! page_file x ext_jpg with
  | Some (jpeg im) => Ok im
  | Some _ => Raise (OSError "cannot identify image file")
  | None => Raise (OSError "No such file or directory")
  end.

Definition rebuild_and_merge (o : options) (env : environment) : M unit :=
  get files >>= fun fs =>
  let rebuild_list := glob_pages ext_jpg fs in
  (if String.eqb (user_convert_params o) "smart"
   then lift (map_outcome (fun x => rbind (read_image fs x)
                                      (fun im => Ok (do_check_img_greyscale im)))
                rebuild_list)
   else ret []) >>= fun result_check_img =>
  let convert_params := choose_convert_params (user_convert_params o) result_check_img in
  for_ rebuild_list (fun x => pool_worker (do_rebuild env x convert_params)) >>
  get files >>= fun fs =>
  let rebuilt_pdf_file_list := glob_rebuild fs in
  (if (0 <? length rebuilt_pdf_file_list)%nat
   then pdf_merge (map rebuild_file rebuilt_pdf_file_list)
          (tmp_file "-input_unprotected.pdf")
   else cleanup o >>
        raise (Pdf2PdfOcrException
                 "No PDF files generated after image rebuilding. This is not expected. Aborting.")) >>
  get ocr_ignored >>= fun ignored =>
  if negb ignored
  then _merge_ocr o env (tmp_file "-input_unprotected.pdf") (tmp_file "-ocr.pdf")
         (tmp_file "-OUTPUT.pdf") "rebuild-merge"
  else copyfile (tmp_file "-input_unprotected.pdf") (tmp_file "-OUTPUT.pdf").

Definition build_final_output (o : options) (env : environment) : M unit :=
  get rebuild_pdf_from_images >>= fun rebuild =>
  (if negb rebuild
   then
     get ocr_ignored >>= fun ignored =>
     if negb ignored
     then
       _merge_ocr o env input_file (tmp_file "-ocr.pdf") (tmp_file "-OUTPUT.pdf")
         "final-output" >>
       isfile (tmp_file "-OUTPUT.pdf") >>= fun created =>
       if negb created then try_repair_input_and_merge o env else ret tt
     else copyfile input_file (tmp_file "-OUTPUT.pdf")
   else rebuild_and_merge o env) >>
  isfile (tmp_file "-OUTPUT.pdf") >>= fun created =>
  if negb created
  then cleanup o >>
       raise (Pdf2PdfOcrException
                "Output file could not be created :( Exiting with error code.")
  else ret tt.

(** *** Page classifier *)

(** [Image.getcolors()]: the distinct colours with their counts, or
    [None] when there are more than 256 of them. *)
Fixpoint count_color (c : N * N * N) (colors : list (nat * (N * N * N)))
  : list (nat * (N * N * N)) :=
  match colors with
  | [] => [(1%nat, c)]
  | (n, c') :: rest =>
      if decide (c' = c) then (S n, c') :: rest
      else (n, c') :: count_color c rest
  end.

Definition getcolors (im : image) : option (list (nat * (N * N * N))) :=
  let colors := fold_left (fun acc c => count_color c acc) (pixels im) [] in
  if (256 <? length colors)%nat then None else Some colors.

Definition do_check_img_colors_size (im : image)
  : option (list (nat * (N * N * N))) * (Z * Z) :=
  (getcolors im, size im).

Definition is_blank (color_size_info : option (list (nat * (N * N * N))) * (Z * Z))
  : bool :=
  match fst color_size_info with
  | Some colors => (length colors =? 1)%nat
  | None => false
  end.

Definition check_blank_pages (image_file_list : list string) : M unit :=
  get files >>= fun fs =>
  lift (map_outcome (fun x => rbind (read_image fs x)
                                (fun im => Ok (do_check_img_colors_size im)))
          image_file_list) >>= fun blank_map_values =>
  for_ (combine image_file_list blank_map_values) (fun it =>
    let t_image := fst it in
    let color_size_info := snd it in
    if is_blank color_size_info
    then modify (append_blank_page t_image (snd color_size_info))
    else ret tt).

Definition do_create_blank_pdf (param_filename_pdf : path)
           (param_dimensions : Z * Z) (param_image_resolution : Z) : M unit :=
  lift (pydiv (inject_Z (fst param_dimensions)) (inject_Z param_image_resolution))
    >>= fun w =>
  let img_width_pt := (w * 72)%Q in
  lift (pydiv (inject_Z (snd param_dimensions)) (inject_Z param_image_resolution))
    >>= fun h =>
  let img_height_pt := (h * 72)%Q in
  write_file param_filename_pdf (pdf_doc [mkPage (img_width_pt, img_height_pt) [] 0]).

(** *** OCR dispatch *)

Definition lower_ascii (c : ascii) : ascii :=
  let n := nat_of_ascii c in
  if ((65 <=? n) && (n <=? 90))%nat then ascii_of_nat (n + 32) else c.

Fixpoint lower (s : string) : string :=
  match s with
  | EmptyString => EmptyString
  | String c s' => String (lower_ascii c) (lower s')
  end.

(** What BeautifulSoup's lxml parser makes of the lone division
    ['<div class="ocr_page" id="page_1" title="image x; bbox 0 0 1700 2400">']. *)
Definition fallback_hocr : element :=
  Element "" "html" None None None None
    [Element "" "body" None None None None
       [Element "" "div" (Some "ocr_page") (Some (0, 0, 1700, 2400))
          None None []]].

Definition page_of_canvas (c : Canvas) : pdf_page :=
  mkPage (pagesize c) (text_objects c) 0.

Definition do_ocr_cuneiform (env : environment) (param_image_no_ext : string)
           (param_cunei_lang : string) : M unit :=
  let hocr_path := page_file param_image_no_ext ext_hocr in
  let param_path_cunei := path_cuneiform env in
  Popen_found param_path_cunei env
    (cmd_cuneiform (lower param_cunei_lang) param_image_no_ext) >>
  isfile hocr_path >>= fun found =>
  (if negb found && negb (String.eqb (lower param_cunei_lang) "eng")
   then Popen_found param_path_cunei env (cmd_cuneiform "eng" param_image_no_ext)
   else ret tt) >>
  get files >>= fun fs =>
  (match fs !! hocr_path with
   | Some (hocr_doc tree) =>
       write_file (page_file param_image_no_ext ext_fixed_hocr) (hocr_doc tree) >>
       ret tree
   | Some f =>
       (* the repaired markup still does not parse *)
       write_file (page_file param_image_no_ext ext_fixed_hocr) f >>
       raise (OSError "ParseError")
   | None =>
       write_file (page_file param_image_no_ext ext_fixed_hocr)
         (hocr_doc fallback_hocr) >>
       ret fallback_hocr
   end) >>= fun corrected_hocr =>
  lift (hocr_to_pdf (stringWidth env) corrected_hocr 300) >>= fun canvas =>
  write_file (page_file param_image_no_ext ext_pdf)
    (pdf_doc [page_of_canvas canvas]) >>
  write_file (page_file param_image_no_ext ext_tmp) data.

Definition not_in (l : list string) (x : string) : bool :=
  negb (existsb (String.eqb x) l).

Definition image_list_for_external_ocr (image_file_list blank_pages : list string)
  : list string :=
  List.filter (not_in blank_pages) image_file_list.

Definition external_ocr (o : options) (env : environment)
           (image_file_list : list string) : M unit :=
  if String.eqb (ocr_engine o) "cuneiform" || String.eqb (ocr_engine o) "tesseract"
  then
    get blank_pages >>= fun blank =>
    for_ (image_list_for_external_ocr image_file_list blank) (fun x =>
      modify (add_event (submit_ocr (ocr_engine o) x)) >>
      pool_worker
        (if String.eqb (ocr_engine o) "cuneiform"
         then do_ocr_cuneiform env x (tess_langs o)
         else modify (fun s => set_files (do_ocr_tesseract env x (files s)) s))) >>
    get blank_pages >>= fun blank =>
    get blank_pages_dimensions >>= fun dims =>
    for_ (imap (fun idx blank_page_img => (idx, blank_page_img)) blank) (fun it =>
      match dims !! fst it with
      | Some blank_page_dimension =>
          do_create_blank_pdf (page_file (snd it) ext_pdf) blank_page_dimension
            (image_resolution o)
      | None => raise IndexError
      end) >>
    modify (set_ocr_ignored false)
  else modify (set_ocr_ignored true).

Definition join_ocred_pdf (o : options) : M unit :=
  get files >>= fun fs =>
  let text_pdf_file_list := glob_pages ext_pdf fs in
  if (0 <? length text_pdf_file_list)%nat
  then pdf_merge (map (fun x => page_file x ext_pdf) text_pdf_file_list)
         (tmp_file "-ocr.pdf")
  else cleanup o >>
       raise (Pdf2PdfOcrException
                "No PDF files generated after OCR. This is not expected. Aborting.").

(** *** Orientation *)

Definition autorotate_info (o : options) (env : environment)
           (image_file_list : list string) : M unit :=
  if use_autorotate o
  then
    get blank_pages >>= fun blank =>
    let image_list_for_autorotate_info := List.filter (not_in blank) image_file_list in
    for_ image_list_for_autorotate_info (fun x =>
      pool_worker (Popen env (cmd_tesseract_osd (tess_langs o) x)))
  else ret tt.

(** [config_osd.getint('root', 'Rotate')], zero on [NoOptionError]. *)
Definition read_rotate (fs : gmap path file) (x : string) : Z :=
  match fs !! page_file x ext_osd with
  | Some (osd_info (Some rotate_value)) => rotate_value
  | _ => 0
  end.

Definition rotateClockwise (angle : Z) (page : pdf_page) : pdf_page :=
  mkPage (mediabox page) (page_text page) (rotation page + angle).

(** [os.rename] *)
Definition rename (src dst : path) : M unit :=
  get files >>= fun fs =>
  match fs !! src with
  | Some f => modify (fun s => set_files (<[dst := f]> (delete src (files s))) s)
  | None => raise (OSError "No such file or directory")
  end.

Definition autorotate_final_output (o : options) : M unit :=
  let param_source_file := tmp_file "-OUTPUT.pdf" in
  let param_dest_file := tmp_file "-OUTPUT-ROTATED.pdf" in
  get files >>= fun fs =>
  get input_file_number_of_pages >>= fun number_of_pages =>
  let list_osd := glob_pages ext_osd fs in
  let skip_autorotate :=
    use_autorotate o
    && negb (match number_of_pages with
             | Some n => (Z.of_nat (length list_osd) =? n)%Z
             | None => false
             end) in
  if use_autorotate o && negb skip_autorotate
  then
    lift (read_pdf fs param_source_file) >>= fun pre_output_pdf =>
    let rotation_angles := map (read_rotate fs) list_osd in
    lift (map_outcome (fun it =>
            match rotation_angles !! fst it with
            | Some angle => Ok (rotateClockwise angle (snd it))
            | None => Raise IndexError
            end) (imap (fun i page => (i, page)) pre_output_pdf))
      >>= fun final_output_pdf =>
    write_file param_dest_file (pdf_doc final_output_pdf)
  else rename param_source_file param_dest_file.

(** *** Start of a run: [ocr] up to [check_rebuild_pdf] *)

Definition check_avoid_file_by_size (o : options) (env : environment) : M unit :=
  match avoid_small_file_limit_kb o with
  | Some limit =>
      if Qlt_le_dec (inject_Z (input_size env) / 1024) (inject_Z limit)
      then cleanup o >>
           raise (Pdf2PdfOcrException "Input file is smaller than --min-kbytes. Exiting.")
      else ret tt
  | None => ret tt
  end.

Definition detect_file_type (env : environment) : M unit :=
  Popen env (cmd_file input_file) >>
  modify (set_input_file_type (mime_type env)).

Definition check_avoid_high_pages (o : options) : M unit :=
  get input_file_number_of_pages >>= fun n =>
  match n, avoid_high_pages_pages o with
  | Some n, Some limit =>
      if (n >? limit)%Z
      then cleanup o >>
           raise (Pdf2PdfOcrException
                    "Input file has more pages than the maximum (-b). Exiting.")
      else ret tt
  | _, _ => ret tt
  end.

Definition check_for_text (env : environment) : M bool :=
  Popen env (cmd_pdffonts input_file) >>
  ret (2 <? pdffonts_lines env)%nat.

Definition validate_pdf_input_file (o : options) (env : environment) : M unit :=
  match pdf_reader env with
  | None =>
      cleanup o >>
      raise (Pdf2PdfOcrException "Corrupted PDF file detected. Aborting...")
  | Some (number_of_pages, is_encrypted) =>
      modify (set_input_file_number_of_pages number_of_pages) >>
      check_avoid_high_pages o >>
      modify (set_input_file_is_encrypted is_encrypted) >>
      (if check_text_mode o
       then check_for_text env >>= fun t => modify (set_input_file_has_text t)
       else ret tt) >>
      get (fun s => (input_file_type s, input_file_has_text s, input_file_is_encrypted s))
        >>= fun '(type, has_text, encrypted) =>
      (if String.eqb type "application/pdf" && check_text_mode o && has_text
       then cleanup o >>
            raise (Pdf2PdfOcrException
                     "Input file already has text and check text mode is enabled. Exiting.")
       else ret tt) >>
      (if String.eqb type "application/pdf" && check_protection_mode o && encrypted
       then cleanup o >>
            raise (Pdf2PdfOcrException
                     "Input file is encrypted PDF and check encryption mode is enabled. Exiting.")
       else ret tt)
  end.

Definition check_rebuild_pdf (o : options) : M unit :=
  get (fun s => (input_file_is_encrypted s, input_file_type s))
    >>= fun '(encrypted, type) =>
  let rebuild := encrypted || negb (String.eqb type "application/pdf")
                 || use_deskew_mode o || force_rebuild_mode o in
  modify (set_rebuild_pdf_from_images rebuild) >>
  if rebuild && ignore_existing_text o
  then cleanup o >>
       raise (Pdf2PdfOcrException
                "Rebuild from images and ignore existing text won't work together")
  else ret tt.

(** [ocr]: the checks that precede any work, then the work itself
    ([define_output_files] and all that follows it), taken as given. *)
Definition ocr (o : options) (env : environment) (work : M unit) : M unit :=
  check_avoid_file_by_size o env >>
  detect_file_type env >>
  get input_file_type >>= fun type =>
  (if String.eqb type "application/pdf"
   then validate_pdf_input_file o env else ret tt) >>
  check_rebuild_pdf o >>
  work.

(** The page stages of [ocr], from the blank check to the rotation of the
    merged output, for an undeskewed run without a text sidecar. *)
Definition page_stages (o : options) (env : environment)
           (image_file_list : list string) : M unit :=
  check_blank_pages image_file_list >>
  autorotate_info o env image_file_list >>
  external_ocr o env image_file_list >>
  get ocr_ignored >>= fun ignored =>
  (if negb ignored then join_ocred_pdf o else ret tt) >>
  build_final_output o env >>
  autorotate_final_output o.

End Pipeline.

(** ** Vocabulary of the claims and sample data *)

Module Claims.

Import Hocr Pipeline.
Local Open Scope string_scope.

(** The three colour channels agree at every pixel. *)
Definition monochrome (im : image) : Prop :=
  Forall (fun p => fst (fst p) = snd (fst p) /\ fst (fst p) = snd p) (pixels im).

(** The image shows exactly one colour. *)
Definition single_color (im : image) : Prop :=
  exists c, pixels im <> [] /\ Forall (eq c) (pixels im).

(** Size of a raster page in points at a resolution. *)
Definition points_of_pixels (dim : Z * Z) (resolution : Z) : Q * Q :=
  (inject_Z (fst dim) / inject_Z resolution * 72,
   inject_Z (snd dim) / inject_Z resolution * 72)%Q.

(** The language used when none is given: [tess_langs] in [__init__]. *)
Definition default_tess_langs : string := "por+eng".

(** The pages [check_blank_pages] records, with their sizes. *)
Definition blank_entries (fs : gmap path file) (image_file_list : list string)
  : list (string * (Z * Z)) :=
  flat_map (fun x =>
              match read_image fs x with
              | Ok im => if is_blank (do_check_img_colors_size im)
                         then [(x, size im)] else []
              | Raise _ => []
              end) image_file_list.

(** The textless page written for a blank image. *)
Definition blank_pdf (dim : Z * Z) (resolution : Z) : file :=
  pdf_doc [mkPage (points_of_pixels dim resolution) [] 0].

(** The attributes that only the classifier writes are left alone. *)
Definition keeps_blank_pages (m : M unit) : Prop :=
  forall s, blank_pages (snd (m s)) = blank_pages s
            /\ blank_pages_dimensions (snd (m s)) = blank_pages_dimensions s.

(** [c] merges that image PDF with that text PDF into that result. *)
Definition is_merge_of (image_pdf text_pdf result_pdf : path) (c : command) : Prop :=
  c = cmd_qpdf_underlay image_pdf text_pdf result_pdf
  \/ c = cmd_qpdf_overlay text_pdf image_pdf result_pdf
  \/ c = cmd_multibackground image_pdf text_pdf result_pdf.

(** Events of the validation phase: probing the input with [file] and
    [pdffonts], and shutting the pool down. *)
Definition is_probe (ev : event) : bool :=
  match ev with
  | popen (cmd_file _) | popen (cmd_pdffonts _) | pool_terminated => true
  | _ => false
  end.

(** From [s] to [s'] nothing but probing happened. *)
Definition only_probed (s s' : state) : Prop :=
  exists evs, trace s' = (trace s ++ evs)%list /\ forallb is_probe evs = true.

(** What a validation stage can do: fail fatally, or go on to a state
    that satisfies [post]; either way it only probes. *)
Definition stage_ok (m : M unit) (s : state) (post : state -> Prop) : Prop :=
  only_probed s (snd (m s))
  /\ ((exists msg, fst (m s) = Raise (Pdf2PdfOcrException msg)
                   /\ main_pool (snd (m s)) = false)
      \/ (fst (m s) = Ok tt /\ post (snd (m s)))).

(** A run that ended in the pipeline's own fatal error, after cleanup. *)
Definition fatal (r : outcome unit * state) : Prop :=
  exists msg, fst r = Raise (Pdf2PdfOcrException msg) /\ main_pool (snd r) = false.

End Claims.

Module Examples.

Import Hocr Pipeline.
Local Open Scope string_scope.

(** Default flags: tesseract, 300 dpi, qpdf installed. *)
Definition default_options : options :=
  mkOptions false false false None None false "" false false "por+eng" 300
            "tesseract" true (Some "/usr/bin/qpdf") 4.

Definition options_without_qpdf : options :=
  mkOptions false false false None None false "" false false "por+eng" 300
            "tesseract" true None 4.

(** External programs that leave the workspace as it is. *)
Definition idle_env : environment :=
  mkEnv (fun _ fs => fs) (fun _ fs => fs)
        (fun s _ fontsize => (inject_Z (Z.of_nat (length s)) * fontsize / 2)%Q)
        100000 "application/pdf" (Some (Some 2, false)) 2
        (Some "/usr/bin/cuneiform") (Some "/usr/bin/pdf2ps") (Some "/usr/bin/ps2pdf").

Definition start_state (fs : gmap path file) : state :=
  mkState "" false false None false false [] [] true fs [].

Definition letter_page : pdf_page := mkPage (612, 792)%Q [] 0.
Definition small_text_page : pdf_page := mkPage (100, 100)%Q [] 0.

Definition merge_files : gmap path file :=
  <[input_file := pdf_doc [letter_page]]>
    (<[tmp_file "-ocr.pdf" := pdf_doc [small_text_page]]> ∅).

Definition rebuild_ignore_text_options : options :=
  mkOptions false true false None None true "" false false "por+eng" 300
            "tesseract" true (Some "/usr/bin/qpdf") 4.

(** Ghostscript rewrites the input, qpdf produces nothing. *)
Definition failing_merge_env : environment :=
  mkEnv (fun c fs =>
           match c with
           | cmd_pdf2ps _ dst => <[dst := data]> fs
           | cmd_ps2pdf _ dst => <[dst := pdf_doc [letter_page]]> fs
           | _ => fs
           end)
        (fun _ fs => fs)
        (fun s _ fontsize => (inject_Z (Z.of_nat (length s)) * fontsize / 2)%Q)
        100000 "application/pdf" (Some (Some 1, false)) 2
        (Some "/usr/bin/cuneiform") (Some "/usr/bin/pdf2ps") (Some "/usr/bin/ps2pdf").

(** A letter page at 300 dpi holding one line of two words, "Hi" and
    "there". *)
Definition sample_hocr : element :=
  Element "" "html" None None None None
    [Element "" "body" None None None None
       [Element "" "div" (Some "ocr_page") (Some (0, 0, 2550, 3300)) None None
          [Element "" "span" (Some "ocr_line") (Some (300, 400, 900, 450)) None None
             [Element "" "span" (Some "ocrx_word") (Some (300, 400, 500, 450))
                (Some [72; 105]%N) (Some [32]%N) [];
              Element "" "span" (Some "ocrx_word") (Some (520, 400, 900, 450))
                (Some [116; 104; 101; 114; 101]%N) (Some [10]%N) []]]]].

(** A font whose glyphs are all half as wide as they are high. *)
Definition sample_width (s : pystr) (fontname : string) (fontsize : Q) : Q :=
  (inject_Z (Z.of_nat (length s)) * fontsize / 2)%Q.

(** A letter page scanned at 300 dpi, all white, and one with ink. *)
Definition white_scan : image :=
  mkImage (2550, 3300) [(255, 255, 255); (255, 255, 255); (255, 255, 255)]%N.
Definition text_scan : image :=
  mkImage (2550, 3300) [(255, 255, 255); (0, 0, 0); (255, 255, 255)]%N.

(** An A4 page scanned at 300 dpi. *)
Definition a4_scan : image :=
  mkImage (2480, 3508) [(255, 255, 255); (0, 0, 0)]%N.

Definition a4_files : gmap path file :=
  <[page_file "P-1" ext_jpg := jpeg a4_scan]> ∅.

(** A document of two letter pages: the first blank, the second with
    text lying on its side. *)
Definition two_page_files : gmap path file :=
  <[input_file := pdf_doc [letter_page; letter_page]]>
    (<[page_file "P-1" ext_jpg := jpeg white_scan]>
       (<[page_file "P-2" ext_jpg := jpeg text_scan]> ∅)).

(** The same document with ink on the first page too. *)
Definition two_text_page_files : gmap path file :=
  <[input_file := pdf_doc [letter_page; letter_page]]>
    (<[page_file "P-1" ext_jpg := jpeg text_scan]>
       (<[page_file "P-2" ext_jpg := jpeg text_scan]> ∅)).

Definition recognized_word : text_object :=
  mkText "Helvetica" 12 3 (72, 700)%Q 100 [79; 67; 82]%N.

(** qpdf: page [i] of the result shows page [i] of both files. *)
Definition sandwich (image_pages text_pages : list pdf_page) : list pdf_page :=
  map (fun pp => mkPage (mediabox (fst pp))
                   (page_text (fst pp) ++ page_text (snd pp))%list
                   (rotation (fst pp)))
      (combine image_pages text_pages).

Definition qpdf_merge (image_pdf text_pdf result_pdf : path)
           (fs : gmap path file) : gmap path file :=
  match fs !! image_pdf, fs !! text_pdf with
  | Some (pdf_doc ip), Some (pdf_doc tp) => <[result_pdf := pdf_doc (sandwich ip tp)]> fs
  | _, _ => fs
  end.

(** Tools that work: tesseract finds page "P-2" turned by 90 degrees and
    every other page upright, and recognizes one word per page; qpdf
    merges. *)
Definition working_env : environment :=
  mkEnv (fun c fs =>
           match c with
           | cmd_tesseract_osd _ x =>
               <[page_file x ext_osd :=
                   osd_info (Some (if String.eqb x "P-2" then 90 else 0))]> fs
           | cmd_qpdf_overlay text_pdf image_pdf result_pdf =>
               qpdf_merge image_pdf text_pdf result_pdf fs
           | cmd_qpdf_underlay image_pdf text_pdf result_pdf =>
               qpdf_merge image_pdf text_pdf result_pdf fs
           | _ => fs
           end)
        (fun x fs =>
           <[page_file x ext_pdf := pdf_doc [mkPage (612, 792)%Q [recognized_word] 0]]>
             (<[page_file x ext_tmp := data]> fs))
        (fun s _ fontsize => (inject_Z (Z.of_nat (length s)) * fontsize / 2)%Q)
        100000 "application/pdf" (Some (Some 2, false)) 2
        (Some "/usr/bin/cuneiform") (Some "/usr/bin/pdf2ps") (Some "/usr/bin/ps2pdf").

Definition autorotate_options : options :=
  mkOptions false false false None None false "" false true "por+eng" 300
            "tesseract" true (Some "/usr/bin/qpdf") 4.

(** The state when the page stages begin: type and page count known. *)
Definition staged_state (fs : gmap path file) : state :=
  mkState "application/pdf" false false (Some 2) false false [] [] true fs [].

End Examples.

(** ** Vocabulary of further properties *)

Module Properties.

Import Hocr Pipeline.
Local Open Scope string_scope.

(** Page [p] lies in the range. *)
Definition in_range (p : Z) (r : Ranges.page_range) : bool :=
  (fst r <=? p)%Z && (p <=? snd r)%Z.

(** Neither of the two ligatures that [replace_unsupported_chars] removes. *)
Definition no_ligature (s : pystr) : Prop :=
  Forall (fun c => c <> 64257%N /\ c <> 64258%N) s.

(** The bounding boxes drawn on a canvas. *)
Definition rects_of (l : list canvas_op) : list canvas_op :=
  List.filter (fun op => match op with rect _ _ _ _ _ => true | _ => false end) l.

(** Paragraphs that carry text. *)
Definition text_paragraphs (root : element) : list element :=
  List.filter (fun e => negb (length (rstrip (_get_element_text e)) =? 0)%nat)
    (findall root (root_xmlns root +:+ "p") "ocr_par").

(** The state a [cleanup] leaves: the pool is gone and, unless temporary
    files are kept, so is everything in the temporary directory. *)
Definition cleaned (o : options) (s : state) : Prop :=
  main_pool s = false
  /\ (delete_temps o = true ->
      forall p, in_tmp_dir p = true -> files s !! p = None).

(** Whenever [m] ends in the pipeline's own exception, it ends cleaned
    up. *)
Definition fatal_after_cleanup {A} (o : options) (m : M A) : Prop :=
  forall s msg,
    fst (m s) = Raise (Pdf2PdfOcrException msg) -> cleaned o (snd (m s)).

(** The page images handed to the OCR pool, in the order of handing. *)
Definition submitted (evs : list event) : list string :=
  flat_map (fun ev => match ev with submit_ocr _ x => [x] | _ => [] end) evs.

(** The page images handed to [convert], each with the parameters it was
    converted with, in the order of the calls. *)
Definition conversions (evs : list event) : list (string * string) :=
  flat_map (fun ev => match ev with
                      | popen (cmd_convert x convert_params) => [(x, convert_params)]
                      | _ => []
                      end) evs.

(** [m] starts no [convert]. *)
Definition no_conversion {A} (m : M A) : Prop :=
  forall s, conversions (trace (snd (m s))) = conversions (trace s).

End Properties.

Module MoreExamples.

Import Hocr Pipeline.
Local Open Scope string_scope.


(** A workspace whose input is not a PDF at all, beside a sound text
    layer. *)
Definition unreadable_input_files : gmap path file :=
  <[input_file := data]>
    (<[tmp_file "-ocr.pdf" := pdf_doc [Examples.small_text_page]]> ∅).

Definition no_ocr_options : options :=
  mkOptions false false false None None false "" false false "por+eng" 300
            "no_ocr" true (Some "/usr/bin/qpdf") 4.

(** A merged two-page output beside the orientation records of its pages:
    the first turned by 90 degrees, the second without a [Rotate] entry. *)
Definition oriented_output_files : gmap path file :=
  <[tmp_file "-OUTPUT.pdf"
    := pdf_doc [Examples.letter_page; Examples.small_text_page]]>
    (<[page_file "P-1" ext_osd := osd_info (Some 90)]>
       (<[page_file "P-2" ext_osd := osd_info None]> ∅)).

(** A scan with a red mark, and a workspace of two page images of which
    the second is that scan. *)
Definition colour_scan : image :=
  mkImage (2550, 3300) [(255, 255, 255); (200, 30, 30)]%N.

Definition colour_page_files : gmap path file :=
  <[page_file "P-1" ext_jpg := jpeg Examples.text_scan]>
    (<[page_file "P-2" ext_jpg := jpeg colour_scan]> ∅).

(** A forced rebuild in smart mode. *)
Definition smart_rebuild_options : options :=
  mkOptions false false false None None true "smart" false false "por+eng" 300
            "tesseract" true (Some "/usr/bin/qpdf") 4.

(** Inputs under 100 KBytes are turned away. *)
Definition small_file_options : options :=
  mkOptions false false false None (Some 100) false "" false false "por+eng" 300
            "tesseract" true (Some "/usr/bin/qpdf") 4.

End MoreExamples.

(** ** The producer signature: [edit_producer] *)

Module Producer.

Import Pipeline.
Local Open Scope string_scope.

(** The values of a PDF information dictionary as [edit_producer] tells
    them apart: a [str] (text strings and names), a [ByteStringObject],
    and everything else (numbers, arrays, dictionaries, ...), which
    neither [+] with a [str] nor [createStringObject] accepts. *)
Inductive pdf_value : Type :=
| TextString (s : pystr)
| ByteString (b : list N)
| OtherObject.

(** How [edit_producer] ends: it catches the [TypeError] of
    [createStringObject] only. *)
Inductive result (A : Type) : Type :=
| Done (a : A)
| TypeError.
Arguments Done {A} a.
Arguments TypeError {A}.

Definition pystr_of (s : string) : pystr :=
  map N_of_ascii (list_ascii_of_string s).

(** [x in string.printable] *)
Definition is_printable (c : pychar) : bool :=
  ((32 <=? c) && (c <=? 126) || (9 <=? c) && (c <=? 13))%N.

Definition our_name : pystr := pystr_of "PDF2PDFOCR(github.com/LeoFCardoso/pdf2pdfocr)".
Definition producer_key : string := "/Producer".

Section EditProducer.

(** [str(value, errors=ignore)] on a byte string. *)
Variable decode : list N -> pystr.

(** [value + "; " + our_name], after the byte string case. *)
Definition sign (value : pdf_value) : result pdf_value :=
  match value with
  | ByteString b =>
      Done (TextString (List.filter is_printable (decode b)
                        ++ pystr_of "; " ++ our_name)%list)
  | TextString t => Done (TextString (t ++ pystr_of "; " ++ our_name)%list)
  | OtherObject => TypeError
  end.

(** One round of the loop over [input_file_metadata]. *)
Definition copy_property (key : string) (value : pdf_value)
           (st : gmap string pdf_value * bool) : result (gmap string pdf_value * bool) :=
  let '(info_dict_output, read_producer) := st in
  match (if String.eqb key producer_key
         then match sign value with
              | Done value => Done (value, true)
              | TypeError => TypeError
              end
         else Done (value, read_producer)) with
  | Done (value, read_producer) =>
      match value with
      | OtherObject => Done (info_dict_output, read_producer)   (* except TypeError *)
      | _ => Done (<[key := value]> info_dict_output, read_producer)
      end
  | TypeError => TypeError
  end.

Fixpoint copy_properties (metadata : list (string * pdf_value))
         (st : gmap string pdf_value * bool) : result (gmap string pdf_value * bool) :=
  match metadata with
  | [] => Done st
  | (key, value) :: rest =>
      match copy_property key value st with
      | Done st' => copy_properties rest st'
      | TypeError => TypeError
      end
  end.

(** [edit_producer]: the pages of the rotated output and the information
    dictionary written with them.  [input_file_metadata] lists the input's
    dictionary in the order of its keys. *)
Definition edit_producer (pre_output_pdf : list pdf_page)
           (input_file_metadata : option (list (string * pdf_value)))
  : result (list pdf_page * gmap string pdf_value) :=
  match (match input_file_metadata with
         | Some metadata => copy_properties metadata (∅, false)
         | None => Done (∅, false)
         end) with
  | Done (info_dict_output, read_producer) =>
      let info_dict_output :=
        if negb read_producer
        then <[producer_key := TextString our_name]> info_dict_output
        else info_dict_output in
      Done (pre_output_pdf, info_dict_output)
  | TypeError => TypeError
  end.

End EditProducer.

(** A decoder for the samples: bytes below 128 stand for themselves, the
    others are dropped. *)
Definition ascii_decode (b : list N) : pystr := List.filter (fun c => (c <? 128)%N) b.

Definition sample_metadata : list (string * pdf_value) :=
  [("/Title", TextString (pystr_of "Scan"));
   ("/Producer", ByteString [71; 83; 7; 200]%N);
   ("/Trapped", OtherObject)].

(** The dictionary written for [sample_metadata]. *)
Definition sample_info : gmap string pdf_value :=
  <["/Title" := TextString (pystr_of "Scan")]>
    (<[producer_key := TextString (pystr_of "GS; " ++ our_name)%list]> ∅).

End Producer.

(** ** The batch: the main loop over the files to process *)

Module Batch.

Local Open Scope string_scope.

(** [future_pdf2ocr.result(timeout)]: the run ended in time, or not. *)
Inductive future : Type :=
| finished (r : outcome unit)
| TimeoutError.

Section Main.

(** [Pdf2PdfOcr(pdf2ocr_args, file_to_process)] and its [ocr()]. *)
Variable ocr : string -> outcome unit.
(** The same run under a time limit in seconds. *)
Variable result : string -> Z -> future.
(** [pdf2ocr_args.timeout] *)
Variable timeout : option Z.

(** The body of the [try] in the main loop.  A limit of zero is no
    limit: [if pdf2ocr_args.timeout:]. *)
Definition process (file_to_process : string) : outcome unit :=
  match timeout with
  | Some t =>
      if (t =? 0)%Z then ocr file_to_process
      else match result file_to_process t with
           | finished r => r
           | TimeoutError =>
               Raise (Pdf2PdfOcrException
                        ("Script stopped due to timeout of " ++ pretty t ++ " seconds"))
           end
  | None => ocr file_to_process
  end.

(** The main loop: the files started so far and [all_success]. *)
Fixpoint loop (file_to_process_list : list string) (all_success : bool)
         (started : list string) : list string * outcome bool :=
  match file_to_process_list with
  | [] => (started, Ok all_success)
  | file_to_process :: rest =>
      match process file_to_process with
      | Ok _ => loop rest all_success (started ++ [file_to_process])%list
      | Raise (Pdf2PdfOcrException _) => loop rest false (started ++ [file_to_process])%list
      | Raise e => ((started ++ [file_to_process])%list, Raise e)
      end
  end.

(** The files started and the exit status. *)
Definition main (file_to_process_list : list string) : list string * outcome Z :=
  match loop file_to_process_list true [] with
  | (started, Ok all_success) => (started, Ok (if all_success then 0 else 1))
  | (started, Raise e) => (started, Raise e)
  end.

End Main.

(** The run ends well or in the pipeline's own exception. *)
Definition handled (r : outcome unit) : Prop :=
  r = Ok tt \/ exists msg, r = Raise (Pdf2PdfOcrException msg).

(** Sample runs: one corrupted input, one that trips over an index, one
    that takes too long under any limit. *)
Definition sample_ocr (f : string) : outcome unit :=
  if String.eqb f "bad.pdf"
  then Raise (Pdf2PdfOcrException "Corrupted PDF file detected. Aborting...")
  else if String.eqb f "odd.pdf" then Raise IndexError
  else Ok tt.

Definition sample_result (f : string) (t : Z) : future :=
  if String.eqb f "slow.pdf" then TimeoutError else finished (sample_ocr f).

End Batch.

(** ** From the input to page images: [convert_input_to_images] *)

Module Rasterize.

Import Ranges.
Local Open Scope string_scope.

(** [int(x)] of a float: the fraction is cut off. *)
Definition pyint (x : Q) : Z := Z.quot (Qnum x) (Zpos (Qden x)).

(** [cpu_to_use] in [__init__]; [product] is the float
    [multiprocessing.cpu_count() * self.parallel_threshold]. *)
Definition cpu_to_use (product : Q) : Z :=
  let cpu_to_use := pyint product in
  if (cpu_to_use =? 0)%Z then 1%Z else cpu_to_use.

(** The file [pdftoppm] reads: the input, or its copy without text. *)
Inductive images_source : Type :=
| the_input_file
| input_file_for_images.

Inductive raster_command : Type :=
| gs_filtertext
    (* gs -o input_file_for_images -sDEVICE=pdfwrite -dFILTERTEXT input_file *)
| pdftoppm (param_page_range : option page_range) (param_input_file : images_source)
           (param_image_resolution : Z)
    (* pdftoppm [-f first -l last] -r resolution -jpeg file tmp_dir/prefix *)
| convert_scene.
    (* convert input_file -quality 100 -scene 1 tmp_dir/prefix-%09d.jpg *)

Inductive raster_event : Type :=
| started (c : raster_command)
| cleanup_called.

Section ConvertInputToImages.

(** The return code of each program run. *)
Variable returncode : raster_command -> Z.

(** The text filter of [convert_input_to_images]: [path_gs] is [None]
    when ghostscript is not installed, and [subprocess.Popen] refuses a
    program that is [None]. *)
Definition filter_text (path_gs : option string) (ignore_existing_text : bool)
  : outcome (list raster_event) :=
  if ignore_existing_text
  then match path_gs with
       | Some _ => Ok [started gs_filtertext]
       | None => Raise (TypeError "expected str, bytes or os.PathLike object, not NoneType")
       end
  else Ok [].

(** [convert_input_to_images]: what it starts, in order, and how it
    ends. *)
Definition convert_input_to_images (path_gs : option string) (input_file_type : string)
           (ignore_existing_text : bool) (input_file_number_of_pages : option Z)
           (cpu_to_use image_resolution : Z) : list raster_event * outcome unit :=
  if String.eqb input_file_type "application/pdf"
  then
    let input_file_for_images_ :=
      if ignore_existing_text then input_file_for_images else the_input_file in
    match filter_text path_gs ignore_existing_text with
    | Raise e => ([], Raise e)
    | Ok p_ignore_text =>
        match calculate_ranges input_file_number_of_pages cpu_to_use with
        | Raise e => (p_ignore_text, Raise e)
        | Ok parallel_page_ranges =>
            let calls :=
              match parallel_page_ranges with
              | Some ranges =>
                  map (fun r => pdftoppm (Some r) input_file_for_images_ image_resolution)
                      ranges
              | None => [pdftoppm None input_file_for_images_ image_resolution]
              end in
            let do_pdftoimage_result_codes := map returncode calls in
            if negb (forallb (fun ret_code => (ret_code =? 0)%Z)
                       do_pdftoimage_result_codes)
            then ((p_ignore_text ++ map started calls ++ [cleanup_called])%list,
                  Raise (Pdf2PdfOcrException "Fail to create images from PDF. Exiting."))
            else ((p_ignore_text ++ map started calls)%list, Ok tt)
        end
    end
  else
    if existsb (String.eqb input_file_type) ["image/tiff"; "image/jpeg"; "image/png"]
    then ([started convert_scene], Ok tt)
    else ([cleanup_called],
          Raise (Pdf2PdfOcrException
                   (input_file_type ++ " is not supported in this script. Exiting."))).

End ConvertInputToImages.

(** How many of the [pdftoppm] runs started turn page [p] into an image;
    a run without a range takes every page. *)
Definition times_rasterized (p : Z) (evs : list raster_event) : nat :=
  length (List.filter (fun ev => match ev with
                                 | started (pdftoppm (Some r) _ _) =>
                                     (fst r <=? p)%Z && (p <=? snd r)%Z
                                 | started (pdftoppm None _ _) => true
                                 | _ => false
                                 end) evs).

(** The files the [pdftoppm] runs started read. *)
Definition sources_read (evs : list raster_event) : list images_source :=
  flat_map (fun ev => match ev with
                      | started (pdftoppm _ f _) => [f]
                      | _ => []
                      end) evs.

End Rasterize.

Section RangesFacts.
Import Ranges.

Lemma ceil_div_bounds a b :
  0 < b -> b * (ceil_div a b - 1) < a <= b * ceil_div a b.
Proof.
  intros Hb. unfold ceil_div.
  pose proof (Z.div_mod (- a) b ltac:(lia)) as Hdm.
  pose proof (Z.mod_pos_bound (- a) b Hb) as Hm.
  nia.
Qed.

Lemma ceil_div_pos a b : 0 < b -> 0 < a -> 0 < ceil_div a b.
Proof.
  intros Hb Ha. pose proof (ceil_div_bounds a b Hb). nia.
Qed.

Lemma check_pages_acc rs acc :
  fold_left (fun acc r => acc + ((snd r - fst r) + 1)) rs acc
  = acc + total_length rs.
Proof.
  revert acc. induction rs as [|r rs IH]; intros acc; simpl.
  - unfold total_length. simpl. lia.
  - rewrite IH. unfold total_length, range_length. simpl. lia.
Qed.

Lemma check_pages_total rs : check_pages rs = total_length rs.
Proof. unfold check_pages. rewrite check_pages_acc. lia. Qed.

Lemma partition_total size n s rs :
  partition_from size n s rs -> total_length rs = n - s + 1.
Proof.
  induction 1 as [s Hs Hn | s rest Hlt Hrest IH].
  - unfold total_length, range_length. simpl. lia.
  - unfold total_length in *. simpl. rewrite IH.
    unfold range_length. simpl. lia.
Qed.

(** The loop, started at index [a] and run for [S m] more rounds. *)
Lemma loop_partition size n m : forall a : nat,
  0 < size ->
  size * (Z.of_nat a + Z.of_nat m) < n <= size * (Z.of_nat a + Z.of_nat m + 1) ->
  partition_from size n (size * Z.of_nat a + 1)
    (map (fun i => make_range n size (Z.of_nat i)) (seq a (S m))).
Proof.
  induction m as [|m IH]; intros a Hsize Hn.
  - simpl. unfold make_range.
    destruct (Z.gtb_spec (size * Z.of_nat a + size) n).
    + apply partition_last; lia.
    + assert (n = size * Z.of_nat a + size) as -> by lia.
      apply partition_last; lia.
  - change (seq a (S (S m))) with (a :: seq (S a) (S m)).
    rewrite map_cons. unfold make_range at 1.
    destruct (Z.gtb_spec (size * Z.of_nat a + size) n); [lia|].
    replace (size * Z.of_nat a + size)
      with (size * Z.of_nat a + 1 + size - 1) by lia.
    apply partition_step; [lia|].
    replace (size * Z.of_nat a + 1 + size)
      with (size * Z.of_nat (S a) + 1) by lia.
    apply IH; lia.
Qed.

Lemma range_loop_partition n w :
  20 <= n -> 1 <= w ->
  partition_from (ceil_div n w) n 1
    (range_loop n (ceil_div n w) (ceil_div n (ceil_div n w))).
Proof.
  intros Hn Hw.
  set (size := ceil_div n w).
  assert (0 < size) as Hsize by (apply ceil_div_pos; lia).
  pose proof (ceil_div_bounds n size Hsize) as Hk.
  set (k := ceil_div n size) in *.
  assert (0 < k) as Hkpos by (apply ceil_div_pos; lia).
  unfold range_loop.
  destruct (Z.to_nat k) as [|m] eqn:Ek; [lia|].
  replace 1 with (size * Z.of_nat 0 + 1) by lia.
  apply loop_partition; [exact Hsize|].
  assert (k = Z.of_nat m + 1) as Hkm by lia.
  rewrite Hkm in Hk. simpl Z.of_nat.
  split; [|lia].
  replace (size * (0 + Z.of_nat m)) with (size * (Z.of_nat m + 1 - 1)); lia.
Qed.

Lemma ilog2_lower a b :
  0 < a -> 0 < b ->
  (0 <= ilog2 a b -> b * 2 ^ ilog2 a b <= a)
  /\ (ilog2 a b < 0 -> b <= a * 2 ^ (- ilog2 a b)).
Proof.
  intros Ha Hb. unfold ilog2.
  pose proof (Z.log2_spec a Ha) as [Ha1 Ha2].
  pose proof (Z.log2_spec b Hb) as [Hb1 Hb2].
  pose proof (Z.log2_nonneg a) as Hla. pose proof (Z.log2_nonneg b) as Hlb.
  set (la := Z.log2 a) in *. set (lb := Z.log2 b) in *.
  rewrite Z.pow_succ_r in Ha2, Hb2 by assumption.
  destruct (Z.leb_spec 0 (la - lb)) as [Hd | Hd].
  - destruct (Z.leb_spec (b * 2 ^ (la - lb)) a) as [Ht | Ht].
    + split; [intros _; exact Ht | lia].
    + (* L = d - 1 *)
      split.
      * intros HL.
        assert (2 ^ la = 2 * 2 ^ lb * 2 ^ (la - lb - 1)) as Hpow.
        { rewrite <- Z.pow_succ_r, <- Z.pow_add_r by lia. f_equal. lia. }
        assert (0 < 2 ^ (la - lb - 1)) by (apply Z.pow_pos_nonneg; lia).
        nia.
      * intros HL.
        assert (la - lb = 0) as Hz by lia.
        replace (- (la - lb - 1)) with 1 by lia. rewrite Hz in Ht.
        assert (la = lb) as Heq by lia. rewrite Heq in *.
        change (2 ^ 1) with 2. lia.
  - destruct (Z.leb_spec b (a * 2 ^ (- (la - lb)))) as [Ht | Ht].
    + split; [lia | intros _; exact Ht].
    + split; [lia|]. intros _.
      assert (2 * 2 ^ lb = 2 ^ la * 2 ^ (- (la - lb - 1))) as Hpow.
      { rewrite <- Z.pow_succ_r, <- Z.pow_add_r by lia. f_equal. lia. }
      assert (0 < 2 ^ (- (la - lb - 1))) by (apply Z.pow_pos_nonneg; lia).
      nia.
Qed.

Lemma round_half_even_le num den M :
  0 < den -> num <= M * den -> round_half_even num den <= M.
Proof.
  intros Hden Hle. unfold round_half_even.
  pose proof (Z.div_mod num den ltac:(lia)) as Hdm.
  pose proof (Z.mod_pos_bound num den Hden) as Hm.
  assert (num / den <= M) as Hf by nia.
  destruct (Z.compare_spec (2 * (num mod den)) den) as [Hc | Hc | Hc].
  - destruct (Z.even (num / den)); [lia|]. nia.
  - lia.
  - nia.
Qed.

Lemma round_half_even_gt num den K :
  0 < den -> (2 * K + 1) * den < 2 * num -> K < round_half_even num den.
Proof.
  intros Hden Hlt. unfold round_half_even.
  pose proof (Z.div_mod num den ltac:(lia)) as Hdm.
  pose proof (Z.mod_pos_bound num den Hden) as Hm.
  assert (K <= num / den) as Hf by nia.
  destruct (Z.compare_spec (2 * (num mod den)) den) as [Hc | Hc | Hc].
  - destruct (Z.even (num / den)); [|lia]. nia.
  - nia.
  - lia.
Qed.

Lemma Qceiling_dyadic m E k :
  0 <= E -> k * 2 ^ E < m <= (k + 1) * 2 ^ E ->
  math_ceil (dyadic m (- E)) = k + 1.
Proof.
  intros HE Hm. unfold math_ceil, dyadic.
  assert (0 < 2 ^ E) as Hp by (apply Z.pow_pos_nonneg; lia).
  destruct (Z.leb_spec 0 (- E)) as [Hz | Hneg].
  - assert (E = 0) as -> by lia. cbn [Z.opp]. change (2 ^ 0) with 1 in *.
    rewrite Qceiling_Z. lia.
  - rewrite Z.opp_involutive. unfold Qceiling, Qfloor, Qopp. cbn [Qnum Qden].
    rewrite Z2Pos.id by exact Hp.
    pose proof (Z.div_mod (- m) (2 ^ E) ltac:(lia)) as Hdm.
    pose proof (Z.mod_pos_bound (- m) (2 ^ E) Hp) as Hmod.
    nia.
Qed.

Lemma dyadic_le m E c :
  0 <= E -> m <= c * 2 ^ E -> (dyadic m (- E) <= inject_Z c)%Q.
Proof.
  intros HE Hm. unfold dyadic.
  assert (0 < 2 ^ E) as Hp by (apply Z.pow_pos_nonneg; lia).
  destruct (Z.leb_spec 0 (- E)) as [Hz | Hneg].
  - assert (E = 0) as -> by lia. cbn [Z.opp]. change (2 ^ 0) with 1 in *.
    rewrite <- Zle_Qle. lia.
  - rewrite Z.opp_involutive. unfold Qle, inject_Z. cbn [Qnum Qden].
    rewrite Z2Pos.id by exact Hp. lia.
Qed.

(** Below 2^53 the float quotient has the ceiling of the exact one. *)
Lemma true_divide_ceil a b :
  1 <= a < 2 ^ 53 -> 1 <= b < 2 ^ 53 ->
  exists q, true_divide a b = Ok q /\ math_ceil q = ceil_div a b.
Proof.
  intros Ha Hb. unfold true_divide.
  replace (b =? 0) with false by (symmetry; apply Z.eqb_neq; lia).
  replace (a =? 0) with false by (symmetry; apply Z.eqb_neq; lia).
  rewrite (Z.abs_eq a), (Z.abs_eq b) by lia.
  replace (Z.sgn a) with 1 by (symmetry; apply Z.sgn_pos; lia).
  replace (Z.sgn b) with 1 by (symmetry; apply Z.sgn_pos; lia).
  unfold nearest_binary64.
  destruct (ilog2_lower a b ltac:(lia) ltac:(lia)) as [Hpos Hneg].
  set (L := ilog2 a b) in *.
  assert (L <= 52) as HL.
  { destruct (Z.le_gt_cases L 52) as [H | H]; [exact H | exfalso].
    specialize (Hpos ltac:(lia)).
    assert (2 ^ 53 <= 2 ^ L) by (apply Z.pow_le_mono_r; lia). nia. }
  set (e := Z.max (L - 52) (-1074)).
  assert (e <= 0) as He by lia.
  set (E := - e). assert (0 <= E) as HE by lia.
  assert (0 < 2 ^ E) as Hp by (apply Z.pow_pos_nonneg; lia).
  assert (b < 2 * 2 ^ E) as Hsmall.
  { rewrite <- Z.pow_succ_r by exact HE.
    destruct (Z.max_spec (L - 52) (-1074)) as [[_ Hmax] | [_ Hmax]].
    - (* e = -1074 *)
      assert (2 ^ 53 <= 2 ^ Z.succ E) by (apply Z.pow_le_mono_r; lia). lia.
    - (* e = L - 52 *)
      assert (Z.succ E = 53 - L) as -> by lia.
      destruct (Z.le_gt_cases 0 L) as [H0 | H0].
      + specialize (Hpos H0).
        assert (2 ^ 53 = 2 ^ (53 - L) * 2 ^ L) as Hpow
            by (rewrite <- Z.pow_add_r by lia; f_equal; lia).
        assert (0 < 2 ^ L) by (apply Z.pow_pos_nonneg; lia). nia.
      + specialize (Hneg H0).
        assert (2 ^ (53 - L) = 2 ^ 53 * 2 ^ (- L)) as Hpow
            by (rewrite <- Z.pow_add_r by lia; f_equal; lia).
        assert (0 < 2 ^ (- L)) by (apply Z.pow_pos_nonneg; lia). nia. }
  pose proof (ceil_div_bounds a b ltac:(lia)) as Hk.
  set (k := ceil_div a b - 1) in *.
  assert (ceil_div a b = k + 1) as Hc by lia. rewrite Hc in *.
  set (m := if 0 <=? e then round_half_even a (b * 2 ^ e)
            else round_half_even (a * 2 ^ E) b).
  assert (m = round_half_even (a * 2 ^ E) b) as Hm.
  { subst m. destruct (Z.leb_spec 0 e) as [H0 | H0]; [|reflexivity].
    assert (e = 0) as He0 by lia. subst E. rewrite He0. cbn [Z.opp].
    change (2 ^ 0) with 1. rewrite !Z.mul_1_r. reflexivity. }
  assert (k * 2 ^ E < m <= (k + 1) * 2 ^ E) as Hbounds.
  { rewrite Hm. split.
    - apply round_half_even_gt; [lia|]. nia.
    - apply round_half_even_le; [lia|]. nia. }
  clearbody m.
  replace e with (- E) by (subst E; lia).
  assert (Qle_bool (inject_Z (2 ^ 1024)) (dyadic m (- E)) = false) as ->.
  { apply not_true_is_false. intros Hov. apply Qle_bool_iff in Hov.
    pose proof (dyadic_le m E (k + 1) HE ltac:(lia)) as Hle.
    pose proof (Qle_trans _ _ _ Hov Hle) as Hbad.
    rewrite <- Zle_Qle in Hbad.
    assert (2 ^ 53 <= 2 ^ 1024) by (apply Z.pow_le_mono_r; lia). nia. }
  eexists. split; [reflexivity|].
  replace (1 * 1 * m) with m by lia.
  apply Qceiling_dyadic; assumption.
Qed.

Lemma ceil_div_le a b : 1 <= b -> 1 <= a -> 1 <= ceil_div a b <= a.
Proof.
  intros Hb Ha. pose proof (ceil_div_bounds a b ltac:(lia)). nia.
Qed.

Lemma calculate_ranges_unfold n w :
  20 <= n < 2 ^ 53 -> 1 <= w < 2 ^ 53 ->
  calculate_ranges (Some n) w
  = check_result n (range_loop n (ceil_div n w) (ceil_div n (ceil_div n w))).
Proof.
  intros Hn Hw. unfold calculate_ranges.
  destruct (Z.ltb_spec n 20); [lia|].
  destruct (true_divide_ceil n w ltac:(lia) Hw) as (q & Hq & Hc).
  rewrite Hq. cbn [rbind]. cbv zeta. rewrite Hc.
  pose proof (ceil_div_le n w ltac:(lia) ltac:(lia)) as Hsize.
  destruct (true_divide_ceil n (ceil_div n w) ltac:(lia) ltac:(lia)) as (q' & Hq' & Hc').
  rewrite Hq'. cbn [rbind]. rewrite Hc'. reflexivity.
Qed.







End RangesFacts.

(** ** Facts about the hOCR synthesizer *)

Section HocrFacts.
Import Hocr.
Variable stringWidth : pystr -> string -> Q -> Q.

Lemma texts_of_app l1 l2 : texts_of (l1 ++ l2) = texts_of l1 ++ texts_of l2.
Proof. unfold texts_of. apply flat_map_app. Qed.

Lemma inject_Z_nonzero d : d <> 0 -> ~ (inject_Z d == 0)%Q.
Proof.
  intros Hd H. apply Hd. unfold Qeq in H. simpl in H. lia.
Qed.

Lemma pydiv_ok a b : ~ (b == 0)%Q -> pydiv a b = Ok (a / b)%Q.
Proof.
  intros Hb. unfold pydiv.
  destruct (Qeq_bool b 0) eqn:E; [|reflexivity].
  apply Qeq_bool_iff in E. contradiction.
Qed.

Lemma pt_from_pixel_ok d pxl :
  d <> 0 ->
  pt_from_pixel d pxl
  = Ok (mkRect (inject_Z (x1 pxl) / inject_Z d * inch)
               (inject_Z (y1 pxl) / inject_Z d * inch)
               (inject_Z (x2 pxl) / inject_Z d * inch)
               (inject_Z (y2 pxl) / inject_Z d * inch))%Q.
Proof.
  intros Hd. unfold pt_from_pixel.
  rewrite !pydiv_ok by (apply inject_Z_nonzero; exact Hd).
  reflexivity.
Qed.






End HocrFacts.



(** ** Facts about the sandwich merger *)

Section MergeFacts.
Import Pipeline Claims Examples.
Local Open Scope string_scope.

Lemma merge_ocr_with_qpdf o env image text result tag s q A B :
  path_qpdf o = Some q ->
  first_page_area (files s) image = Ok A ->
  first_page_area (files s) text = Ok B ->
  _merge_ocr o env image text result tag s
  = Popen env (merge_command (Some q) (Some A) B image text result) s.
Proof.
  intros Hq HA HB. unfold _merge_ocr, bind, get, lift, ret.
  rewrite Hq, HA, HB. reflexivity.
Qed.

(** C2, amended. When the merge tool qpdf is installed and the first
    pages of both files can be read, with areas [A] (image PDF) and [B]
    (text PDF): if [B < A] the command run is
    [qpdf --underlay image -- text result], otherwise it is
    [qpdf --overlay text -- image result]. *)
Theorem merge_direction_by_area o env image text result tag s q (A B : Q) :
  path_qpdf o = Some q ->
  first_page_area (files s) image = Ok A ->
  first_page_area (files s) text = Ok B ->
  ((B < A)%Q ->
   _merge_ocr o env image text result tag s
   = Popen env (cmd_qpdf_underlay image text result) s)
  /\ ((A <= B)%Q ->
      _merge_ocr o env image text result tag s
      = Popen env (cmd_qpdf_overlay text image result) s).
Proof.
  intros Hq HA HB.
  rewrite (merge_ocr_with_qpdf _ _ _ _ _ _ _ _ _ _ Hq HA HB).
  unfold merge_command.
  split; intros Hcmp; destruct (Qlt_le_dec B A) as [Hlt | Hle]; try reflexivity.
  - exfalso. exact (Qle_not_lt _ _ Hle Hcmp).
  - exfalso. exact (Qle_not_lt _ _ Hcmp Hlt).
Qed.

Lemma merge_direction_by_area_witness :
  _merge_ocr default_options idle_env input_file (tmp_file "-ocr.pdf")
    (tmp_file "-OUTPUT.pdf") "final-output" (start_state merge_files)
  = Popen idle_env
      (cmd_qpdf_underlay input_file (tmp_file "-ocr.pdf") (tmp_file "-OUTPUT.pdf"))
      (start_state merge_files).
Proof.
  refine (proj1 (merge_direction_by_area default_options idle_env input_file
                   (tmp_file "-ocr.pdf") (tmp_file "-OUTPUT.pdf") "final-output"
                   (start_state merge_files) "/usr/bin/qpdf"
                   (612 * 792)%Q (100 * 100)%Q _ _ _) _).
  - reflexivity.
  - vm_compute. reflexivity.
  - vm_compute. reflexivity.
  - reflexivity.
Defined.

(** C2 as stated fails when qpdf is not installed: the text page
    (100 x 100) is smaller than the image page (612 x 792), yet no
    underlay command is run; the page-by-page helper is started
    instead, whatever the areas. *)
Lemma merge_direction_without_qpdf :
  first_page_area merge_files (tmp_file "-ocr.pdf") = Ok (100 * 100)%Q
  /\ first_page_area merge_files input_file = Ok (612 * 792)%Q
  /\ (100 * 100 < 612 * 792)%Q
  /\ trace (snd (_merge_ocr options_without_qpdf idle_env input_file
                  (tmp_file "-ocr.pdf") (tmp_file "-OUTPUT.pdf") "final-output"
                  (start_state merge_files)))
     = [popen (cmd_multibackground input_file (tmp_file "-ocr.pdf")
                 (tmp_file "-OUTPUT.pdf"))]
  /\ trace (snd (_merge_ocr options_without_qpdf idle_env input_file
                  (tmp_file "-ocr.pdf") (tmp_file "-OUTPUT.pdf") "final-output"
                  (start_state merge_files)))
     <> [popen (cmd_qpdf_underlay input_file (tmp_file "-ocr.pdf")
                  (tmp_file "-OUTPUT.pdf"))].
Proof.
  split; [vm_compute; reflexivity|].
  split; [vm_compute; reflexivity|].
  split; [reflexivity|].
  split; [reflexivity|].
  intros H. discriminate H.
Qed.

Lemma cleanup_main_pool o s : main_pool (snd (cleanup o s)) = false.
Proof.
  unfold cleanup, modify. cbn [snd].
  destruct (main_pool s) eqn:E; destruct (delete_temps o); cbn; try exact E;
    reflexivity.
Qed.

Lemma merge_ocr_cases o env image text result tag s :
  (exists e, _merge_ocr o env image text result tag s = (Raise e, s))
  \/ (exists c, is_merge_of image text result c
                /\ _merge_ocr o env image text result tag s = Popen env c s).
Proof.
  unfold _merge_ocr, bind, get, lift, ret, raise, merge_command, is_merge_of.
  destruct (path_qpdf o) as [q|]; cbn [fst snd].
  - destruct (first_page_area (files s) image) as [A | e] eqn:EA.
    + destruct (first_page_area (files s) text) as [B | e] eqn:EB.
      * right. cbn [fst snd]. destruct (Qlt_le_dec B A); eauto.
      * left. eauto.
    + destruct e; try (left; eauto; fail).
      destruct (first_page_area (files s) text) as [B | e] eqn:EB.
      * right. cbn [fst snd]. destruct (Qlt_le_dec B 0); eauto.
      * left. eauto.
  - right. eauto.
Qed.

(** [build_final_output] on the direct-merge path, after a primary merge
    that left no output file. *)
Lemma build_final_output_after_failed_merge o env s s1 :
  rebuild_pdf_from_images s = false ->
  ocr_ignored s = false ->
  _merge_ocr o env input_file (tmp_file "-ocr.pdf") (tmp_file "-OUTPUT.pdf")
    "final-output" s = (Ok tt, s1) ->
  files s1 !! tmp_file "-OUTPUT.pdf" = None ->
  build_final_output o env s
  = match try_repair_input_and_merge o env s1 with
    | (Ok _, s3) =>
        match files s3 !! tmp_file "-OUTPUT.pdf" with
        | None =>
            (cleanup o >>
             (raise (Pdf2PdfOcrException
                       "Output file could not be created :( Exiting with error code.")
              : M unit)) s3
        | Some _ => (Ok tt, s3)
        end
    | (Raise e, s3) => (Raise e, s3)
    end.
Proof.
  intros Hreb Hign Hmerge Hout.
  unfold build_final_output.
  unfold bind at 1, get at 1. rewrite Hreb. cbn [negb].
  unfold seq_ at 1, bind at 1.
  unfold bind at 1, get at 1. rewrite Hign. cbn [negb].
  unfold seq_ at 1, bind at 1. rewrite Hmerge.
  unfold bind at 1, isfile at 1, get at 1. rewrite Hout. cbn [negb].
  destruct (try_repair_input_and_merge o env s1) as [[[]|e] s3]; [|reflexivity].
  unfold bind at 1, isfile at 1, get at 1.
  destruct (files s3 !! tmp_file "-OUTPUT.pdf"); reflexivity.
Qed.

(** The repair with ghostscript installed: both programs are run, then
    the merge against the repaired file. *)
Lemma try_repair_runs o env s1 p1 p2 :
  path_pdf2ps env = Some p1 ->
  path_ps2pdf env = Some p2 ->
  try_repair_input_and_merge o env s1
  = _merge_ocr o env (tmp_file "-fixPDF.pdf") (tmp_file "-ocr.pdf")
      (tmp_file "-OUTPUT.pdf") "repair_input"
      (snd (Popen env (cmd_ps2pdf (tmp_file "-fixPDF.ps") (tmp_file "-fixPDF.pdf"))
              (snd (Popen env (cmd_pdf2ps input_file (tmp_file "-fixPDF.ps")) s1)))).
Proof.
  intros H1 H2. unfold try_repair_input_and_merge, Popen_found. rewrite H1, H2.
  reflexivity.
Qed.

(** C5, on the code.  On the direct-merge path (no rebuild, OCR done)
    with qpdf and ghostscript installed, suppose the primary merge has
    run and left no output file, and the round trip through PostScript
    leaves no repaired file either.  Then the repair runs pdf2ps and
    ps2pdf and that is all: opening the repaired file for the merge
    raises, no merge is retried, and [build_final_output] ends in that
    [OSError], not in the fatal error: the pool is not shut down and
    the temporary files stay. *)
Theorem repair_without_repaired_file_is_not_fatal o env s s1 q p1 p2 :
  rebuild_pdf_from_images s = false ->
  ocr_ignored s = false ->
  path_qpdf o = Some q ->
  path_pdf2ps env = Some p1 ->
  path_ps2pdf env = Some p2 ->
  _merge_ocr o env input_file (tmp_file "-ocr.pdf") (tmp_file "-OUTPUT.pdf")
    "final-output" s = (Ok tt, s1) ->
  files s1 !! tmp_file "-OUTPUT.pdf" = None ->
  let fs3 := exec env (cmd_ps2pdf (tmp_file "-fixPDF.ps") (tmp_file "-fixPDF.pdf"))
               (exec env (cmd_pdf2ps input_file (tmp_file "-fixPDF.ps")) (files s1)) in
  fs3 !! tmp_file "-fixPDF.pdf" = None ->
  exists msg s3,
    build_final_output o env s = (Raise (OSError msg), s3)
    /\ trace s3
       = (trace s1
            ++ [popen (cmd_pdf2ps input_file (tmp_file "-fixPDF.ps"));
                popen (cmd_ps2pdf (tmp_file "-fixPDF.ps") (tmp_file "-fixPDF.pdf"))])%list
    /\ main_pool s3 = main_pool s1
    /\ files s3 = fs3.
Proof.
  intros Hreb Hign Hq H1 H2 Hmerge Hout fs3 Hfix.
  rewrite (build_final_output_after_failed_merge o env s s1 Hreb Hign Hmerge Hout).
  rewrite (try_repair_runs o env s1 p1 p2 H1 H2).
  unfold Popen, modify. cbn [snd files set_files add_event].
  unfold _merge_ocr. rewrite Hq.
  unfold bind at 1. unfold bind at 1, get at 1. cbn [files set_files add_event].
  fold fs3. unfold first_page_area at 1. rewrite Hfix.
  unfold bind at 1, raise at 1.
  eexists. eexists. split; [reflexivity|].
  cbn [trace main_pool files set_files add_event].
  split; [rewrite <- app_assoc; reflexivity|]. split; reflexivity.
Qed.

Lemma repair_without_repaired_file_is_not_fatal_witness :
  exists msg s3,
    build_final_output default_options idle_env (start_state merge_files)
    = (Raise (OSError msg), s3)
    /\ trace s3
       = (trace (snd (_merge_ocr default_options idle_env input_file
                        (tmp_file "-ocr.pdf") (tmp_file "-OUTPUT.pdf") "final-output"
                        (start_state merge_files)))
            ++ [popen (cmd_pdf2ps input_file (tmp_file "-fixPDF.ps"));
                popen (cmd_ps2pdf (tmp_file "-fixPDF.ps") (tmp_file "-fixPDF.pdf"))])%list
    /\ main_pool s3
       = main_pool (snd (_merge_ocr default_options idle_env input_file
                           (tmp_file "-ocr.pdf") (tmp_file "-OUTPUT.pdf") "final-output"
                           (start_state merge_files)))
    /\ files s3
       = exec idle_env (cmd_ps2pdf (tmp_file "-fixPDF.ps") (tmp_file "-fixPDF.pdf"))
           (exec idle_env (cmd_pdf2ps input_file (tmp_file "-fixPDF.ps"))
              (files (snd (_merge_ocr default_options idle_env input_file
                             (tmp_file "-ocr.pdf") (tmp_file "-OUTPUT.pdf")
                             "final-output" (start_state merge_files))))).
Proof.
  set (s1 := snd (_merge_ocr default_options idle_env input_file
                    (tmp_file "-ocr.pdf") (tmp_file "-OUTPUT.pdf") "final-output"
                    (start_state merge_files))).
  assert (_merge_ocr default_options idle_env input_file
            (tmp_file "-ocr.pdf") (tmp_file "-OUTPUT.pdf") "final-output"
            (start_state merge_files) = (Ok tt, s1)) as Hmerge
      by (vm_compute; reflexivity).
  assert (files s1 !! tmp_file "-OUTPUT.pdf" = None) as Hout
      by (vm_compute; reflexivity).
  assert (exec idle_env (cmd_ps2pdf (tmp_file "-fixPDF.ps") (tmp_file "-fixPDF.pdf"))
            (exec idle_env (cmd_pdf2ps input_file (tmp_file "-fixPDF.ps")) (files s1))
          !! tmp_file "-fixPDF.pdf" = None) as Hfix
      by (vm_compute; reflexivity).
  exact (repair_without_repaired_file_is_not_fatal default_options idle_env
           (start_state merge_files) s1 "/usr/bin/qpdf" "/usr/bin/pdf2ps"
           "/usr/bin/ps2pdf" eq_refl eq_refl eq_refl eq_refl eq_refl Hmerge Hout Hfix).
Defined.

(** When the files are there, the repair is as the specification has it:
    the programs run once, one merge is retried, and a missing output is
    then fatal, after [cleanup]. *)
Lemma repair_path_with_repaired_file :
  let s1 := snd (_merge_ocr default_options failing_merge_env input_file
                   (tmp_file "-ocr.pdf") (tmp_file "-OUTPUT.pdf") "final-output"
                   (start_state merge_files)) in
  let s3 := snd (try_repair_input_and_merge default_options failing_merge_env s1) in
  files s1 !! tmp_file "-OUTPUT.pdf" = None
  /\ trace s3
     = (trace s1
          ++ [popen (cmd_pdf2ps input_file (tmp_file "-fixPDF.ps"));
              popen (cmd_ps2pdf (tmp_file "-fixPDF.ps") (tmp_file "-fixPDF.pdf"));
              popen (cmd_qpdf_underlay (tmp_file "-fixPDF.pdf") (tmp_file "-ocr.pdf")
                       (tmp_file "-OUTPUT.pdf"))])%list
  /\ build_final_output default_options failing_merge_env (start_state merge_files)
     = (Raise (Pdf2PdfOcrException
                 "Output file could not be created :( Exiting with error code."),
        snd (cleanup default_options s3))
  /\ main_pool (snd (cleanup default_options s3)) = false.
Proof.
  cbv zeta.
  split; [vm_compute; reflexivity|].
  split; [vm_compute; reflexivity|].
  split; [vm_compute; reflexivity|].
  vm_compute; reflexivity.
Qed.

End MergeFacts.

(** ** Facts about the rebuild engine *)

Section RebuildFacts.
Import Pipeline Claims Properties.
Local Open Scope string_scope.

Lemma max_difference_zero {A} (f g : A -> N) (l : list A) :
  snd (getextrema (difference (map f l) (map g l))) = 0%N
  <-> Forall (fun p => f p = g p) l.
Proof.
  unfold getextrema, difference. cbn [snd].
  induction l as [|p l IH]; cbn [map combine fold_right fst snd].
  - split; [constructor | reflexivity].
  - split.
    + intros H. constructor.
      * destruct (N.ltb_spec (f p) (g p)); lia.
      * apply IH. lia.
    + intros H. inversion H as [|? ? Hp Hl]; subst.
      apply IH in Hl. rewrite Hl, Hp.
      destruct (N.ltb_spec (g p) (g p)); lia.
Qed.

Lemma do_check_img_greyscale_monochrome im :
  do_check_img_greyscale im = true <-> monochrome im.
Proof.
  unfold do_check_img_greyscale, split, monochrome.
  pose proof (max_difference_zero (fun p => fst (fst p)) (fun p => snd (fst p))
                (pixels im)) as Hrg.
  pose proof (max_difference_zero (fun p => fst (fst p)) (fun p => snd p)
                (pixels im)) as Hrb.
  rewrite Forall_forall in *.
  destruct (N.eqb_spec
              (snd (getextrema (difference (map (fun p => fst (fst p)) (pixels im))
                                  (map (fun p => snd (fst p)) (pixels im))))) 0)
    as [Eg | Eg]; cbn [negb].
  - destruct (N.eqb_spec
                (snd (getextrema (difference (map (fun p => fst (fst p)) (pixels im))
                                    (map (fun p => snd p) (pixels im))))) 0)
      as [Eb | Eb]; cbn [negb].
    + split; [|reflexivity]. intros _ p Hp.
      split; [apply Hrg | apply Hrb]; assumption.
    + split; [discriminate|]. intros H. exfalso. apply Eb, Hrb.
      intros p Hp. apply (H p Hp).
  - split; [discriminate|]. intros H. exfalso. apply Eg, Hrg.
    intros p Hp. apply (H p Hp).
Qed.

Lemma choose_convert_params_not_empty user checks :
  choose_convert_params user checks <> "".
Proof.
  unfold choose_convert_params.
  set (u := if String.eqb user "smart" then _ else _).
  destruct (String.eqb u "fast"); [cbn; discriminate|].
  destruct (String.eqb u "best"); [cbn; discriminate|].
  destruct (String.eqb u "grayscale"); [cbn; discriminate|].
  destruct (String.eqb u "jpeg"); [cbn; discriminate|].
  destruct (String.eqb u "jpeg2000"); [cbn; discriminate|].
  destruct (String.eqb_spec u "") as [-> | Hu]; [discriminate | exact Hu].
Qed.

Lemma conversions_snoc evs ev :
  conversions (evs ++ [ev])
  = (conversions evs ++ match ev with
                        | popen (cmd_convert x p) => [(x, p)]
                        | _ => []
                        end)%list.
Proof. unfold conversions. rewrite flat_map_app. cbn. rewrite app_nil_r. reflexivity. Qed.

Lemma do_rebuild_worker env x p s :
  pool_worker (do_rebuild env x p) s
  = match shlex_split p with
    | Ok _ => Popen env (cmd_convert x p) s
    | Raise _ => (Ok tt, s)
    end.
Proof.
  unfold pool_worker, do_rebuild, bind, lift.
  destruct (shlex_split p); reflexivity.
Qed.

Lemma convert_loop env p (l : list string) : forall s,
  fst (for_ l (fun x => pool_worker (do_rebuild env x p)) s) = Ok tt
  /\ conversions (trace (snd (for_ l (fun x => pool_worker (do_rebuild env x p)) s)))
     = (conversions (trace s)
          ++ match shlex_split p with
             | Ok _ => map (fun x => (x, p)) l
             | Raise _ => []
             end)%list.
Proof.
  induction l as [|x l IH]; intros s.
  - cbn [for_ map]. unfold ret. cbn [fst snd].
    destruct (shlex_split p); rewrite app_nil_r; split; reflexivity.
  - change (for_ (x :: l) (fun x => pool_worker (do_rebuild env x p)) s)
      with (for_ l (fun x => pool_worker (do_rebuild env x p))
              (snd (pool_worker (do_rebuild env x p) s))).
    destruct (IH (snd (pool_worker (do_rebuild env x p) s))) as [IHok IHtrace].
    split; [exact IHok|].
    rewrite IHtrace, do_rebuild_worker.
    destruct (shlex_split p) as [tokens|e]; [|reflexivity].
    unfold Popen, modify. cbn [snd trace add_event set_files map].
    rewrite conversions_snoc, <- app_assoc. reflexivity.
Qed.

Lemma nc_bind {A B} (m : M A) (k : A -> M B) :
  no_conversion m -> (forall a, no_conversion (k a)) -> no_conversion (m >>= k).
Proof.
  intros Hm Hk s. unfold bind. specialize (Hm s).
  destruct (m s) as [[a|e] s1]; cbn [snd] in *; [|exact Hm].
  rewrite (Hk a s1). exact Hm.
Qed.

Lemma nc_same_trace {A} (m : M A) :
  (forall s, trace (snd (m s)) = trace s) -> no_conversion m.
Proof. intros H s. rewrite H. reflexivity. Qed.

Lemma nc_cleanup o : no_conversion (cleanup o).
Proof.
  intros s. unfold cleanup, modify. cbn [snd].
  destruct (main_pool s), (delete_temps o); cbn [trace set_files add_event set_main_pool];
    rewrite ?conversions_snoc, ?app_nil_r; reflexivity.
Qed.

Lemma nc_merge_ocr o env image text result tag :
  no_conversion (_merge_ocr o env image text result tag).
Proof.
  intros s. destruct (merge_ocr_cases o env image text result tag s)
    as [[e ->] | (c & Hc & ->)]; [reflexivity|].
  unfold Popen, modify. cbn [snd trace add_event set_files].
  rewrite conversions_snoc.
  destruct Hc as [-> | [-> | ->]]; apply app_nil_r.
Qed.

Lemma nc_pdf_merge parts dst : no_conversion (pdf_merge parts dst).
Proof.
  apply nc_same_trace. intros s. unfold pdf_merge, bind, get, lift, write_file, modify.
  destruct (map_outcome _ parts); reflexivity.
Qed.

Lemma nc_copyfile src dst : no_conversion (copyfile src dst).
Proof.
  apply nc_same_trace. intros s. unfold copyfile, bind, get, write_file, modify, raise.
  destruct (files s !! src); reflexivity.
Qed.

(** The convert runs of [rebuild_and_merge] once the colours have been
    looked at. *)
Lemma rebuild_conversions o env s result_check_img :
  (if String.eqb (user_convert_params o) "smart"
   then map_outcome (fun x => rbind (read_image (files s) x)
                                (fun im => Ok (do_check_img_greyscale im)))
          (glob_pages ext_jpg (files s))
   else Ok []) = Ok result_check_img ->
  conversions (trace (snd (rebuild_and_merge o env s)))
  = (conversions (trace s)
       ++ match shlex_split
                  (choose_convert_params (user_convert_params o) result_check_img) with
          | Ok _ =>
              map (fun x => (x, choose_convert_params (user_convert_params o)
                                  result_check_img))
                (glob_pages ext_jpg (files s))
          | Raise _ => []
          end)%list.
Proof.
  intros Hchecked.
  assert ((if String.eqb (user_convert_params o) "smart"
           then lift (map_outcome (fun x => rbind (read_image (files s) x)
                                      (fun im => Ok (do_check_img_greyscale im)))
                        (glob_pages ext_jpg (files s)))
           else ret []) s = (Ok result_check_img, s)) as Hcheck.
  { rewrite <- Hchecked.
    destruct (String.eqb (user_convert_params o) "smart"); reflexivity. }
  unfold rebuild_and_merge. unfold bind at 1, get at 1.
  unfold bind at 1. rewrite Hcheck.
  set (p := choose_convert_params (user_convert_params o) result_check_img).
  unfold seq_ at 1, bind at 1.
  destruct (convert_loop env p (glob_pages ext_jpg (files s)) s) as [Hok Htrace].
  destruct (for_ _ _ s) as [r s1]. cbn [fst snd] in Hok, Htrace. subst r.
  rewrite <- Htrace.
  match goal with |- conversions (trace (snd (?m s1))) = _ =>
    enough (no_conversion m) as Hnc by apply Hnc end.
  apply nc_bind; [apply nc_same_trace; reflexivity|]. intros fs.
  apply nc_bind.
  - destruct (0 <? length (glob_rebuild fs))%nat; [apply nc_pdf_merge|].
    apply nc_bind; [apply nc_cleanup|]. intros _. apply nc_same_trace. reflexivity.
  - intros _. apply nc_bind; [apply nc_same_trace; reflexivity|]. intros ignored.
    destruct (negb ignored); [apply nc_merge_ocr | apply nc_copyfile].
Qed.

(** The colour check of smart mode on page images that can be opened. *)
Lemma smart_check fs (l : list string) (images : list image) :
  Forall2 (fun x im => fs !! page_file x ext_jpg = Some (jpeg im)) l images ->
  map_outcome (fun x => rbind (read_image fs x)
                          (fun im => Ok (do_check_img_greyscale im))) l
  = Ok (map do_check_img_greyscale images).
Proof.
  induction 1 as [|x im l images Hx Hrest IH]; [reflexivity|].
  cbn [map_outcome map]. unfold read_image at 1. rewrite Hx. cbn [rbind].
  rewrite IH. reflexivity.
Qed.

Lemma choose_smart (pages : list image) :
  (Forall monochrome pages ->
   choose_convert_params "smart" (map do_check_img_greyscale pages) = preset_best)
  /\ (Exists (fun im => ~ monochrome im) pages ->
      choose_convert_params "smart" (map do_check_img_greyscale pages) = preset_jpeg).
Proof.
  split.
  - intros Hall. unfold choose_convert_params. cbn [String.eqb Ascii.eqb].
    replace (forallb (fun b => b) (map do_check_img_greyscale pages)) with true;
      [reflexivity|].
    symmetry. apply forallb_forall. intros b Hb.
    apply in_map_iff in Hb. destruct Hb as (im & <- & Him).
    apply do_check_img_greyscale_monochrome.
    rewrite Forall_forall in Hall. apply Hall.
    apply list_elem_of_In. exact Him.
  - intros Hex. unfold choose_convert_params.
    replace (forallb (fun b => b) (map do_check_img_greyscale pages)) with false;
      [reflexivity|].
    symmetry. apply not_true_is_false. intros Hall.
    rewrite forallb_forall in Hall.
    apply Exists_exists in Hex. destruct Hex as (im & Him & Hcolor).
    apply Hcolor, do_check_img_greyscale_monochrome, Hall.
    apply in_map. apply list_elem_of_In. exact Him.
Qed.

(** C7. A page is found monochrome exactly when its three colour
    channels agree at every pixel.  In smart mode, on page images that
    can be opened, [rebuild_and_merge] converts every page image, once
    and in the order of the file names, and converts nothing else: with
    the bitonal-best preset when every page is monochrome, with the JPEG
    preset as soon as one page is not. *)
Theorem smart_rebuild_preset o env s (images : list image) :
  user_convert_params o = "smart" ->
  Forall2 (fun x im => files s !! page_file x ext_jpg = Some (jpeg im))
          (glob_pages ext_jpg (files s)) images ->
  (forall im, do_check_img_greyscale im = true <-> monochrome im)
  /\ (Forall monochrome images ->
      conversions (trace (snd (rebuild_and_merge o env s)))
      = (conversions (trace s)
           ++ map (fun x => (x, preset_best)) (glob_pages ext_jpg (files s)))%list)
  /\ (Exists (fun im => ~ monochrome im) images ->
      conversions (trace (snd (rebuild_and_merge o env s)))
      = (conversions (trace s)
           ++ map (fun x => (x, preset_jpeg)) (glob_pages ext_jpg (files s)))%list).
Proof.
  intros Hsmart Himages.
  split; [exact do_check_img_greyscale_monochrome|].
  assert ((if String.eqb (user_convert_params o) "smart"
           then map_outcome (fun x => rbind (read_image (files s) x)
                                        (fun im => Ok (do_check_img_greyscale im)))
                  (glob_pages ext_jpg (files s))
           else Ok []) = Ok (map do_check_img_greyscale images)) as Hchecked.
  { rewrite Hsmart. cbn [String.eqb Ascii.eqb Bool.eqb]. apply smart_check, Himages. }
  pose proof (rebuild_conversions o env s _ Hchecked) as Hconv.
  rewrite Hsmart in Hconv.
  destruct (choose_smart images) as [Hbest Hjpeg].
  split; intros Hpages.
  - rewrite (Hbest Hpages) in Hconv. exact Hconv.
  - rewrite (Hjpeg Hpages) in Hconv. exact Hconv.
Qed.

Lemma smart_rebuild_preset_witness :
  conversions (trace (snd (rebuild_and_merge MoreExamples.smart_rebuild_options
                             Examples.idle_env
                             (Examples.start_state MoreExamples.colour_page_files))))
  = (conversions (trace (Examples.start_state MoreExamples.colour_page_files))
       ++ map (fun x => (x, preset_jpeg))
            (glob_pages ext_jpg
               (files (Examples.start_state MoreExamples.colour_page_files))))%list.
Proof.
  assert (glob_pages ext_jpg (files (Examples.start_state MoreExamples.colour_page_files))
          = ["P-1"; "P-2"]) as Hglob by (vm_compute; reflexivity).
  refine (proj2 (proj2 (smart_rebuild_preset MoreExamples.smart_rebuild_options
                          Examples.idle_env
                          (Examples.start_state MoreExamples.colour_page_files)
                          [Examples.text_scan; MoreExamples.colour_scan] eq_refl _)) _).
  - rewrite Hglob. repeat constructor.
  - apply Exists_cons. right. apply Exists_cons. left.
    unfold monochrome. cbn [pixels MoreExamples.colour_scan]. intros H.
    inversion H as [|? ? _ Hrest]. inversion Hrest as [|? ? [Hrg _] _].
    discriminate Hrg.
Defined.

End RebuildFacts.

(** ** Facts about the start of a run *)

Section StartFacts.
Import Pipeline Claims.
Local Open Scope string_scope.

Lemma only_probed_refl s : only_probed s s.
Proof. exists []. split; [symmetry; apply app_nil_r | reflexivity]. Qed.

Lemma only_probed_trans s1 s2 s3 :
  only_probed s1 s2 -> only_probed s2 s3 -> only_probed s1 s3.
Proof.
  intros (l1 & H1 & F1) (l2 & H2 & F2). exists (l1 ++ l2)%list. split.
  - rewrite H2, H1. symmetry. apply app_assoc.
  - rewrite forallb_app, F1, F2. reflexivity.
Qed.

Lemma only_probed_same_trace s s' : trace s' = trace s -> only_probed s s'.
Proof. intros H. exists []. split; [rewrite H, app_nil_r|]; reflexivity. Qed.

Lemma only_probed_event s s' ev :
  trace s' = (trace s ++ [ev])%list -> is_probe ev = true -> only_probed s s'.
Proof. intros H Hev. exists [ev]. split; [exact H | cbn; rewrite Hev; reflexivity]. Qed.

Lemma cleanup_spec o s :
  fst (cleanup o s) = Ok tt
  /\ main_pool (snd (cleanup o s)) = false
  /\ only_probed s (snd (cleanup o s)).
Proof.
  unfold cleanup, modify. cbn [fst snd]. split; [reflexivity|].
  destruct (main_pool s) eqn:E; destruct (delete_temps o); cbn;
    (split; [try reflexivity; try exact E|]).
  all: try (apply only_probed_same_trace; reflexivity).
  all: eapply only_probed_event; [reflexivity | reflexivity].
Qed.

(** [cleanup] followed by [raise]. *)
Lemma cleanup_raise o msg s :
  fatal ((cleanup o >> (raise (Pdf2PdfOcrException msg) : M unit)) s)
  /\ only_probed s (snd ((cleanup o >> (raise (Pdf2PdfOcrException msg) : M unit)) s)).
Proof.
  destruct (cleanup_spec o s) as (Hok & Hpool & Hprobe).
  unfold seq_, bind, raise.
  destruct (cleanup o s) as [r s'] eqn:E. cbn [fst snd] in *. subst r.
  cbn [fst snd]. split; [|exact Hprobe].
  exists msg. split; [reflexivity | exact Hpool].
Qed.

Lemma stage_seq (m k : M unit) s post post' :
  stage_ok m s post ->
  (forall s1, post s1 -> stage_ok k s1 post') ->
  stage_ok (m >> k) s post'.
Proof.
  intros (Hp & Hm) Hk. unfold stage_ok, seq_, bind.
  destruct (m s) as [r s1] eqn:E. cbn [fst snd] in *.
  destruct Hm as [(msg & Hr & Hpool) | (Hr & Hpost)]; cbn [fst snd] in *; subst r.
  - split; [exact Hp|]. left. exists msg. split; [reflexivity | exact Hpool].
  - destruct (Hk s1 Hpost) as (Hp' & Hk').
    split; [eapply only_probed_trans; eassumption | exact Hk'].
Qed.

Lemma stage_cleanup_raise o msg s post :
  stage_ok (cleanup o >> raise (Pdf2PdfOcrException msg)) s post.
Proof.
  destruct (cleanup_raise o msg s) as (Hf & Hp). split; [exact Hp | left; exact Hf].
Qed.

Lemma stage_ret s (post : state -> Prop) : post s -> stage_ok (ret tt) s post.
Proof.
  intros H. split; [apply only_probed_refl | right; split; [reflexivity | exact H]].
Qed.

Lemma stage_get {A} (f : state -> A) (k : A -> M unit) s post :
  stage_ok (k (f s)) s post -> stage_ok (get f >>= k) s post.
Proof. intros H. exact H. Qed.

Lemma check_avoid_file_by_size_stage o env s :
  stage_ok (check_avoid_file_by_size o env) s (fun _ => True).
Proof.
  unfold check_avoid_file_by_size.
  destruct (avoid_small_file_limit_kb o) as [limit|]; [|apply stage_ret; exact I].
  destruct (Qlt_le_dec _ _); [apply stage_cleanup_raise | apply stage_ret; exact I].
Qed.

Lemma detect_file_type_stage env s :
  stage_ok (detect_file_type env) s
    (fun s' => input_file_type s' = mime_type env).
Proof.
  unfold detect_file_type, stage_ok, seq_, bind, Popen, modify. cbn [fst snd].
  split.
  - eapply only_probed_event; reflexivity.
  - right. split; reflexivity.
Qed.

Lemma check_avoid_high_pages_stage o s :
  stage_ok (check_avoid_high_pages o) s
    (fun s' => input_file_type s' = input_file_type s).
Proof.
  unfold check_avoid_high_pages. apply stage_get.
  destruct (input_file_number_of_pages s) as [n|];
    [|apply stage_ret; reflexivity].
  destruct (avoid_high_pages_pages o) as [limit|];
    [|apply stage_ret; reflexivity].
  destruct (n >? limit)%Z; [apply stage_cleanup_raise | apply stage_ret; reflexivity].
Qed.

Lemma stage_weaken (m : M unit) s (post post' : state -> Prop) :
  stage_ok m s post -> (forall s', post s' -> post' s') -> stage_ok m s post'.
Proof.
  intros (Hp & H) Himp. split; [exact Hp|].
  destruct H as [H | (Hok & Hpost)]; [left; exact H | right; auto].
Qed.

Lemma stage_modify f s (post : state -> Prop) :
  trace (f s) = trace s -> post (f s) -> stage_ok (modify f) s post.
Proof.
  intros Ht Hpost. unfold stage_ok, modify. cbn [fst snd]. split.
  - apply only_probed_same_trace. exact Ht.
  - right. split; [reflexivity | exact Hpost].
Qed.

Lemma validate_pdf_input_file_stage o env s :
  stage_ok (validate_pdf_input_file o env) s
    (fun s' => input_file_type s' = input_file_type s
               /\ exists n, pdf_reader env = Some (n, input_file_is_encrypted s')).
Proof.
  unfold validate_pdf_input_file.
  destruct (pdf_reader env) as [[n enc]|]; [|apply stage_cleanup_raise].
  eapply stage_seq with (post := fun s' => input_file_type s' = input_file_type s).
  { apply stage_modify; reflexivity. }
  intros s1 Ht1.
  eapply stage_seq with (post := fun s' => input_file_type s' = input_file_type s).
  { eapply stage_weaken; [apply check_avoid_high_pages_stage|].
    intros s' Hs'. cbn beta in Hs'. congruence. }
  intros s2 Ht2.
  eapply stage_seq with
    (post := fun s' => input_file_type s' = input_file_type s
                       /\ input_file_is_encrypted s' = enc).
  { apply stage_modify; [reflexivity | split; [exact Ht2 | reflexivity]]. }
  intros s3 [Ht3 He3].
  eapply stage_seq with
    (post := fun s' => input_file_type s' = input_file_type s
                       /\ input_file_is_encrypted s' = enc).
  { destruct (check_text_mode o); [|apply stage_ret; split; assumption].
    unfold stage_ok, check_for_text, bind, seq_, Popen, modify, ret.
    cbn [fst snd]. split.
    - eapply only_probed_event; reflexivity.
    - right. split; [reflexivity|]. cbn. split; assumption. }
  intros s4 [Ht4 He4].
  apply stage_get. cbn beta iota.
  eapply stage_seq with
    (post := fun s' => input_file_type s' = input_file_type s
                       /\ input_file_is_encrypted s' = enc).
  { destruct (String.eqb (input_file_type s4) "application/pdf" && check_text_mode o
              && input_file_has_text s4);
      [apply stage_cleanup_raise | apply stage_ret; split; assumption]. }
  intros s5 [Ht5 He5].
  destruct (String.eqb (input_file_type s4) "application/pdf"
            && check_protection_mode o && input_file_is_encrypted s4);
    [apply stage_cleanup_raise|].
  apply stage_ret. split; [exact Ht5 | exists n; rewrite He5; reflexivity].
Qed.

Lemma check_rebuild_pdf_fatal o s :
  ignore_existing_text o = true ->
  (input_file_is_encrypted s
   || negb (String.eqb (input_file_type s) "application/pdf")
   || use_deskew_mode o || force_rebuild_mode o) = true ->
  stage_ok (check_rebuild_pdf o) s (fun _ => False).
Proof.
  intros Hi Hr. unfold check_rebuild_pdf.
  apply stage_get. cbn beta iota. rewrite Hr, Hi. cbn [andb].
  unfold stage_ok, seq_ at 1, bind at 1, modify at 1.
  destruct (cleanup_raise o
              "Rebuild from images and ignore existing text won't work together"
              (set_rebuild_pdf_from_images true s)) as (Hf & Hp).
  split; [|left; exact Hf].
  eapply only_probed_trans; [|exact Hp].
  apply only_probed_same_trace. reflexivity.
Qed.

(** C9. When the options ask to ignore existing text and the rebuild
    path is selected (forced rebuild, deskew, an input that is not a
    PDF, or an encrypted PDF), [ocr] ends in the pipeline's fatal error
    after cleanup, whatever the work that would follow: the work is not
    started, and up to then only the probes of the input ([file],
    [pdffonts]) were run. *)
Theorem rebuild_with_ignore_existing_text_is_fatal o env s :
  ignore_existing_text o = true ->
  (force_rebuild_mode o = true
   \/ use_deskew_mode o = true
   \/ mime_type env <> "application/pdf"
   \/ (exists n, pdf_reader env = Some (n, true))) ->
  exists msg s',
    (forall work, ocr o env work s = (Raise (Pdf2PdfOcrException msg), s'))
    /\ main_pool s' = false
    /\ only_probed s s'.
Proof.
  intros Hi Hsel.
  assert (stage_ok
            (check_avoid_file_by_size o env >>
             detect_file_type env >>
             get input_file_type >>= fun type =>
             (if String.eqb type "application/pdf"
              then validate_pdf_input_file o env else ret tt) >>
             check_rebuild_pdf o) s (fun _ => False)) as (Hprobe & Hend).
  { eapply stage_seq; [apply check_avoid_file_by_size_stage|].
    intros s0 _.
    eapply stage_seq; [apply detect_file_type_stage|].
    intros s1 Ht. apply stage_get. cbn beta. rewrite Ht.
    destruct (String.eqb_spec (mime_type env) "application/pdf") as [Epdf | Epdf].
    + eapply stage_seq; [apply validate_pdf_input_file_stage|].
      intros s2 (Ht2 & n & Hreader). cbn beta in *.
      apply check_rebuild_pdf_fatal; [exact Hi|].
      destruct Hsel as [Hf | [Hd | [Hm | (n' & Hn')]]].
      * rewrite Hf. apply orb_true_r.
      * rewrite Hd. rewrite orb_true_r. reflexivity.
      * contradiction.
      * rewrite Hn' in Hreader. injection Hreader as _ <-. reflexivity.
    + eapply stage_seq; [apply stage_ret; exact Ht|].
      intros s2 Ht2. cbn beta in *.
      apply check_rebuild_pdf_fatal; [exact Hi|].
      rewrite Ht2.
      replace (String.eqb (mime_type env) "application/pdf") with false
        by (symmetry; apply String.eqb_neq; exact Epdf).
      rewrite orb_true_r. reflexivity. }
  destruct Hend as [(msg & Hr & Hpool) | (_ & [])].
  match type of Hr with fst (?m s) = _ => destruct (m s) as [r s'] eqn:E end.
  cbn [fst snd] in *. subst r.
  exists msg, s'. split; [|split; assumption].
  intros work. unfold ocr.
  unfold seq_, bind in *.
  destruct (check_avoid_file_by_size o env s) as [[[]|e1] s1]; [|exact E].
  destruct (detect_file_type env s1) as [[[]|e2] s2]; [|exact E].
  destruct (get input_file_type s2) as [[type|e3] s3]; [|exact E].
  destruct ((if String.eqb type "application/pdf"
             then validate_pdf_input_file o env else ret tt) s3)
    as [[[]|e4] s4]; [|exact E].
  destruct (check_rebuild_pdf o s4) as [[[]|e5] s5]; [discriminate E | exact E].
Qed.

Lemma rebuild_with_ignore_existing_text_is_fatal_witness :
  exists msg s',
    (forall work,
       ocr Examples.rebuild_ignore_text_options Examples.idle_env work
         (Examples.start_state ∅)
       = (Raise (Pdf2PdfOcrException msg), s'))
    /\ main_pool s' = false
    /\ only_probed (Examples.start_state ∅) s'.
Proof.
  apply (rebuild_with_ignore_existing_text_is_fatal
           Examples.rebuild_ignore_text_options Examples.idle_env
           (Examples.start_state ∅)).
  - reflexivity.
  - left. reflexivity.
Defined.

End StartFacts.

(** ** Facts about blank pages *)

Section BlankFacts.
Import Pipeline Claims.
Local Open Scope string_scope.

Lemma count_color_keeps c acc :
  In c (map snd (count_color c acc))
  /\ (forall c', In c' (map snd acc) -> In c' (map snd (count_color c acc))).
Proof.
  induction acc as [|[n c0] acc [IHin IHkeep]]; cbn [count_color].
  - split; [left; reflexivity | intros c' []].
  - destruct (decide (c0 = c)) as [-> | Hne]; cbn [map snd].
    + split; [left; reflexivity | intros c' H; exact H].
    + split; [right; exact IHin|].
      intros c' [-> | H]; [left; reflexivity | right; apply IHkeep; exact H].
Qed.

Lemma fold_count_color_keeps l : forall acc,
  (forall c, In c l ->
     In c (map snd (fold_left (fun acc c => count_color c acc) l acc)))
  /\ (forall c, In c (map snd acc) ->
        In c (map snd (fold_left (fun acc c => count_color c acc) l acc))).
Proof.
  induction l as [|p l IH]; intros acc; cbn [fold_left].
  - split; [intros c [] | intros c H; exact H].
  - destruct (IH (count_color p acc)) as [IHl IHacc].
    destruct (count_color_keeps p acc) as [Hp Hkeep].
    split.
    + intros c [<- | H]; [apply IHacc; exact Hp | apply IHl; exact H].
    + intros c H. apply IHacc, Hkeep, H.
Qed.

Lemma fold_count_color_same c l : forall n,
  Forall (eq c) l ->
  fold_left (fun acc c => count_color c acc) l [(n, c)] = [((n + length l)%nat, c)].
Proof.
  induction l as [|p l IH]; intros n Hall; cbn [fold_left length].
  - rewrite Nat.add_0_r. reflexivity.
  - inversion Hall as [|? ? Hp Hrest]. subst p.
    cbn [count_color]. destruct (decide (c = c)) as [_ | Hne]; [|contradiction].
    rewrite IH by exact Hrest. f_equal. f_equal. lia.
Qed.

(** The classifier's test holds exactly for images of one colour. *)
Lemma is_blank_single_color im :
  is_blank (do_check_img_colors_size im) = true <-> single_color im.
Proof.
  unfold is_blank, do_check_img_colors_size, getcolors, single_color. cbn [fst].
  split.
  - destruct (256 <? _)%nat; [discriminate|].
    intros Hlen. apply Nat.eqb_eq in Hlen.
    destruct (fold_count_color_keeps (pixels im) []) as [Hin _].
    destruct (fold_left _ (pixels im) []) as [|[n c] [|? ?]] eqn:E;
      try discriminate Hlen.
    exists c. split.
    + intros Hnil. rewrite Hnil in E. discriminate E.
    + apply Forall_forall. intros p Hp. apply list_elem_of_In in Hp.
      specialize (Hin p Hp). cbn in Hin. destruct Hin as [-> | []]. reflexivity.
  - intros (c & Hne & Hall).
    destruct (pixels im) as [|p l]; [contradiction|].
    inversion Hall as [|? ? Hp Hrest]. subst p.
    cbn [fold_left count_color].
    rewrite fold_count_color_same by exact Hrest. reflexivity.
Qed.

Lemma map_outcome_all_ok {A B} (f : A -> outcome B) (l : list A) :
  (forall x, In x l -> exists b, f x = Ok b) ->
  exists bs, map_outcome f l = Ok bs /\ Forall2 (fun x b => f x = Ok b) l bs.
Proof.
  induction l as [|x l IH]; intros Hall.
  - exists []. split; [reflexivity | constructor].
  - destruct (Hall x (or_introl eq_refl)) as (b & Hb).
    destruct IH as (bs & Hbs & Hrel); [intros y Hy; apply Hall; right; exact Hy|].
    exists (b :: bs). cbn [map_outcome]. rewrite Hb, Hbs.
    split; [reflexivity | constructor; assumption].
Qed.

Lemma blank_loop_records fs l infos :
  Forall2 (fun x info => rbind (read_image fs x)
                           (fun im => Ok (do_check_img_colors_size im)) = Ok info)
          l infos ->
  forall s,
  exists s',
    for_ (combine l infos) (fun it =>
      if is_blank (snd it)
      then modify (append_blank_page (fst it) (snd (snd it)))
      else ret tt) s = (Ok tt, s')
    /\ blank_pages s' = (blank_pages s ++ map fst (blank_entries fs l))%list
    /\ blank_pages_dimensions s'
       = (blank_pages_dimensions s ++ map snd (blank_entries fs l))%list
    /\ files s' = files s /\ trace s' = trace s
    /\ ocr_ignored s' = ocr_ignored s.
Proof.
  induction 1 as [|x info l infos Hx Hrest IH]; intros s.
  - exists s. cbn. rewrite !app_nil_r. repeat split; reflexivity.
  - cbn [combine for_ fst snd]. unfold seq_ at 1, bind at 1.
    unfold blank_entries. cbn [flat_map]. fold (blank_entries fs l).
    destruct (read_image fs x) as [im|e]; [|discriminate Hx].
    cbn [rbind] in Hx. injection Hx as <-.
    destruct (is_blank (do_check_img_colors_size im)).
    + unfold modify at 1.
      destruct (IH (append_blank_page x (size im) s))
        as (s' & Hrun & Hb & Hd & Hf & Ht & Hi).
      exists s'. split; [exact Hrun|]. cbn [map fst snd app].
      rewrite Hb, Hd, Hf, Ht, Hi. cbn.
      rewrite <- !app_assoc. repeat split; reflexivity.
    + unfold ret at 1. apply IH.
Qed.

Lemma check_blank_pages_ok image_file_list s :
  (forall x, In x image_file_list -> exists im, read_image (files s) x = Ok im) ->
  exists s',
    check_blank_pages image_file_list s = (Ok tt, s')
    /\ blank_pages s'
       = (blank_pages s ++ map fst (blank_entries (files s) image_file_list))%list
    /\ blank_pages_dimensions s'
       = (blank_pages_dimensions s
            ++ map snd (blank_entries (files s) image_file_list))%list
    /\ files s' = files s /\ trace s' = trace s
    /\ ocr_ignored s' = ocr_ignored s.
Proof.
  intros Hread. unfold check_blank_pages.
  unfold bind at 1, get at 1. unfold bind at 1, lift at 1.
  destruct (map_outcome_all_ok
              (fun x => rbind (read_image (files s) x)
                          (fun im => Ok (do_check_img_colors_size im)))
              image_file_list) as (infos & -> & Hrel).
  { intros x Hx. destruct (Hread x Hx) as (im & ->). cbn. eauto. }
  apply (blank_loop_records (files s) image_file_list infos Hrel s).
Qed.

Lemma blank_entries_spec fs l x dim :
  In (x, dim) (blank_entries fs l)
  <-> In x l /\ exists im, read_image fs x = Ok im
                           /\ is_blank (do_check_img_colors_size im) = true
                           /\ dim = size im.
Proof.
  unfold blank_entries. rewrite in_flat_map. split.
  - intros (y & Hy & Hin).
    destruct (read_image fs y) as [im|e] eqn:E; [|destruct Hin].
    destruct (is_blank (do_check_img_colors_size im)) eqn:Eb; [|destruct Hin].
    destruct Hin as [[= <- <-] | []]. eauto 6.
  - intros (Hx & im & Him & Hb & ->). exists x. split; [exact Hx|].
    rewrite Him, Hb. left. reflexivity.
Qed.

Lemma blank_entries_NoDup fs l : NoDup l -> NoDup (map fst (blank_entries fs l)).
Proof.
  induction 1 as [|x l Hx Hl IH]; cbn; [constructor|].
  unfold blank_entries. cbn [flat_map]. fold (blank_entries fs l).
  destruct (read_image fs x) as [im|e]; [|exact IH].
  destruct (is_blank _); [|exact IH].
  cbn. constructor; [|exact IH].
  intros Hin. apply Hx. apply list_elem_of_In.
  apply list_elem_of_In in Hin.
  apply in_map_iff in Hin. destruct Hin as ([y d] & Hy & Hin). cbn in Hy. subst y.
  apply blank_entries_spec in Hin. apply Hin.
Qed.

Lemma do_ocr_cuneiform_keeps env x lang : keeps_blank_pages (do_ocr_cuneiform env x lang).
Proof.
  intros s.
  unfold do_ocr_cuneiform, Popen_found. cbv zeta.
  destruct (path_cuneiform env) as [program|]; [|split; reflexivity].
  unfold Popen, isfile, write_file.
  unfold seq_, bind, get, modify, lift, ret, raise.
  cbn [files set_files add_event fst snd].
  repeat match goal with
         | |- context [match ?t with _ => _ end] =>
             lazymatch t with
             | context [match _ with _ => _ end] => fail
             | _ => destruct t eqn:?
             end; cbn [files set_files add_event fst snd negb andb]
         end;
    split; reflexivity.
Qed.

Lemma for_keeps {A} (l : list A) (body : A -> M unit) :
  (forall a s, fst (body a s) = Ok tt) ->
  (forall a, keeps_blank_pages (body a)) ->
  forall s, fst (for_ l body s) = Ok tt
            /\ blank_pages (snd (for_ l body s)) = blank_pages s
            /\ blank_pages_dimensions (snd (for_ l body s)) = blank_pages_dimensions s.
Proof.
  intros Hok Hkeep. induction l as [|a l IH]; intros s; cbn [for_].
  - repeat split; reflexivity.
  - unfold seq_, bind. specialize (Hok a s). destruct (Hkeep a s) as [Hb Hd].
    destruct (body a s) as [r s1]. cbn [fst snd] in *. subst r.
    destruct (IH s1) as (H1 & H2 & H3). rewrite H2, H3, Hb, Hd.
    repeat split; [exact H1|..]; reflexivity.
Qed.

Lemma do_create_blank_pdf_ok p dim res s :
  res <> 0 ->
  do_create_blank_pdf p dim res s
  = (Ok tt, set_files (<[p := blank_pdf dim res]> (files s)) s).
Proof.
  intros Hres. unfold do_create_blank_pdf, bind, lift.
  rewrite !pydiv_ok by (apply inject_Z_nonzero; exact Hres).
  reflexivity.
Qed.

(** The loop over [enumerate(self.blank_pages)], entered at index [k]. *)
Lemma blank_pdf_loop res (dims : list (Z * Z)) : res <> 0 ->
  forall (blank : list string) k s,
    (forall i x, blank !! i = Some x -> is_Some (dims !! (k + i)%nat)) ->
    NoDup blank ->
    exists s',
      for_ (imap (fun idx blank_page_img => ((k + idx)%nat, blank_page_img)) blank)
        (fun it =>
           match dims !! fst it with
           | Some blank_page_dimension =>
               do_create_blank_pdf (page_file (snd it) ext_pdf) blank_page_dimension res
           | None => raise IndexError
           end) s = (Ok tt, s')
      /\ ocr_ignored s' = ocr_ignored s
      /\ (forall i x dim,
            blank !! i = Some x -> dims !! (k + i)%nat = Some dim ->
            files s' !! page_file x ext_pdf = Some (blank_pdf dim res)).
Proof.
  intros Hres. induction blank as [|x blank IH]; intros k s Hdims Hnodup.
  - exists s. split; [reflexivity|]. split; [reflexivity|].
    intros i y dim Hy. rewrite lookup_nil in Hy. discriminate Hy.
  - rewrite imap_cons. cbn [for_ fst snd]. unfold seq_ at 1, bind at 1.
    destruct (Hdims 0%nat x eq_refl) as (d0 & Hd0).
    rewrite Nat.add_0_r in Hd0 |- *. rewrite Hd0.
    rewrite do_create_blank_pdf_ok by exact Hres.
    apply NoDup_cons in Hnodup as [Hx Hnodup].
    destruct (IH (S k) (set_files (<[page_file x ext_pdf := blank_pdf d0 res]> (files s)) s))
      as (s' & Hrun & Hign & Hfiles).
    { intros i y Hy. replace (S k + i)%nat with (k + S i)%nat by lia.
      apply (Hdims (S i) y). exact Hy. }
    { exact Hnodup. }
    exists s'. split.
    + rewrite <- Hrun. f_equal. apply imap_ext. intros i y _. cbn.
      f_equal. lia.
    + split; [exact Hign|].
      intros [|i] y dim Hy Hdim.
      * cbn in Hy. injection Hy as <-. rewrite Nat.add_0_r in Hdim.
        rewrite Hd0 in Hdim. injection Hdim as <-.
        (* later rounds write other files *)
        enough (forall (blank' : list string) k' s0 s0',
                  ~ x ∈ blank' ->
                  for_ (imap (fun idx b => ((k' + idx)%nat, b)) blank')
                    (fun it =>
                       match dims !! fst it with
                       | Some d => do_create_blank_pdf (page_file (snd it) ext_pdf) d res
                       | None => raise IndexError
                       end) s0 = (Ok tt, s0') ->
                  files s0' !! page_file x ext_pdf = files s0 !! page_file x ext_pdf)
          as Hother.
        { rewrite (Hother blank (S k) _ s' Hx Hrun). cbn [files set_files].
          apply lookup_insert_eq. }
        clear. induction blank' as [|b blank' IH']; intros k' s0 s0' Hnot Hrun.
        -- cbn in Hrun. injection Hrun as <-. reflexivity.
        -- rewrite imap_cons in Hrun. cbn [for_ fst snd] in Hrun.
           unfold seq_ at 1, bind at 1 in Hrun.
           destruct (dims !! (k' + 0)%nat) as [d|]; [|discriminate Hrun].
           unfold do_create_blank_pdf, bind, lift in Hrun.
           destruct (pydiv (inject_Z (fst d)) (inject_Z res)) as [w|];
             [|discriminate Hrun].
           destruct (pydiv (inject_Z (snd d)) (inject_Z res)) as [h|];
             [|discriminate Hrun].
           unfold write_file at 1, modify at 1 in Hrun.
           rewrite (imap_ext _ (fun idx b0 => ((S k' + idx)%nat, b0))) in Hrun
             by (intros; cbn; f_equal; lia).
           apply IH' in Hrun; [|intros Hin; apply Hnot; right; exact Hin].
           rewrite Hrun. cbn [files set_files].
           apply lookup_insert_ne. intros [= ->]. apply Hnot. left.
      * cbn in Hy. replace (k + S i)%nat with (S k + i)%nat in Hdim by lia.
        apply (Hfiles i y dim Hy Hdim).
Qed.

Lemma lookup_map {A B} (f : A -> B) (l : list A) (i : nat) :
  map f l !! i = f <$> (l !! i).
Proof.
  revert i. induction l as [|a l IH]; intros [|i]; cbn; try reflexivity.
  apply IH.
Qed.

Lemma ocr_worker_loop o env (l : list string) s :
  let body := fun x =>
    modify (add_event (submit_ocr (ocr_engine o) x)) >>
    pool_worker
      (if String.eqb (ocr_engine o) "cuneiform"
       then do_ocr_cuneiform env x (tess_langs o)
       else modify (fun s => set_files (do_ocr_tesseract env x (files s)) s)) in
  fst (for_ l body s) = Ok tt
  /\ blank_pages (snd (for_ l body s)) = blank_pages s
  /\ blank_pages_dimensions (snd (for_ l body s)) = blank_pages_dimensions s.
Proof.
  intros body. apply for_keeps.
  - intros x s0. reflexivity.
  - intros x s0. subst body. unfold seq_, bind, modify at 1, pool_worker.
    cbn [fst snd].
    destruct (String.eqb (ocr_engine o) "cuneiform").
    + destruct (do_ocr_cuneiform_keeps env x (tess_langs o)
                  (add_event (submit_ocr (ocr_engine o) x) s0)) as [Hb Hd].
      split; [exact Hb | exact Hd].
    + split; reflexivity.
Qed.

(** C6. Suppose every listed page image can be opened and the list has
    no repetition.  Then [check_blank_pages] marks a page blank exactly
    when its image shows one single colour; a blank page is not in the
    list handed to the OCR workers; and, when an OCR engine runs at a
    non-zero resolution, after [external_ocr] the page PDF of every
    blank page is a one-page document without text whose size is the
    image's pixel size divided by the resolution, times 72. *)
Theorem blank_pages_are_synthesized o env (image_file_list : list string) s :
  blank_pages s = [] ->
  blank_pages_dimensions s = [] ->
  NoDup image_file_list ->
  (forall x, In x image_file_list -> exists im, read_image (files s) x = Ok im) ->
  ocr_engine o = "cuneiform" \/ ocr_engine o = "tesseract" ->
  image_resolution o <> 0 ->
  exists s1,
    check_blank_pages image_file_list s = (Ok tt, s1)
    /\ (forall x im,
          In x image_file_list -> read_image (files s) x = Ok im ->
          (In x (blank_pages s1) <-> single_color im))
    /\ (forall x,
          In x (blank_pages s1) ->
          ~ In x (image_list_for_external_ocr image_file_list (blank_pages s1)))
    /\ (forall s1',
          blank_pages s1' = blank_pages s1 ->
          blank_pages_dimensions s1' = blank_pages_dimensions s1 ->
          exists s2,
            external_ocr o env image_file_list s1' = (Ok tt, s2)
            /\ forall x im,
                In x (blank_pages s1) -> read_image (files s) x = Ok im ->
                exists page,
                  files s2 !! page_file x ext_pdf = Some (pdf_doc [page])
                  /\ page_text page = []
                  /\ mediabox page
                     = points_of_pixels (size im) (image_resolution o)).
Proof.
  intros Hb0 Hd0 Hnodup Hread Hengine Hres.
  destruct (check_blank_pages_ok image_file_list s Hread)
    as (s1 & Hrun & Hb & Hd & Hf & Ht & Hi).
  rewrite Hb0 in Hb. rewrite Hd0 in Hd. cbn [app] in Hb, Hd.
  exists s1. split; [exact Hrun|]. split; [|split].
  - intros x im Hx Him. rewrite Hb, <- is_blank_single_color. split.
    + intros Hin. apply in_map_iff in Hin. destruct Hin as ([y d] & Hy & Hin).
      cbn in Hy. subst y. apply blank_entries_spec in Hin.
      destruct Hin as (_ & im' & Him' & Hblank & _).
      rewrite Him in Him'. injection Him' as <-. exact Hblank.
    + intros Hblank. apply in_map_iff. exists (x, size im). split; [reflexivity|].
      apply blank_entries_spec. eauto 6.
  - intros x Hx Hin. unfold image_list_for_external_ocr in Hin.
    apply filter_In in Hin. destruct Hin as [_ Hnot].
    unfold not_in in Hnot. apply negb_true_iff in Hnot.
    assert (existsb (String.eqb x) (blank_pages s1) = true) as Hex.
    { apply existsb_exists. exists x. split; [exact Hx | apply String.eqb_refl]. }
    rewrite Hex in Hnot. discriminate Hnot.
  - intros s1' Hb' Hd'. unfold external_ocr.
    replace (String.eqb (ocr_engine o) "cuneiform"
             || String.eqb (ocr_engine o) "tesseract") with true
      by (destruct Hengine as [-> | ->]; reflexivity).
    unfold bind at 1, get at 1. unfold seq_ at 1, bind at 1.
    destruct (ocr_worker_loop o env
                (image_list_for_external_ocr image_file_list (blank_pages s1')) s1')
      as (Hok & Hkb & Hkd).
    cbv zeta in Hok, Hkb, Hkd.
    destruct (for_ _ _ s1') as [r sa]. cbn [fst snd] in Hok, Hkb, Hkd. subst r.
    unfold bind at 1, get at 1. unfold bind at 1, get at 1.
    rewrite Hkb, Hkd, Hb', Hd'.
    unfold seq_ at 1, bind at 1.
    destruct (blank_pdf_loop (image_resolution o) (blank_pages_dimensions s1) Hres
                (blank_pages s1) 0%nat sa) as (sb & Hloop & _ & Hfiles).
    { intros i x Hx. rewrite Hb in Hx. rewrite Hd.
      cbn [Nat.add]. rewrite lookup_map in Hx. rewrite lookup_map.
      destruct (blank_entries (files s) image_file_list !! i); [eauto | discriminate]. }
    { rewrite Hb. apply blank_entries_NoDup. exact Hnodup. }
    cbn [Nat.add] in Hloop. rewrite Hloop.
    eexists. split; [reflexivity|].
    intros x im Hx Him. cbn [files set_ocr_ignored].
    rewrite Hb in Hx. apply list_elem_of_In in Hx.
    apply list_elem_of_lookup in Hx. destruct Hx as (i & Hi').
    assert (blank_pages_dimensions s1 !! i = Some (size im)) as Hdim.
    { rewrite Hd. rewrite lookup_map in Hi'. rewrite lookup_map.
      destruct (blank_entries (files s) image_file_list !! i) as [[y d]|] eqn:E;
        [|discriminate Hi'].
      cbn in Hi'. injection Hi' as ->. cbn.
      apply list_elem_of_lookup_2, list_elem_of_In, blank_entries_spec in E.
      destruct E as (_ & im' & Him' & _ & ->).
      rewrite Him in Him'. injection Him' as <-. reflexivity. }
    exists (mkPage (points_of_pixels (size im) (image_resolution o)) [] 0).
    split; [|split; reflexivity].
    apply (Hfiles i x (size im)); [rewrite Hb; exact Hi' | exact Hdim].
Qed.

Lemma blank_pages_are_synthesized_witness :
  exists s1,
    check_blank_pages ["P-1"; "P-2"] (Examples.start_state Examples.two_page_files)
    = (Ok tt, s1)
    /\ In "P-1" (blank_pages s1)
    /\ exists s2 page,
        external_ocr Examples.default_options Examples.working_env ["P-1"; "P-2"] s1
        = (Ok tt, s2)
        /\ files s2 !! page_file "P-1" ext_pdf = Some (pdf_doc [page])
        /\ page_text page = []
        /\ mediabox page = points_of_pixels (2550, 3300) 300.
Proof.
  destruct (blank_pages_are_synthesized Examples.default_options Examples.working_env
              ["P-1"; "P-2"] (Examples.start_state Examples.two_page_files))
    as (s1 & Hrun & Hiff & _ & Hocr).
  - reflexivity.
  - reflexivity.
  - apply NoDup_cons. split; [|apply NoDup_singleton].
    intros H. apply list_elem_of_singleton in H. discriminate H.
  - intros x [<- | [<- | []]]; eexists; vm_compute; reflexivity.
  - right. reflexivity.
  - discriminate.
  - assert (In "P-1" (blank_pages s1)) as Hblank.
    { apply (Hiff "P-1" Examples.white_scan).
      - left. reflexivity.
      - vm_compute. reflexivity.
      - exists (255, 255, 255)%N. split; [discriminate|].
        repeat constructor. }
    exists s1. split; [exact Hrun|]. split; [exact Hblank|].
    destruct (Hocr s1 eq_refl eq_refl) as (s2 & Hrun2 & Hpdf).
    destruct (Hpdf "P-1" Examples.white_scan Hblank) as (page & Hfile & Htext & Hbox).
    { vm_compute. reflexivity. }
    exists s2, page. repeat split; assumption.
Defined.

End BlankFacts.

(** ** Facts about the cuneiform worker *)

Section CuneiformFacts.
Import Hocr Pipeline Claims Examples.
Local Open Scope string_scope.

Lemma fallback_page sw :
  exists canvas,
    hocr_to_pdf sw fallback_hocr 300 = Ok canvas
    /\ text_objects canvas = []
    /\ (fst (pagesize canvas) == 408)%Q
    /\ (snd (pagesize canvas) == 576)%Q.
Proof.
  eexists. split; [reflexivity|]. split; [reflexivity|].
  split; reflexivity.
Qed.

(** C8, amended. Suppose the cuneiform run for a page leaves no hOCR
    file.  If the language, in lower case, is not "eng", exactly one more
    run is made, with "eng"; otherwise none.  If the file is still
    missing after that, the worker returns without raising and the page
    PDF it leaves is a single page without text, of the fixed size
    408 x 576 points (1700 x 2400 pixels at 300 dpi).  (Where cuneiform
    is not installed there is no run to speak of: the worker ends in the
    [TypeError] of the program that could not be started.) *)
Theorem cuneiform_retry_and_fallback env x lang s :
  let fs1 := exec env (cmd_cuneiform (lower lang) x) (files s) in
  let retry := if String.eqb (lower lang) "eng" then []
               else [popen (cmd_cuneiform "eng" x)] in
  let fs2 := if String.eqb (lower lang) "eng" then fs1
             else exec env (cmd_cuneiform "eng" x) fs1 in
  fs1 !! page_file x ext_hocr = None ->
  match path_cuneiform env with
  | Some _ =>
      trace (snd (do_ocr_cuneiform env x lang s))
      = (trace s ++ [popen (cmd_cuneiform (lower lang) x)] ++ retry)%list
      /\ (fs2 !! page_file x ext_hocr = None ->
          fst (do_ocr_cuneiform env x lang s) = Ok tt
          /\ exists page,
              files (snd (do_ocr_cuneiform env x lang s)) !! page_file x ext_pdf
              = Some (pdf_doc [page])
              /\ page_text page = []
              /\ (fst (mediabox page) == 408)%Q
              /\ (snd (mediabox page) == 576)%Q)
  | None =>
      exists msg, do_ocr_cuneiform env x lang s = (Raise (TypeError msg), s)
  end.
Proof.
  intros fs1 retry fs2 Hmissing.
  destruct (fallback_page (stringWidth env)) as (canvas & Hcanvas & Htext & Hw & Hh).
  destruct (path_cuneiform env) as [program|] eqn:Hpath;
    [|unfold do_ocr_cuneiform, Popen_found; rewrite Hpath; eexists; reflexivity].
  unfold do_ocr_cuneiform. cbv zeta. unfold Popen_found. rewrite Hpath.
  unfold Popen, isfile, write_file.
  unfold seq_, bind, get, modify, lift, ret, raise.
  cbn [files set_files add_event fst snd trace].
  fold fs1. rewrite Hmissing. cbn [negb andb].
  subst retry fs2.
  destruct (String.eqb (lower lang) "eng"); cbn [negb files set_files add_event trace].
  - rewrite Hmissing. rewrite Hcanvas. cbn [fst snd trace files set_files].
    split; [reflexivity|]. intros _. split; [reflexivity|].
    exists (page_of_canvas canvas).
    split; [|unfold page_of_canvas; cbn [page_text mediabox]; auto].
    rewrite lookup_insert_ne by discriminate. apply lookup_insert_eq.
  - destruct (exec env (cmd_cuneiform "eng" x) fs1 !! page_file x ext_hocr)
      as [f|] eqn:E.
    + split; [|discriminate].
      destruct f as [im | pages | rotate | tree |];
        try (cbn; rewrite <- app_assoc; reflexivity).
      destruct (hocr_to_pdf (stringWidth env) tree 300); cbn;
        rewrite <- app_assoc; reflexivity.
    + rewrite Hcanvas. cbn [fst snd trace files set_files add_event].
      split; [rewrite <- app_assoc; reflexivity|].
      intros _. split; [reflexivity|].
      exists (page_of_canvas canvas).
      split; [|unfold page_of_canvas; cbn [page_text mediabox]; auto].
      rewrite lookup_insert_ne by discriminate. apply lookup_insert_eq.
Qed.

Lemma cuneiform_retry_and_fallback_witness :
  trace (snd (do_ocr_cuneiform idle_env "P-1" "RUS" (start_state a4_files)))
  = [popen (cmd_cuneiform "rus" "P-1"); popen (cmd_cuneiform "eng" "P-1")].
Proof.
  refine (proj1 (cuneiform_retry_and_fallback idle_env "P-1" "RUS"
                   (start_state a4_files) _)).
  vm_compute. reflexivity.
Defined.

(** C8 as stated fails twice.  Cuneiform produces nothing for an A4
    page scanned at 300 dpi (2480 x 3508 pixels): the page written in
    its place is not of that size.  And a page whose language is "eng",
    which is not the pipeline's default "por+eng", gets no retry. *)
Lemma cuneiform_fallback_is_not_page_sized :
  read_image a4_files "P-1" = Ok a4_scan
  /\ (exists page,
        files (snd (do_ocr_cuneiform idle_env "P-1" "rus" (start_state a4_files)))
          !! page_file "P-1" ext_pdf = Some (pdf_doc [page])
        /\ ~ (fst (mediabox page) == fst (points_of_pixels (size a4_scan) 300))%Q
        /\ ~ (snd (mediabox page) == snd (points_of_pixels (size a4_scan) 300))%Q)
  /\ "eng" <> default_tess_langs
  /\ trace (snd (do_ocr_cuneiform idle_env "P-1" "eng" (start_state a4_files)))
     = [popen (cmd_cuneiform "eng" "P-1")].
Proof.
  split; [vm_compute; reflexivity|]. split; [|split].
  - eexists. split; [vm_compute; reflexivity|].
    split; intros H; vm_compute in H; discriminate H.
  - discriminate.
  - vm_compute. reflexivity.
Qed.

End CuneiformFacts.

(** ** Facts about orientation correction *)

Section OrientationFacts.
Import Hocr Pipeline Claims Examples.
Local Open Scope string_scope.

(** Rotation is given up as soon as the OSD files are not as many as the
    pages. *)
Lemma autorotate_skipped_on_count_mismatch o s n :
  use_autorotate o = true ->
  input_file_number_of_pages s = Some n ->
  Z.of_nat (length (glob_pages ext_osd (files s))) <> n ->
  autorotate_final_output o s
  = rename (tmp_file "-OUTPUT.pdf") (tmp_file "-OUTPUT-ROTATED.pdf") s.
Proof.
  intros Hauto Hn Hcount. unfold autorotate_final_output.
  unfold bind at 1, get at 1. unfold bind at 1, get at 1.
  rewrite Hauto, Hn.
  replace (Z.of_nat (length (glob_pages ext_osd (files s))) =? n)%Z with false
    by (symmetry; apply Z.eqb_neq; exact Hcount).
  reflexivity.
Qed.

(** C3, on the code. Two pages, the first blank, the second found
    turned by 90 degrees, orientation correction on.  Orientation
    detection skips the blank page, so one OSD file exists for two
    pages and the rotation is abandoned: in the final output page 2 has
    its text but is not rotated.  (Page 1 is unrotated and textless.) *)
Theorem blank_page_disables_autorotate :
  let final := page_stages autorotate_options working_env ["P-1"; "P-2"]
                 (staged_state two_page_files) in
  fst final = Ok tt
  /\ blank_pages (snd final) = ["P-1"]
  /\ glob_pages ext_osd (files (snd final)) = ["P-2"]
  /\ read_rotate (files (snd final)) "P-2" = 90
  /\ exists page1 page2,
      files (snd final) !! tmp_file "-OUTPUT-ROTATED.pdf"
      = Some (pdf_doc [page1; page2])
      /\ rotation page1 = 0 /\ page_text page1 = []
      /\ rotation page2 = 0 /\ page_text page2 = [recognized_word].
Proof.
  cbv zeta.
  split; [vm_compute; reflexivity|].
  split; [vm_compute; reflexivity|].
  split; [vm_compute; reflexivity|].
  split; [vm_compute; reflexivity|].
  eexists. eexists.
  split; [vm_compute; reflexivity|].
  repeat split; reflexivity.
Qed.

(** The same run when page 1 carries ink as well: both pages get an OSD
    file and page 2 comes out rotated by 90 degrees. *)
Lemma autorotate_applies_without_blank_pages :
  let final := page_stages autorotate_options working_env ["P-1"; "P-2"]
                 (staged_state two_text_page_files) in
  fst final = Ok tt
  /\ blank_pages (snd final) = []
  /\ glob_pages ext_osd (files (snd final)) = ["P-1"; "P-2"]
  /\ exists page1 page2,
      files (snd final) !! tmp_file "-OUTPUT-ROTATED.pdf"
      = Some (pdf_doc [page1; page2])
      /\ rotation page1 = 0 /\ rotation page2 = 90.
Proof.
  cbv zeta.
  split; [vm_compute; reflexivity|].
  split; [vm_compute; reflexivity|].
  split; [vm_compute; reflexivity|].
  eexists. eexists.
  split; [vm_compute; reflexivity|].
  split; reflexivity.
Qed.

End OrientationFacts.

(** ** Further facts about the page range partitioner *)

Section RangesCoverage.
Import Ranges Properties.

Lemma partition_holding size n s rs p :
  0 < size ->
  partition_from size n s rs ->
  length (List.filter (in_range p) rs)
  = if (s <=? p) && (p <=? n) then 1%nat else 0%nat.
Proof.
  intros Hsize. induction 1 as [s Hs Hn | s rest Hlt Hrest IH].
  - cbn [List.filter]. unfold in_range. cbn [fst snd].
    destruct ((s <=? p) && (p <=? n)); reflexivity.
  - cbn [List.filter]. unfold in_range at 1. cbn [fst snd].
    destruct (Z.leb_spec s p), (Z.leb_spec p (s + size - 1));
      cbn [andb length]; rewrite IH;
      destruct (Z.leb_spec (s + size) p), (Z.leb_spec p n);
      cbn; try reflexivity; lia.
Qed.

Lemma calculate_ranges_ok n w :
  20 <= n < 2 ^ 53 -> 1 <= w < 2 ^ 53 ->
  calculate_ranges (Some n) w
  = Ok (Some (range_loop n (ceil_div n w) (ceil_div n (ceil_div n w)))).
Proof.
  intros Hn Hw.
  pose proof (range_loop_partition n w ltac:(lia) ltac:(lia)) as Hp.
  rewrite calculate_ranges_unfold by assumption.
  unfold check_result. rewrite check_pages_total, (partition_total _ _ _ _ Hp).
  replace (n - 1 + 1 =? n) with true by (symmetry; apply Z.eqb_eq; lia).
  reflexivity.
Qed.

(** For page and worker counts below 2^53, every page of the document
    lies in exactly one of the ranges, and a page number outside the
    document lies in none. *)
Theorem every_page_in_one_range (n w p : Z) :
  20 <= n < 2 ^ 53 -> 1 <= w < 2 ^ 53 ->
  exists ranges,
    calculate_ranges (Some n) w = Ok (Some ranges)
    /\ (1 <= p <= n -> length (List.filter (in_range p) ranges) = 1%nat)
    /\ (p < 1 \/ n < p -> length (List.filter (in_range p) ranges) = 0%nat).
Proof.
  intros Hn Hw.
  pose proof (range_loop_partition n w ltac:(lia) ltac:(lia)) as Hp.
  exists (range_loop n (ceil_div n w) (ceil_div n (ceil_div n w))).
  split.
  - apply calculate_ranges_ok; assumption.
  - assert (0 < ceil_div n w) as Hsize by (apply ceil_div_pos; lia).
    rewrite (partition_holding _ _ _ _ p Hsize Hp).
    split; intros Hpage.
    + destruct (Z.leb_spec 1 p), (Z.leb_spec p n); cbn; try reflexivity; lia.
    + destruct (Z.leb_spec 1 p), (Z.leb_spec p n); cbn; try reflexivity; lia.
Qed.

Lemma every_page_in_one_range_witness :
  exists ranges,
    calculate_ranges (Some 100) 8 = Ok (Some ranges)
    /\ (1 <= 50 <= 100 -> length (List.filter (in_range 50) ranges) = 1%nat)
    /\ (50 < 1 \/ 100 < 50 -> length (List.filter (in_range 50) ranges) = 0%nat).
Proof.
  apply (every_page_in_one_range 100 8 50); (split; [lia | reflexivity]).
Defined.

(** For page and worker counts below 2^53, the partitioner never makes
    more ranges than there are workers, and makes at least one. *)
Theorem ranges_at_most_workers (n w : Z) :
  20 <= n < 2 ^ 53 -> 1 <= w < 2 ^ 53 ->
  exists ranges,
    calculate_ranges (Some n) w = Ok (Some ranges)
    /\ 1 <= Z.of_nat (length ranges) <= w.
Proof.
  intros Hn Hw.
  exists (range_loop n (ceil_div n w) (ceil_div n (ceil_div n w))).
  split; [apply calculate_ranges_ok; assumption|].
  unfold range_loop. rewrite length_map, length_seq.
  assert (0 < ceil_div n w) as Hsize by (apply ceil_div_pos; lia).
  pose proof (ceil_div_bounds n w ltac:(lia)) as Hb.
  pose proof (ceil_div_bounds n (ceil_div n w) Hsize) as Hk.
  pose proof (ceil_div_pos n (ceil_div n w) Hsize ltac:(lia)) as Hkpos.
  rewrite Z2Nat.id by lia. nia.
Qed.

Lemma ranges_at_most_workers_witness :
  exists ranges,
    calculate_ranges (Some 21) 8 = Ok (Some ranges)
    /\ 1 <= Z.of_nat (length ranges) <= 8.
Proof.
  apply (ranges_at_most_workers 21 8); (split; [lia | reflexivity]).
Defined.

End RangesCoverage.

(** ** Further facts about the hOCR synthesizer *)

Section HocrEdgeFacts.
Import Hocr Properties.
Variable stringWidth : pystr -> string -> Q -> Q.

Lemma lstrip_spec s :
  exists ws, s = (ws ++ lstrip s)%list /\ forallb is_space ws = true.
Proof.
  induction s as [|c s (ws & Hs & Hws)]; cbn [lstrip].
  - exists []. split; reflexivity.
  - destruct (is_space c) eqn:E.
    + exists (c :: ws). cbn. rewrite E, Hws. split; [f_equal; exact Hs | reflexivity].
    + exists []. split; reflexivity.
Qed.

Lemma lstrip_head s c t : lstrip s = c :: t -> is_space c = false.
Proof.
  induction s as [|a s IH]; cbn [lstrip]; [discriminate|].
  destruct (is_space a) eqn:E; [exact IH|].
  intros [= -> _]. exact E.
Qed.

Lemma lstrip_idempotent s : lstrip (lstrip s) = lstrip s.
Proof.
  destruct (lstrip s) as [|c t] eqn:E; [reflexivity|].
  cbn [lstrip]. rewrite (lstrip_head _ _ _ E). reflexivity.
Qed.

(** [rstrip] cuts a run of whitespace off the end of the string, the
    whole of it: what is left does not end in whitespace, and stripping
    again changes nothing. *)
Theorem rstrip_spec (s : pystr) :
  (exists ws, s = (rstrip s ++ ws)%list /\ forallb is_space ws = true)
  /\ (forall t c, rstrip s = (t ++ [c])%list -> is_space c = false)
  /\ rstrip (rstrip s) = rstrip s.
Proof.
  unfold rstrip. split; [|split].
  - destruct (lstrip_spec (rev s)) as (ws & Hs & Hws).
    exists (rev ws). split.
    + rewrite <- rev_app_distr, <- Hs, rev_involutive. reflexivity.
    + rewrite forallb_forall in Hws |- *. intros c Hc. apply Hws.
      apply in_rev. exact Hc.
  - intros t c H. apply (f_equal (@rev pychar)) in H.
    rewrite rev_involutive, rev_app_distr in H. cbn in H.
    exact (lstrip_head _ _ _ H).
  - rewrite rev_involutive, lstrip_idempotent. reflexivity.
Qed.

(** After [replace_unsupported_chars] the string holds neither ligature;
    a string without them is returned as it is, and a non-empty string
    stays non-empty. *)
Theorem replace_unsupported_chars_spec (s : pystr) :
  no_ligature (replace_unsupported_chars s)
  /\ (no_ligature s -> replace_unsupported_chars s = s)
  /\ (s <> [] -> replace_unsupported_chars s <> []).
Proof.
  unfold replace_unsupported_chars, no_ligature. split; [|split].
  - induction s as [|c s IH]; [constructor|].
    cbn [flat_map]. rewrite flat_map_app. apply Forall_app. split; [|exact IH].
    destruct (N.eqb_spec c 64258) as [-> | H58]; cbn.
    + repeat constructor; discriminate.
    + destruct (N.eqb_spec c 64257) as [-> | H57]; cbn.
      * repeat constructor; discriminate.
      * repeat constructor; assumption.
  - induction s as [|c s IH]; intros Hs; [reflexivity|].
    apply Forall_cons in Hs as [[H57 H58] Hs].
    cbn [flat_map]. rewrite flat_map_app, (IH Hs).
    destruct (N.eqb_spec c 64258); [contradiction|]. cbn.
    destruct (N.eqb_spec c 64257); [contradiction|]. reflexivity.
  - destruct s as [|c s]; [contradiction|]. intros _.
    cbn [flat_map]. rewrite flat_map_app.
    destruct (N.eqb_spec c 64258); cbn; [discriminate|].
    destruct (N.eqb_spec c 64257); cbn; discriminate.
Qed.

Lemma replace_unsupported_chars_spec_witness :
  replace_unsupported_chars [111; 102; 102; 105; 99; 101]%N
  = [111; 102; 102; 105; 99; 101]%N.
Proof.
  apply (proj1 (proj2 (replace_unsupported_chars_spec _))).
  repeat constructor; discriminate.
Defined.


Lemma init_inv root d h :
  init root d = Ok h ->
  dpi h = d /\ hocr h = root /\ xmlns h = root_xmlns root /\ d <> 0.
Proof.
  unfold init.
  destruct (findall root (root_xmlns root +:+ "div") "ocr_page") as [|div rest];
    [discriminate|].
  destruct (Z.eq_dec d 0) as [-> | Hd]; [discriminate|].
  rewrite pt_from_pixel_ok by exact Hd. cbn. intros [= <-]. cbn. auto.
Qed.

Lemma span_body_cases h sbb fontname inv e :
  dpi h <> 0 ->
  (span_text e = [] /\ span_body stringWidth h sbb fontname inv e = Ok [])
  \/ (span_text e <> []
      /\ (stringWidth (span_text e) fontname (span_font_size (dpi h) e) == 0)%Q
      /\ span_body stringWidth h sbb fontname inv e = Raise ZeroDivisionError)
  \/ (span_text e <> []
      /\ ~ (stringWidth (span_text e) fontname (span_font_size (dpi h) e) == 0)%Q
      /\ exists ops t,
          span_body stringWidth h sbb fontname inv e = Ok ops
          /\ texts_of ops = [t]
          /\ render_mode t = (if inv then 3 else 0)
          /\ length (rects_of ops) = (if sbb then 1 else 0)%nat).
Proof.
  intros Hd. unfold span_body. fold (span_text e).
  destruct (span_text e) as [|c s] eqn:E; [left; split; reflexivity|].
  right. cbn [length Nat.eqb].
  rewrite pt_from_pixel_ok by exact Hd. cbn [rbind x1 x2 y1 y2].
  fold (span_font_size (dpi h) e).
  unfold pydiv.
  destruct (Qeq_bool (stringWidth (c :: s) fontname (span_font_size (dpi h) e)) 0)
    eqn:Ew.
  - left. split; [discriminate|]. split; [apply Qeq_bool_iff; exact Ew | reflexivity].
  - right. split; [discriminate|]. split.
    + intros H. apply Qeq_bool_iff in H. rewrite H in Ew. discriminate Ew.
    + cbn [rbind]. eexists. eexists. split; [reflexivity|].
      destruct sbb; cbn; repeat split; reflexivity.
Qed.


Lemma paragraphs_total h sbb l :
  dpi h <> 0 ->
  exists par_ops,
    for_each (paragraph_body h sbb) l = Ok par_ops
    /\ texts_of par_ops = []
    /\ length (rects_of par_ops)
       = (if sbb
          then length (List.filter
                         (fun e => negb (length (rstrip (_get_element_text e)) =? 0)%nat) l)
          else 0)%nat.
Proof.
  intros Hd. induction l as [|e l (rest & Hrest & Hnil & Hlen)].
  - exists []. destruct sbb; repeat split; reflexivity.
  - cbn [for_each List.filter]. unfold paragraph_body at 1.
    destruct (length (rstrip (_get_element_text e)) =? 0)%nat; cbn [negb].
    + cbn [rbind]. rewrite Hrest. cbn. eauto.
    + rewrite pt_from_pixel_ok by exact Hd. cbn [rbind].
      destruct sbb; cbn [rbind]; rewrite Hrest; cbn [rbind]; eexists;
        (split; [reflexivity|]); cbn; rewrite ?Hlen; auto.
Qed.

Lemma spans_total h sbb fontname inv l span_ops :
  dpi h <> 0 ->
  for_each (span_body stringWidth h sbb fontname inv) l = Ok span_ops ->
  length (texts_of span_ops)
  = length (List.filter (fun e => negb (length (span_text e) =? 0)%nat) l)
  /\ Forall (fun t => render_mode t = (if inv then 3 else 0)) (texts_of span_ops)
  /\ length (rects_of span_ops)
     = (if sbb
        then length (List.filter (fun e => negb (length (span_text e) =? 0)%nat) l)
        else 0)%nat.
Proof.
  intros Hd. revert span_ops. induction l as [|e l IH]; intros span_ops Hrun.
  - cbn in Hrun. injection Hrun as <-. destruct sbb; repeat split; constructor.
  - cbn [for_each] in Hrun. cbn [List.filter].
    destruct (span_body_cases h sbb fontname inv e Hd)
      as [(Hempty & He) | [(Hne & Hzero & He) | (Hne & Hnz & ops & t & He & Ht & Hm & Hr)]];
      rewrite He in Hrun; cbn [rbind] in Hrun.
    + destruct (for_each _ l) as [rest|]; [|discriminate Hrun].
      cbn [rbind] in Hrun. injection Hrun as <-.
      rewrite Hempty. cbn. apply IH. reflexivity.
    + discriminate Hrun.
    + destruct (for_each _ l) as [rest|]; [|discriminate Hrun].
      cbn [rbind] in Hrun. injection Hrun as <-.
      destruct (IH rest eq_refl) as (Hlen & Hmode & Hrect).
      destruct (span_text e) as [|c s]; [contradiction|]. cbn [length Nat.eqb negb].
      rewrite texts_of_app, Ht. unfold rects_of in *.
      rewrite List.filter_app, !length_app.
      rewrite Hr, Hrect, Hlen. cbn [app length].
      split; [reflexivity|].
      split; [constructor; assumption|].
      destruct sbb; reflexivity.
Qed.


(** When [to_pdf] succeeds it has drawn one text object per word or line
    with text, all in render mode 3 if invisible text was asked for and 0
    otherwise; bounding boxes are drawn only on request, one per
    paragraph with text and one per word or line with text. *)
Theorem to_pdf_draws (root : element) (d : Z) (h : HocrTransform) (pdf : Canvas)
        (image_file_name : option string) (show_bounding_boxes : bool)
        (fontname : string) (invisible_text : bool) :
  init root d = Ok h ->
  to_pdf stringWidth h image_file_name show_bounding_boxes fontname invisible_text
  = Ok pdf ->
  length (text_objects pdf) = length (text_spans root)
  /\ Forall (fun t => render_mode t = (if invisible_text then 3 else 0))
       (text_objects pdf)
  /\ length (rects_of (ops pdf))
     = (if show_bounding_boxes
        then length (text_paragraphs root) + length (text_spans root)
        else 0)%nat.
Proof.
  intros Hinit Hrun.
  destruct (init_inv root d h Hinit) as (Hdpi & Hhocr & Hns & Hd).
  assert (dpi h <> 0) as Hd' by (rewrite Hdpi; exact Hd).
  unfold to_pdf in Hrun.
  destruct (paragraphs_total h show_bounding_boxes
              (findall (hocr h) (xmlns h +:+ "p") "ocr_par") Hd')
    as (par_ops & Hpar & Hpt & Hpr).
  rewrite Hpar in Hrun. cbn [rbind] in Hrun.
  destruct (for_each (span_body stringWidth h show_bounding_boxes fontname invisible_text) _)
    as [span_ops|] eqn:Hspans; [|discriminate Hrun].
  cbn [rbind] in Hrun. injection Hrun as <-.
  destruct (spans_total _ _ _ _ _ _ Hd' Hspans) as (Hlen & Hmode & Hrect).
  rewrite Hhocr, Hns in Hlen, Hrect, Hpr.
  unfold text_objects, text_spans, text_paragraphs. cbn [ops].
  set (image_ops := match image_file_name with
                    | Some f => [drawImage f 0 0 (width h) (height h)]
                    | None => []
                    end).
  assert (texts_of image_ops = [] /\ rects_of image_ops = []) as [Hit Hir]
      by (subst image_ops; destruct image_file_name; split; reflexivity).
  assert (texts_of ([setStrokeColorRGB 0 1 1; setFillColorRGB 0 1 1; setLineWidth 0]
                      ++ par_ops
                      ++ [setStrokeColorRGB 1 0 0; setLineWidth (1 # 2); setDash 6 3;
                          setFillColorRGB 0 0 0]
                      ++ span_ops ++ image_ops ++ [showPage])
          = texts_of span_ops
          /\ length (rects_of
                       ([setStrokeColorRGB 0 1 1; setFillColorRGB 0 1 1; setLineWidth 0]
                          ++ par_ops
                          ++ [setStrokeColorRGB 1 0 0; setLineWidth (1 # 2); setDash 6 3;
                              setFillColorRGB 0 0 0]
                          ++ span_ops ++ image_ops ++ [showPage]))
             = (length (rects_of par_ops) + length (rects_of span_ops))%nat)
    as [Htexts Hrects].
  { rewrite !texts_of_app, Hpt, Hit. unfold rects_of in *.
    rewrite !List.filter_app, !length_app, Hir.
    cbn [texts_of flat_map List.filter app length]. rewrite !app_nil_r.
    split; [reflexivity | lia]. }
  cbn [app] in Htexts, Hrects. rewrite Htexts, Hrects, Hpr, Hrect.
  split; [exact Hlen|]. split; [exact Hmode|].
  destruct show_bounding_boxes; reflexivity.
Qed.

End HocrEdgeFacts.



Lemma to_pdf_draws_witness :
  exists h pdf,
    Hocr.init Examples.sample_hocr 300 = Ok h
    /\ Hocr.to_pdf Examples.sample_width h None true "Helvetica" false = Ok pdf
    /\ length (Hocr.text_objects pdf) = 2%nat
    /\ length (Properties.rects_of (Hocr.ops pdf)) = 2%nat.
Proof.
  eexists. eexists.
  split; [vm_compute; reflexivity|]. split; [vm_compute; reflexivity|].
  match goal with
  | |- length (Hocr.text_objects ?pdf) = _ /\ _ =>
      destruct (to_pdf_draws Examples.sample_width Examples.sample_hocr 300
                  _ pdf None true "Helvetica" false eq_refl eq_refl)
        as (Htexts & _ & Hrects)
  end.
  split; [exact Htexts | exact Hrects].
Defined.

(** ** Further facts about cleanup and fatal errors *)

Section CleanupFacts.
Import Pipeline Claims Properties.
Local Open Scope string_scope.

Lemma cleanup_files o s p :
  files (snd (cleanup o s)) !! p
  = if delete_temps o && in_tmp_dir p then None else files s !! p.
Proof.
  unfold cleanup, modify. cbn [snd].
  destruct (delete_temps o); cbn [andb].
  - assert (forall s0, files (set_files
              (filter (fun kv => in_tmp_dir (fst kv) = false) (files s0)) s0) !! p
            = if in_tmp_dir p then None else files s0 !! p) as H.
    { intros s0. cbn [files set_files]. rewrite map_lookup_filter.
      destruct (files s0 !! p) as [f|]; cbn; [|destruct (in_tmp_dir p); reflexivity].
      destruct (in_tmp_dir p) eqn:E.
      - rewrite option_guard_False; [reflexivity | discriminate].
      - rewrite option_guard_True; reflexivity. }
    destruct (main_pool s); rewrite H; reflexivity.
  - destruct (main_pool s); reflexivity.
Qed.

Lemma cleanup_cleaned o s : cleaned o (snd (cleanup o s)).
Proof.
  split; [apply cleanup_main_pool|].
  intros Hdel p Hp. rewrite cleanup_files, Hdel, Hp. reflexivity.
Qed.

Lemma fac_bind {A B} o (m : M A) (k : A -> M B) :
  fatal_after_cleanup o m -> (forall a, fatal_after_cleanup o (k a)) ->
  fatal_after_cleanup o (m >>= k).
Proof.
  intros Hm Hk s msg. unfold bind. specialize (Hm s msg).
  destruct (m s) as [[a|e] s1]; cbn [fst snd] in *.
  - apply Hk.
  - intros H. apply Hm. injection H as ->. reflexivity.
Qed.

Lemma fac_seq {B} o (m : M unit) (k : M B) :
  fatal_after_cleanup o m -> fatal_after_cleanup o k ->
  fatal_after_cleanup o (m >> k).
Proof. intros Hm Hk. apply fac_bind; [exact Hm | intros _; exact Hk]. Qed.

Lemma fac_ret {A} o (a : A) : fatal_after_cleanup o (ret a).
Proof. intros s msg H. discriminate H. Qed.

Lemma fac_get {A} o (f : state -> A) : fatal_after_cleanup o (get f).
Proof. intros s msg H. discriminate H. Qed.

Lemma fac_modify o f : fatal_after_cleanup o (modify f).
Proof. intros s msg H. discriminate H. Qed.

Lemma fac_Popen o env c : fatal_after_cleanup o (Popen env c).
Proof. apply fac_modify. Qed.

Lemma fac_Popen_found o program env c :
  fatal_after_cleanup o (Popen_found program env c).
Proof.
  destruct program; [apply fac_Popen|].
  intros s msg H. discriminate H.
Qed.

Lemma fac_write_file o p f : fatal_after_cleanup o (write_file p f).
Proof. apply fac_modify. Qed.

Lemma fac_isfile o p : fatal_after_cleanup o (isfile p).
Proof. apply fac_get. Qed.

Lemma fac_lift {A} o (r : outcome A) :
  (forall msg, r <> Raise (Pdf2PdfOcrException msg)) ->
  fatal_after_cleanup o (lift r).
Proof. intros Hr s msg H. cbn in H. exfalso. exact (Hr msg H). Qed.

Lemma fac_raise {A} o e :
  (forall msg, e <> Pdf2PdfOcrException msg) ->
  fatal_after_cleanup o (raise e : M A).
Proof. intros He s msg H. cbn in H. injection H as H. exfalso. exact (He msg H). Qed.

Lemma fac_cleanup_raise {A} o e :
  fatal_after_cleanup o (cleanup o >> (raise e : M A)).
Proof.
  intros s msg _. unfold seq_, bind, raise.
  pose proof (cleanup_cleaned o s) as Hc.
  destruct (cleanup o s) as [[[]|e'] s1] eqn:E; cbn [snd] in *; [exact Hc|].
  unfold cleanup, modify in E. discriminate E.
Qed.

Lemma fac_for {A} o (l : list A) (body : A -> M unit) :
  (forall a, fatal_after_cleanup o (body a)) -> fatal_after_cleanup o (for_ l body).
Proof.
  intros Hbody. induction l as [|a l IH]; cbn [for_].
  - apply fac_ret.
  - apply fac_seq; [apply Hbody | exact IH].
Qed.

Lemma fac_pool_worker o w : fatal_after_cleanup o (pool_worker w).
Proof. intros s msg H. discriminate H. Qed.

Lemma map_outcome_raise {A B} (f : A -> outcome B) l e :
  map_outcome f l = Raise e -> exists a, In a l /\ f a = Raise e.
Proof.
  induction l as [|a l IH]; cbn [map_outcome]; [discriminate|].
  destruct (f a) as [b|e'] eqn:Ea; cbn [rbind].
  - destruct (map_outcome f l) as [bs|e'']; cbn [rbind]; [discriminate|].
    intros [= ->]. destruct (IH eq_refl) as (a' & Hin & Ha').
    exists a'. split; [right; exact Hin | exact Ha'].
  - intros [= ->]. exists a. split; [left; reflexivity | exact Ea].
Qed.

Lemma fac_map_outcome {A B} o (f : A -> outcome B) l :
  (forall a msg, f a <> Raise (Pdf2PdfOcrException msg)) ->
  fatal_after_cleanup o (lift (map_outcome f l)).
Proof.
  intros Hf. apply fac_lift. intros msg H.
  apply map_outcome_raise in H. destruct H as (a & _ & Ha). exact (Hf a msg Ha).
Qed.

Lemma read_pdf_not_fatal fs p msg : read_pdf fs p <> Raise (Pdf2PdfOcrException msg).
Proof. unfold read_pdf. destruct (fs !! p) as [[]|]; discriminate. Qed.

Lemma read_image_not_fatal fs x msg :
  read_image fs x <> Raise (Pdf2PdfOcrException msg).
Proof. unfold read_image. destruct (fs !! _) as [[]|]; discriminate. Qed.

Lemma first_page_area_not_fatal fs p msg :
  first_page_area fs p <> Raise (Pdf2PdfOcrException msg).
Proof. unfold first_page_area. destruct (fs !! p) as [[|[]| | |]|]; discriminate. Qed.

Lemma fac_merge_ocr o env image text result tag :
  fatal_after_cleanup o (_merge_ocr o env image text result tag).
Proof.
  intros s msg H.
  destruct (merge_ocr_cases o env image text result tag s)
    as [(e & He) | (c & _ & He)]; rewrite He in H |- *.
  - cbn in H. injection H as ->.
    exfalso. revert He. unfold _merge_ocr, bind, get, lift, ret, raise.
    destruct (path_qpdf o); [|discriminate].
    destruct (first_page_area (files s) image) as [a|e] eqn:Ei.
    + destruct (first_page_area (files s) text) as [b|e] eqn:Et; [discriminate|].
      intros [= ->]. exact (first_page_area_not_fatal _ _ _ Et).
    + destruct e; try (intros [= ?]; subst;
                       try exact (first_page_area_not_fatal _ _ _ Ei); discriminate).
      destruct (first_page_area (files s) text) as [b|e] eqn:Et; [discriminate|].
      intros [= ->]. exact (first_page_area_not_fatal _ _ _ Et).
  - discriminate H.
Qed.

Lemma fac_copyfile o src dst : fatal_after_cleanup o (copyfile src dst).
Proof.
  unfold copyfile. apply fac_bind; [apply fac_get|]. intros fs.
  destruct (fs !! src); [apply fac_write_file | apply fac_raise; discriminate].
Qed.

Lemma fac_pdf_merge o parts dst : fatal_after_cleanup o (pdf_merge parts dst).
Proof.
  unfold pdf_merge. apply fac_bind; [apply fac_get|]. intros fs.
  apply fac_bind; [|intros docs; apply fac_write_file].
  apply fac_map_outcome. intros a msg. apply read_pdf_not_fatal.
Qed.

Lemma fac_rebuild_and_merge o env : fatal_after_cleanup o (rebuild_and_merge o env).
Proof.
  unfold rebuild_and_merge. apply fac_bind; [apply fac_get|]. intros fs.
  apply fac_bind.
  { destruct (String.eqb _ _); [|apply fac_ret].
    apply fac_map_outcome. intros x msg.
    destruct (read_image fs x) eqn:E; cbn; [discriminate|].
    intros [= ->]. exact (read_image_not_fatal _ _ _ E). }
  intros results. apply fac_seq; [apply fac_for; intros x; apply fac_pool_worker|].
  apply fac_bind; [apply fac_get|]. intros fs'.
  apply fac_seq.
  { destruct (0 <? _)%nat; [apply fac_pdf_merge | apply fac_cleanup_raise]. }
  apply fac_bind; [apply fac_get|]. intros ignored.
  destruct (negb ignored); [apply fac_merge_ocr | apply fac_copyfile].
Qed.

Lemma fac_build_final_output o env : fatal_after_cleanup o (build_final_output o env).
Proof.
  unfold build_final_output. apply fac_bind; [apply fac_get|]. intros rebuild.
  apply fac_seq.
  { destruct (negb rebuild); [|apply fac_rebuild_and_merge].
    apply fac_bind; [apply fac_get|]. intros ignored.
    destruct (negb ignored); [|apply fac_copyfile].
    apply fac_seq; [apply fac_merge_ocr|].
    apply fac_bind; [apply fac_isfile|]. intros created.
    destruct (negb created); [|apply fac_ret].
    unfold try_repair_input_and_merge.
    apply fac_seq; [apply fac_Popen_found|].
    apply fac_seq; [apply fac_Popen_found|].
    apply fac_merge_ocr. }
  apply fac_bind; [apply fac_isfile|]. intros created.
  destruct (negb created); [apply fac_cleanup_raise | apply fac_ret].
Qed.

Lemma fac_check_blank_pages o l : fatal_after_cleanup o (check_blank_pages l).
Proof.
  unfold check_blank_pages. apply fac_bind; [apply fac_get|]. intros fs.
  apply fac_bind.
  { apply fac_map_outcome. intros x msg.
    destruct (read_image fs x) eqn:E; cbn; [discriminate|].
    intros [= ->]. exact (read_image_not_fatal _ _ _ E). }
  intros infos. apply fac_for. intros it.
  destruct (is_blank _); [apply fac_modify | apply fac_ret].
Qed.

Lemma fac_do_create_blank_pdf o p dim res :
  fatal_after_cleanup o (do_create_blank_pdf p dim res).
Proof.
  unfold do_create_blank_pdf.
  apply fac_bind; [apply fac_lift; intros msg; unfold pydiv; destruct (Qeq_bool _ _);
                   discriminate|].
  intros w.
  apply fac_bind; [apply fac_lift; intros msg; unfold pydiv; destruct (Qeq_bool _ _);
                   discriminate|].
  intros h. apply fac_write_file.
Qed.

Lemma fac_external_ocr o env l : fatal_after_cleanup o (external_ocr o env l).
Proof.
  unfold external_ocr. destruct (_ || _); [|apply fac_modify].
  apply fac_bind; [apply fac_get|]. intros blank.
  apply fac_seq.
  { apply fac_for. intros x. apply fac_seq; [apply fac_modify | apply fac_pool_worker]. }
  apply fac_bind; [apply fac_get|]. intros blank'.
  apply fac_bind; [apply fac_get|]. intros dims.
  apply fac_seq; [|apply fac_modify].
  apply fac_for. intros it.
  destruct (dims !! fst it);
    [apply fac_do_create_blank_pdf | apply fac_raise; discriminate].
Qed.

Lemma fac_join_ocred_pdf o : fatal_after_cleanup o (join_ocred_pdf o).
Proof.
  unfold join_ocred_pdf. apply fac_bind; [apply fac_get|]. intros fs.
  destruct (0 <? _)%nat; [apply fac_pdf_merge | apply fac_cleanup_raise].
Qed.

Lemma fac_autorotate_info o env l : fatal_after_cleanup o (autorotate_info o env l).
Proof.
  unfold autorotate_info. destruct (use_autorotate o); [|apply fac_ret].
  apply fac_bind; [apply fac_get|]. intros blank.
  apply fac_for. intros x. apply fac_pool_worker.
Qed.

Lemma fac_autorotate_final_output o : fatal_after_cleanup o (autorotate_final_output o).
Proof.
  unfold autorotate_final_output. apply fac_bind; [apply fac_get|]. intros fs.
  apply fac_bind; [apply fac_get|]. intros n.
  destruct (_ && _).
  - apply fac_bind; [apply fac_lift; intros msg; apply read_pdf_not_fatal|].
    intros pages. apply fac_bind; [|intros; apply fac_write_file].
    apply fac_map_outcome. intros it msg.
    destruct (_ !! _); discriminate.
  - unfold rename. apply fac_bind; [apply fac_get|]. intros fs'.
    destruct (fs' !! _); [apply fac_modify | apply fac_raise; discriminate].
Qed.

Lemma fac_validations o env {A} (work : M A) :
  fatal_after_cleanup o work ->
  fatal_after_cleanup o
    (check_avoid_file_by_size o env >>
     detect_file_type env >>
     get input_file_type >>= fun type =>
     (if String.eqb type "application/pdf"
      then validate_pdf_input_file o env else ret tt) >>
     check_rebuild_pdf o >>
     work).
Proof.
  intros Hwork.
  assert (fatal_after_cleanup o (check_avoid_high_pages o)) as Hhigh.
  { unfold check_avoid_high_pages. apply fac_bind; [apply fac_get|]. intros n.
    destruct n as [n|]; [|apply fac_ret].
    destruct (avoid_high_pages_pages o) as [limit|]; [|apply fac_ret].
    destruct (n >? limit)%Z; [apply fac_cleanup_raise | apply fac_ret]. }
  apply fac_seq.
  { unfold check_avoid_file_by_size.
    destruct (avoid_small_file_limit_kb o) as [limit|]; [|apply fac_ret].
    destruct (Qlt_le_dec _ _); [apply fac_cleanup_raise | apply fac_ret]. }
  apply fac_seq.
  { unfold detect_file_type. apply fac_seq; [apply fac_Popen | apply fac_modify]. }
  apply fac_bind; [apply fac_get|]. intros type.
  apply fac_seq.
  { destruct (String.eqb type _); [|apply fac_ret].
    unfold validate_pdf_input_file.
    destruct (pdf_reader env) as [[n enc]|]; [|apply fac_cleanup_raise].
    apply fac_seq; [apply fac_modify|]. apply fac_seq; [exact Hhigh|].
    apply fac_seq; [apply fac_modify|].
    apply fac_seq.
    { destruct (check_text_mode o); [|apply fac_ret].
      apply fac_bind; [|intros t; apply fac_modify].
      unfold check_for_text. apply fac_seq; [apply fac_Popen | apply fac_ret]. }
    apply fac_bind; [apply fac_get|]. intros [[t ht] en].
    apply fac_seq;
      (destruct (_ && _); [apply fac_cleanup_raise | apply fac_ret]). }
  apply fac_seq; [|exact Hwork].
  unfold check_rebuild_pdf. apply fac_bind; [apply fac_get|]. intros [en t].
  apply fac_seq; [apply fac_modify|].
  destruct (_ && _); [apply fac_cleanup_raise | apply fac_ret].
Qed.

(** Every fatal error of the pipeline is raised after cleanup.  Whenever
    the validations of [ocr] or the page stages end in
    [Pdf2PdfOcrException], the pool has been shut down and, unless
    temporary files are kept, the temporary directory is empty. *)
Theorem fatal_errors_follow_cleanup o env (image_file_list : list string) :
  (forall work : M unit,
     fatal_after_cleanup o work -> fatal_after_cleanup o (ocr o env work))
  /\ fatal_after_cleanup o (page_stages o env image_file_list).
Proof.
  split.
  - intros work Hwork. apply (fac_validations o env work Hwork).
  - unfold page_stages.
    apply fac_seq; [apply fac_check_blank_pages|].
    apply fac_seq; [apply fac_autorotate_info|].
    apply fac_seq; [apply fac_external_ocr|].
    apply fac_bind; [apply fac_get|]. intros ignored.
    apply fac_seq; [destruct (negb ignored); [apply fac_join_ocred_pdf | apply fac_ret]|].
    apply fac_seq; [apply fac_build_final_output | apply fac_autorotate_final_output].
Qed.

Lemma fatal_errors_follow_cleanup_witness :
  fst (ocr MoreExamples.small_file_options Examples.idle_env (ret tt)
         (Examples.start_state Examples.two_page_files))
  = Raise (Pdf2PdfOcrException "Input file is smaller than --min-kbytes. Exiting.")
  /\ cleaned MoreExamples.small_file_options
       (snd (ocr MoreExamples.small_file_options Examples.idle_env (ret tt)
               (Examples.start_state Examples.two_page_files))).
Proof.
  assert (fst (ocr MoreExamples.small_file_options Examples.idle_env (ret tt)
                 (Examples.start_state Examples.two_page_files))
          = Raise (Pdf2PdfOcrException
                     "Input file is smaller than --min-kbytes. Exiting.")) as Hraise
      by (vm_compute; reflexivity).
  split; [exact Hraise|].
  exact (proj1 (fatal_errors_follow_cleanup MoreExamples.small_file_options
                  Examples.idle_env [])
           (ret tt) (fac_ret MoreExamples.small_file_options tt)
           (Examples.start_state Examples.two_page_files) _ Hraise).
Defined.

End CleanupFacts.

(** ** Further facts about the merger and the final output *)

Section MergeEdgeFacts.
Import Pipeline Claims Properties Examples MoreExamples.
Local Open Scope string_scope.

(** With qpdf installed: an image PDF that is missing makes [_merge_ocr]
    raise before anything is run; an image PDF that cannot be parsed
    counts as area zero, so a text layer of non-negative area is
    overlaid. *)
Theorem merge_ocr_image_errors o env image text result tag s q :
  path_qpdf o = Some q ->
  (files s !! image = None ->
   exists msg, _merge_ocr o env image text result tag s = (Raise (OSError msg), s))
  /\ (forall msg B,
        first_page_area (files s) image = Raise (PdfReadError msg) ->
        first_page_area (files s) text = Ok B ->
        (0 <= B)%Q ->
        _merge_ocr o env image text result tag s
        = Popen env (cmd_qpdf_overlay text image result) s).
Proof.
  intros Hq. unfold _merge_ocr, bind, get, lift, ret, raise. rewrite Hq. split.
  - intros Hmissing. unfold first_page_area at 1. rewrite Hmissing.
    eexists. reflexivity.
  - intros msg B Himg Htxt HB. rewrite Himg, Htxt. cbn [fst snd].
    unfold merge_command.
    destruct (Qlt_le_dec B 0) as [Hlt | _]; [|reflexivity].
    exfalso. exact (Qle_not_lt _ _ HB Hlt).
Qed.

Lemma merge_ocr_image_errors_witness :
  _merge_ocr default_options idle_env input_file (tmp_file "-ocr.pdf")
    (tmp_file "-OUTPUT.pdf") "final-output" (start_state unreadable_input_files)
  = Popen idle_env
      (cmd_qpdf_overlay (tmp_file "-ocr.pdf") input_file (tmp_file "-OUTPUT.pdf"))
      (start_state unreadable_input_files).
Proof.
  refine (proj2 (merge_ocr_image_errors default_options idle_env input_file
                   (tmp_file "-ocr.pdf") (tmp_file "-OUTPUT.pdf") "final-output"
                   (start_state unreadable_input_files) "/usr/bin/qpdf" eq_refl)
            "" (100 * 100)%Q _ _ _).
  - vm_compute. reflexivity.
  - vm_compute. reflexivity.
  - discriminate.
Defined.

(** [_merge_ocr] either raises before running anything, leaving the state
    as it was, or runs exactly one command, which merges the given image
    and text files into the given result; without qpdf it never reads
    the files and always runs the page-by-page helper. *)
Theorem merge_ocr_one_command o env image text result tag s :
  ((exists e, _merge_ocr o env image text result tag s = (Raise e, s))
   \/ (exists c,
         is_merge_of image text result c
         /\ fst (_merge_ocr o env image text result tag s) = Ok tt
         /\ trace (snd (_merge_ocr o env image text result tag s))
            = (trace s ++ [popen c])%list
         /\ files (snd (_merge_ocr o env image text result tag s))
            = exec env c (files s)))
  /\ (path_qpdf o = None ->
      _merge_ocr o env image text result tag s
      = Popen env (cmd_multibackground image text result) s).
Proof.
  split.
  - destruct (merge_ocr_cases o env image text result tag s)
      as [He | (c & Hc & He)]; [left; exact He | right].
    exists c. rewrite He. repeat split; [exact Hc|..]; reflexivity.
  - intros Hq. unfold _merge_ocr, bind, ret. rewrite Hq. reflexivity.
Qed.

Lemma merge_ocr_one_command_witness :
  _merge_ocr options_without_qpdf idle_env input_file (tmp_file "-ocr.pdf")
    (tmp_file "-OUTPUT.pdf") "final-output" (start_state ∅)
  = Popen idle_env
      (cmd_multibackground input_file (tmp_file "-ocr.pdf") (tmp_file "-OUTPUT.pdf"))
      (start_state ∅).
Proof.
  apply (proj2 (merge_ocr_one_command options_without_qpdf idle_env input_file
                  (tmp_file "-ocr.pdf") (tmp_file "-OUTPUT.pdf") "final-output"
                  (start_state ∅))).
  reflexivity.
Defined.

(** When [build_final_output] returns, the merged output file exists,
    whichever path produced it. *)
Theorem build_final_output_creates_output o env s s' :
  build_final_output o env s = (Ok tt, s') ->
  is_Some (files s' !! tmp_file "-OUTPUT.pdf").
Proof.
  unfold build_final_output. unfold bind at 1, get at 1.
  unfold seq_ at 1, bind at 1.
  match goal with |- context [?m s] => destruct (m s) as [[[]|e] s1] end;
    [|discriminate].
  unfold bind, isfile, get.
  destruct (files s1 !! tmp_file "-OUTPUT.pdf") as [f|] eqn:E; cbn [negb].
  - intros [= <-]. rewrite E. eauto.
  - unfold seq_, bind, raise. destruct (cleanup o s1) as [[[]|?] ?]; discriminate.
Qed.

Lemma build_final_output_creates_output_witness :
  is_Some (files (snd (build_final_output default_options working_env
                         (start_state merge_files)))
             !! tmp_file "-OUTPUT.pdf").
Proof.
  apply (build_final_output_creates_output default_options working_env
           (start_state merge_files)).
  vm_compute. reflexivity.
Defined.

(** Without an OCR engine, on the direct path, nothing is dispatched and
    no program is run: [external_ocr] followed by [build_final_output]
    just copies the input file to the output. *)
Theorem no_ocr_copies_input o env (image_file_list : list string) s f :
  String.eqb (ocr_engine o) "cuneiform" = false ->
  String.eqb (ocr_engine o) "tesseract" = false ->
  rebuild_pdf_from_images s = false ->
  files s !! input_file = Some f ->
  exists s',
    (external_ocr o env image_file_list >> build_final_output o env) s = (Ok tt, s')
    /\ files s' = <[tmp_file "-OUTPUT.pdf" := f]> (files s)
    /\ trace s' = trace s
    /\ ocr_ignored s' = true.
Proof.
  intros Hc Ht Hreb Hin. unfold external_ocr. rewrite Hc, Ht. cbn [orb].
  unfold seq_ at 1, bind at 1, modify at 1.
  unfold build_final_output. unfold bind at 1, get at 1.
  cbn [rebuild_pdf_from_images set_ocr_ignored]. rewrite Hreb. cbn [negb].
  unfold seq_ at 1, bind at 1. unfold bind at 1, get at 1.
  cbn [ocr_ignored set_ocr_ignored negb].
  unfold copyfile, bind at 1, get at 1. cbn [files set_ocr_ignored]. rewrite Hin.
  unfold write_file, modify. unfold bind, isfile, get.
  cbn [files set_files set_ocr_ignored]. rewrite lookup_insert_eq. cbn [negb].
  eexists. split; [reflexivity|]. repeat split; reflexivity.
Qed.

Lemma no_ocr_copies_input_witness :
  exists s',
    (external_ocr no_ocr_options idle_env ["P-1"; "P-2"]
     >> build_final_output no_ocr_options idle_env) (staged_state two_page_files)
    = (Ok tt, s')
    /\ files s' = <[tmp_file "-OUTPUT.pdf" := pdf_doc [letter_page; letter_page]]>
                    (files (staged_state two_page_files))
    /\ trace s' = trace (staged_state two_page_files)
    /\ ocr_ignored s' = true.
Proof.
  apply (no_ocr_copies_input no_ocr_options idle_env ["P-1"; "P-2"]
           (staged_state two_page_files)).
  - reflexivity.
  - reflexivity.
  - reflexivity.
  - vm_compute. reflexivity.
Defined.

End MergeEdgeFacts.

(** ** Further facts about OCR dispatch *)

Section DispatchFacts.
Import Hocr Pipeline Claims Properties Examples MoreExamples.
Local Open Scope string_scope.

Lemma submitted_app l1 l2 : submitted (l1 ++ l2) = (submitted l1 ++ submitted l2)%list.
Proof. unfold submitted. apply flat_map_app. Qed.

(** The runs of cuneiform that [do_ocr_cuneiform] makes when cuneiform
    is installed, whatever the programs do and however the worker ends:
    one with the language in lower case, then one more with "eng" exactly
    when the first left no hOCR file and the language is not "eng"; never
    a third.  When cuneiform is not installed the worker ends in
    [TypeError] at once and nothing is run. *)
Theorem cuneiform_runs env x lang s :
  match path_cuneiform env with
  | Some _ =>
      trace (snd (do_ocr_cuneiform env x lang s))
      = (trace s
           ++ popen (cmd_cuneiform (lower lang) x)
           :: (if match exec env (cmd_cuneiform (lower lang) x) (files s)
                          !! page_file x ext_hocr with
                  | Some _ => false
                  | None => negb (String.eqb (lower lang) "eng")
                  end
               then [popen (cmd_cuneiform "eng" x)]
               else []))%list
  | None =>
      exists msg, do_ocr_cuneiform env x lang s = (Raise (TypeError msg), s)
  end.
Proof.
  unfold do_ocr_cuneiform. cbv zeta. unfold Popen_found.
  destruct (path_cuneiform env) as [program|]; [|eexists; reflexivity].
  unfold Popen, isfile, write_file.
  unfold seq_, bind, get, modify, lift, ret, raise.
  cbn [files set_files add_event fst snd trace].
  destruct (exec env (cmd_cuneiform (lower lang) x) (files s) !! page_file x ext_hocr)
    as [f|] eqn:E1; cbn [negb andb].
  - cbn [files set_files add_event fst snd trace]. rewrite E1.
    destruct f as [im | pages | rotate | tree |]; try reflexivity.
    destruct (hocr_to_pdf (stringWidth env) tree 300); reflexivity.
  - destruct (String.eqb (lower lang) "eng"); cbn [negb].
    + cbn [files set_files add_event fst snd trace]. rewrite E1.
      destruct (hocr_to_pdf (stringWidth env) fallback_hocr 300); reflexivity.
    + cbn [files set_files add_event fst snd trace].
      destruct (exec env (cmd_cuneiform "eng" x) _ !! page_file x ext_hocr)
        as [f|] eqn:E2.
      * destruct f as [im | pages | rotate | tree |];
          try (cbn; rewrite <- app_assoc; reflexivity).
        destruct (hocr_to_pdf (stringWidth env) tree 300); cbn;
          rewrite <- app_assoc; reflexivity.
      * destruct (hocr_to_pdf (stringWidth env) fallback_hocr 300); cbn;
          rewrite <- app_assoc; reflexivity.
Qed.

(** When [do_ocr_cuneiform] returns, it has left the page PDF, which has
    exactly one page, the repaired hOCR file and the progress marker. *)
Theorem cuneiform_leaves_page env x lang s s' :
  do_ocr_cuneiform env x lang s = (Ok tt, s') ->
  (exists page, files s' !! page_file x ext_pdf = Some (pdf_doc [page]))
  /\ (exists tree, files s' !! page_file x ext_fixed_hocr = Some (hocr_doc tree))
  /\ files s' !! page_file x ext_tmp = Some data.
Proof.
  unfold do_ocr_cuneiform. cbv zeta. unfold Popen_found.
  destruct (path_cuneiform env) as [program|]; [|intros H; discriminate H].
  unfold Popen, isfile, write_file.
  unfold seq_, bind, get, modify, lift, ret, raise.
  cbn [files set_files add_event fst snd].
  repeat match goal with
         | |- context [match ?t with _ => _ end] =>
             lazymatch t with
             | context [match _ with _ => _ end] => fail
             | _ => destruct t eqn:?
             end; cbn [files set_files add_event fst snd negb andb]
         end;
    intros H; try discriminate H; try (exfalso; congruence); injection H as <-;
    cbn [files set_files add_event];
    (split; [eexists | split; [eexists|]]);
    repeat (rewrite lookup_insert_ne by discriminate); apply lookup_insert_eq.
Qed.

Lemma cuneiform_leaves_page_witness :
  files (snd (do_ocr_cuneiform idle_env "P-1" "rus" (start_state a4_files)))
    !! page_file "P-1" ext_tmp = Some data.
Proof.
  assert (do_ocr_cuneiform idle_env "P-1" "rus" (start_state a4_files)
          = (Ok tt, snd (do_ocr_cuneiform idle_env "P-1" "rus" (start_state a4_files))))
    as Hrun by (vm_compute; reflexivity).
  apply (proj2 (proj2 (cuneiform_leaves_page idle_env "P-1" "rus"
                         (start_state a4_files) _ Hrun))).
Defined.

End DispatchFacts.

(** ** Further facts about the OCR pool and the page aggregator *)

Section PoolFacts.
Import Hocr Pipeline Claims Properties Examples MoreExamples.
Local Open Scope string_scope.

Lemma submitted_snoc evs ev :
  submitted (evs ++ [ev])
  = (submitted evs ++ match ev with submit_ocr _ x => [x] | _ => [] end)%list.
Proof. unfold submitted. rewrite flat_map_app. cbn. rewrite app_nil_r. reflexivity. Qed.

Lemma do_ocr_cuneiform_submits_nothing env x lang s :
  submitted (trace (snd (do_ocr_cuneiform env x lang s))) = submitted (trace s).
Proof.
  unfold do_ocr_cuneiform. cbv zeta. unfold Popen_found.
  destruct (path_cuneiform env) as [program|]; [|reflexivity].
  unfold Popen, isfile, write_file.
  unfold seq_, bind, get, modify, lift, ret, raise.
  cbn [files set_files add_event fst snd trace].
  repeat match goal with
         | |- context [match ?t with _ => _ end] =>
             lazymatch t with
             | context [match _ with _ => _ end] => fail
             | _ => destruct t eqn:?
             end; cbn [files set_files add_event fst snd negb andb trace]
         end;
    rewrite ?submitted_snoc, ?app_nil_r; reflexivity.
Qed.

Lemma ocr_worker_loop_submits o env (l : list string) : forall s,
  let body := fun x =>
    modify (add_event (submit_ocr (ocr_engine o) x)) >>
    pool_worker
      (if String.eqb (ocr_engine o) "cuneiform"
       then do_ocr_cuneiform env x (tess_langs o)
       else modify (fun s => set_files (do_ocr_tesseract env x (files s)) s)) in
  submitted (trace (snd (for_ l body s))) = (submitted (trace s) ++ l)%list.
Proof.
  intros s body. revert s. induction l as [|x l IH]; intros s; cbn [for_].
  - cbn. rewrite app_nil_r. reflexivity.
  - unfold seq_ at 1, bind at 1.
    assert (fst (body x s) = Ok tt
            /\ submitted (trace (snd (body x s))) = (submitted (trace s) ++ [x])%list)
      as [Hok Hsub].
    { subst body. unfold seq_, bind, pool_worker, modify. cbn [fst snd].
      split; [reflexivity|].
      destruct (String.eqb (ocr_engine o) "cuneiform").
      - rewrite do_ocr_cuneiform_submits_nothing. cbn [trace add_event].
        apply submitted_snoc.
      - cbn [snd trace set_files add_event]. apply submitted_snoc. }
    destruct (body x s) as [r s1]. cbn [fst snd] in *. subst r.
    rewrite IH, Hsub, <- app_assoc. reflexivity.
Qed.

Lemma blank_pdf_loop_returns res (dims : list (Z * Z)) : res <> 0 ->
  forall (blank : list string) k s,
    (length blank + k <= length dims)%nat ->
    exists s',
      for_ (imap (fun idx blank_page_img => ((k + idx)%nat, blank_page_img)) blank)
        (fun it =>
           match dims !! fst it with
           | Some blank_page_dimension =>
               do_create_blank_pdf (page_file (snd it) ext_pdf) blank_page_dimension res
           | None => raise IndexError
           end) s = (Ok tt, s')
      /\ trace s' = trace s.
Proof.
  intros Hres. induction blank as [|x blank IH]; intros k s Hlen.
  - exists s. split; reflexivity.
  - rewrite imap_cons. cbn [for_ fst snd]. unfold seq_ at 1, bind at 1.
    cbn [length] in Hlen.
    destruct (lookup_lt_is_Some_2 dims (k + 0)%nat ltac:(lia)) as (d0 & ->).
    rewrite do_create_blank_pdf_ok by exact Hres.
    destruct (IH (S k) (set_files (<[page_file x ext_pdf := blank_pdf d0 res]> (files s)) s))
      as (s' & Hrun & Htrace); [lia|].
    exists s'. split; [|exact Htrace].
    rewrite <- Hrun. f_equal. apply imap_ext. intros i y _. cbn. f_equal. lia.
Qed.

(** With an OCR engine, [external_ocr] hands exactly the non-blank pages
    to the pool, each once and in page order, whatever the workers do;
    and at a non-zero resolution, with a recorded size for every blank
    page, it returns normally even when workers fail. *)
Theorem external_ocr_dispatch o env (image_file_list : list string) s :
  ocr_engine o = "cuneiform" \/ ocr_engine o = "tesseract" ->
  image_resolution o <> 0 ->
  (length (blank_pages s) <= length (blank_pages_dimensions s))%nat ->
  fst (external_ocr o env image_file_list s) = Ok tt
  /\ submitted (trace (snd (external_ocr o env image_file_list s)))
     = (submitted (trace s)
          ++ List.filter (not_in (blank_pages s)) image_file_list)%list
  /\ ocr_ignored (snd (external_ocr o env image_file_list s)) = false.
Proof.
  intros Hengine Hres Hlen.
  assert (exists sb,
            external_ocr o env image_file_list s = (Ok tt, set_ocr_ignored false sb)
            /\ submitted (trace sb)
               = (submitted (trace s)
                    ++ List.filter (not_in (blank_pages s)) image_file_list)%list)
    as (sb & Hrun & Hsb).
  { unfold external_ocr.
    replace (String.eqb (ocr_engine o) "cuneiform"
             || String.eqb (ocr_engine o) "tesseract") with true
      by (destruct Hengine as [-> | ->]; reflexivity).
    unfold bind at 1, get at 1. unfold seq_ at 1, bind at 1.
    pose proof (ocr_worker_loop_submits o env
                  (image_list_for_external_ocr image_file_list (blank_pages s)) s)
      as Hsub.
    destruct (ocr_worker_loop o env
                (image_list_for_external_ocr image_file_list (blank_pages s)) s)
      as (Hok & Hkb & Hkd).
    cbv zeta in Hsub, Hok, Hkb, Hkd.
    destruct (for_ _ _ s) as [r sa]. cbn [fst snd] in Hsub, Hok, Hkb, Hkd. subst r.
    unfold bind at 1, get at 1. unfold bind at 1, get at 1.
    unfold seq_ at 1, bind at 1.
    destruct (blank_pdf_loop_returns (image_resolution o) (blank_pages_dimensions sa)
                Hres (blank_pages sa) 0%nat sa) as (sb & Hloop & Htrace).
    { rewrite Hkb, Hkd. lia. }
    cbn [Nat.add] in Hloop. rewrite Hloop.
    exists sb. split; [reflexivity|]. rewrite Htrace. exact Hsub. }
  rewrite Hrun. cbn [fst snd trace set_ocr_ignored ocr_ignored].
  split; [reflexivity|]. split; [exact Hsb | reflexivity].
Qed.

Lemma external_ocr_dispatch_witness :
  submitted (trace (snd (external_ocr default_options working_env ["P-1"; "P-2"; "P-3"]
                           (mkState "application/pdf" false false (Some 3) false false
                                    ["P-2"] [(2550, 3300)] true two_page_files []))))
  = ["P-1"; "P-3"].
Proof.
  refine (proj1 (proj2 (external_ocr_dispatch default_options working_env
                          ["P-1"; "P-2"; "P-3"]
                          (mkState "application/pdf" false false (Some 3) false false
                                   ["P-2"] [(2550, 3300)] true two_page_files [])
                          _ _ _))).
  - right. reflexivity.
  - discriminate.
  - cbn. lia.
Defined.

Lemma flat_map_all_nil {A B} (f : A -> list B) (l : list A) :
  (forall a, In a l -> f a = []) -> flat_map f l = [].
Proof.
  induction l as [|a l IH]; intros H; [reflexivity|].
  cbn [flat_map]. rewrite (H a (or_introl eq_refl)), IH; [reflexivity|].
  intros b Hb. apply H. right. exact Hb.
Qed.

Lemma glob_pages_none e (fs : gmap path file) :
  (forall x, fs !! page_file x e = None) -> glob_pages e fs = [].
Proof.
  intros Hnone. unfold glob_pages. rewrite flat_map_all_nil; [reflexivity|].
  intros [p f] Hin. apply list_elem_of_In, elem_of_map_to_list in Hin. cbn [fst].
  destruct p as [| x e' | x | suffix]; try reflexivity.
  destruct (decide (e' = e)) as [-> | _]; [|reflexivity].
  rewrite Hnone in Hin. discriminate Hin.
Qed.

Lemma map_outcome_ok {A B} (f : A -> outcome B) l bs :
  map_outcome f l = Ok bs -> Forall2 (fun a b => f a = Ok b) l bs.
Proof.
  revert bs. induction l as [|a l IH]; intros bs; cbn [map_outcome].
  - intros [= <-]. constructor.
  - destruct (f a) as [b|e] eqn:Ea; cbn [rbind]; [|discriminate].
    destruct (map_outcome f l) as [bs'|e]; cbn [rbind]; [|discriminate].
    intros [= <-]. constructor; [exact Ea | apply IH; reflexivity].
Qed.

(** [join_ocred_pdf]: with no page PDF in the workspace it cleans up and
    raises the fatal error; when it returns, the OCR layer holds the pages
    of the page PDFs, file after file in the order of their names, and
    no program was run. *)
Theorem join_ocred_pdf_spec o s :
  ((forall x, files s !! page_file x ext_pdf = None) ->
   fst (join_ocred_pdf o s)
   = Raise (Pdf2PdfOcrException
              "No PDF files generated after OCR. This is not expected. Aborting.")
   /\ cleaned o (snd (join_ocred_pdf o s)))
  /\ (forall s',
        join_ocred_pdf o s = (Ok tt, s') ->
        exists docs,
          Forall2 (fun x doc => files s !! page_file x ext_pdf = Some (pdf_doc doc))
                  (glob_pages ext_pdf (files s)) docs
          /\ glob_pages ext_pdf (files s) <> []
          /\ files s' !! tmp_file "-ocr.pdf" = Some (pdf_doc (concat docs))
          /\ trace s' = trace s).
Proof.
  split.
  - intros Hnone.
    assert (join_ocred_pdf o s
            = (Raise (Pdf2PdfOcrException
                 "No PDF files generated after OCR. This is not expected. Aborting."),
               snd (cleanup o s))) as ->.
    { unfold join_ocred_pdf, bind at 1, get at 1.
      rewrite (glob_pages_none _ _ Hnone). cbn [length Nat.ltb Nat.leb].
      unfold seq_, bind, raise.
      destruct (cleanup o s) as [[[]|e] s1] eqn:E; cbn [snd]; [reflexivity|].
      unfold cleanup, modify in E. discriminate E. }
    cbn [fst snd]. split; [reflexivity | apply cleanup_cleaned].
  - intros s'. unfold join_ocred_pdf, bind at 1, get at 1.
    destruct (glob_pages ext_pdf (files s)) as [|x l] eqn:Eglob.
    + cbn [length Nat.ltb Nat.leb]. unfold seq_, bind, raise.
      destruct (cleanup o s) as [[[]|e] s1]; discriminate.
    + cbn [length Nat.ltb Nat.leb].
      unfold pdf_merge, bind at 1, get at 1. unfold bind at 1, lift at 1.
      destruct (map_outcome (read_pdf (files s)) _) as [docs|e] eqn:Eread;
        [|discriminate].
      unfold write_file, modify. intros [= <-].
      apply map_outcome_ok in Eread.
      exists docs. split; [|split; [discriminate|split]].
      * rewrite Forall2_fmap_l in Eread.
        eapply Forall2_impl; [exact Eread|].
        intros y doc Hy. cbn in Hy. unfold read_pdf in Hy.
        destruct (files s !! page_file y ext_pdf) as [[]|]; try discriminate Hy.
        injection Hy as ->. reflexivity.
      * cbn [files set_files]. apply lookup_insert_eq.
      * reflexivity.
Qed.

Lemma join_ocred_pdf_spec_witness :
  fst (join_ocred_pdf default_options (start_state two_page_files))
  = Raise (Pdf2PdfOcrException
             "No PDF files generated after OCR. This is not expected. Aborting.").
Proof.
  refine (proj1 (proj1 (join_ocred_pdf_spec default_options
                          (start_state two_page_files)) _)).
  intros x. unfold two_page_files, start_state. cbn [files].
  repeat (rewrite lookup_insert_ne by discriminate). apply lookup_empty.
Defined.

End PoolFacts.

Section RotationFacts.
Import Hocr Pipeline Claims Properties Examples MoreExamples.
Local Open Scope string_scope.

Lemma rotate_pages_ok (angles : list Z) : forall (pages : list pdf_page) (k : nat),
  (k + length pages <= length angles)%nat ->
  map_outcome (fun it : nat * pdf_page =>
                 match angles !! fst it with
                 | Some angle => Ok (rotateClockwise angle (snd it))
                 | None => Raise IndexError
                 end) (imap (fun i page => ((k + i)%nat, page)) pages)
  = Ok (imap (fun i page => rotateClockwise (default 0 (angles !! (k + i)%nat)) page) pages).
Proof.
  induction pages as [|p pages IH]; intros k Hk; [reflexivity|].
  cbn [length] in Hk. rewrite !imap_cons. cbn [map_outcome fst snd].
  rewrite Nat.add_0_r.
  destruct (lookup_lt_is_Some_2 angles k ltac:(lia)) as [a Ha].
  rewrite Ha. cbn [rbind default].
  rewrite (imap_ext _ (fun i page => ((S k + i)%nat, page)))
    by (intros i x _; unfold compose; rewrite Nat.add_succ_r; reflexivity).
  rewrite (IH (S k)) by lia. cbn [rbind]. f_equal. f_equal.
  apply imap_ext. intros i x _. unfold compose. rewrite Nat.add_succ_r. reflexivity.
Qed.

Lemma rotate_pages_raise (angles : list Z) : forall (pages : list pdf_page) (k : nat),
  (k <= length angles < k + length pages)%nat ->
  map_outcome (fun it : nat * pdf_page =>
                 match angles !! fst it with
                 | Some angle => Ok (rotateClockwise angle (snd it))
                 | None => Raise IndexError
                 end) (imap (fun i page => ((k + i)%nat, page)) pages)
  = Raise IndexError.
Proof.
  induction pages as [|p pages IH]; intros k Hk; [cbn in Hk; lia|].
  cbn [length] in Hk. rewrite !imap_cons. cbn [map_outcome fst snd].
  rewrite Nat.add_0_r.
  destruct (angles !! k) as [a|] eqn:Ha; cbn [rbind]; [|reflexivity].
  apply lookup_lt_Some in Ha.
  rewrite (imap_ext _ (fun i page => ((S k + i)%nat, page)))
    by (intros i x _; unfold compose; rewrite Nat.add_succ_r; reflexivity).
  rewrite (IH (S k)) by lia. reflexivity.
Qed.

(** With orientation correction on and one orientation record per page,
    [autorotate_final_output] turns page [i] of the merged output by the
    angle of the [i]-th record (in the order of the file names), leaving
    its size and text alone, and writes as many pages as it read.  A
    merged output with more pages than records ends in an [IndexError]
    with nothing written. *)
Theorem autorotate_rotates_each_page o s pages :
  use_autorotate o = true ->
  input_file_number_of_pages s
  = Some (Z.of_nat (length (glob_pages ext_osd (files s)))) ->
  files s !! tmp_file "-OUTPUT.pdf" = Some (pdf_doc pages) ->
  ((length pages <= length (glob_pages ext_osd (files s)))%nat ->
   exists out,
     autorotate_final_output o s
     = (Ok tt, set_files (<[tmp_file "-OUTPUT-ROTATED.pdf" := pdf_doc out]> (files s)) s)
     /\ length out = length pages
     /\ forall i page x,
          pages !! i = Some page ->
          glob_pages ext_osd (files s) !! i = Some x ->
          out !! i = Some (mkPage (mediabox page) (page_text page)
                             (rotation page + read_rotate (files s) x)))
  /\ ((length (glob_pages ext_osd (files s)) < length pages)%nat ->
      autorotate_final_output o s = (Raise IndexError, s)).
Proof.
  intros Hauto Hcount Hsrc.
  assert (forall r,
             lift (map_outcome (fun it : nat * pdf_page =>
                 match map (read_rotate (files s)) (glob_pages ext_osd (files s)) !! fst it with
                 | Some angle => Ok (rotateClockwise angle (snd it))
                 | None => Raise IndexError
                 end) (imap (fun i page => (i, page)) pages)) s = (r, s) ->
             autorotate_final_output o s
             = match r with
               | Ok out => (Ok tt, set_files (<[tmp_file "-OUTPUT-ROTATED.pdf" := pdf_doc out]> (files s)) s)
               | Raise e => (Raise e, s)
               end) as Hrun.
  { intros r Hr. unfold autorotate_final_output.
    unfold bind at 1, get at 1. unfold bind at 1, get at 1.
    rewrite Hauto, Hcount, Z.eqb_refl. cbn [negb andb].
    unfold bind at 1, lift at 1, read_pdf. rewrite Hsrc.
    unfold bind at 1. rewrite Hr. destruct r; reflexivity. }
  split.
  - intros Hlen.
    pose proof (rotate_pages_ok (map (read_rotate (files s)) (glob_pages ext_osd (files s)))
                  pages 0%nat) as Hok.
    rewrite length_map in Hok. specialize (Hok Hlen). cbn [Nat.add] in Hok.
    eexists. split; [|split].
    + rewrite (Hrun _ (f_equal (fun r => (r, s)) Hok)). reflexivity.
    + apply length_imap.
    + intros i page x Hpage Hx. rewrite list_lookup_imap, Hpage. cbn [fmap option_fmap option_map].
      rewrite lookup_map, Hx. reflexivity.
  - intros Hlen.
    pose proof (rotate_pages_raise (map (read_rotate (files s)) (glob_pages ext_osd (files s)))
                  pages 0%nat) as Hr.
    rewrite length_map in Hr. specialize (Hr ltac:(lia)). cbn [Nat.add] in Hr.
    rewrite (Hrun _ (f_equal (fun r => (r, s)) Hr)). reflexivity.
Qed.

Lemma autorotate_rotates_each_page_witness :
  exists out,
    autorotate_final_output autorotate_options (staged_state oriented_output_files)
    = (Ok tt, set_files (<[tmp_file "-OUTPUT-ROTATED.pdf" := pdf_doc out]>
                           (files (staged_state oriented_output_files)))
                (staged_state oriented_output_files))
    /\ length out = length [letter_page; small_text_page]
    /\ forall i page x,
         [letter_page; small_text_page] !! i = Some page ->
         glob_pages ext_osd (files (staged_state oriented_output_files)) !! i = Some x ->
         out !! i = Some (mkPage (mediabox page) (page_text page)
                            (rotation page
                             + read_rotate (files (staged_state oriented_output_files)) x)).
Proof.
  refine (proj1 (autorotate_rotates_each_page autorotate_options
                   (staged_state oriented_output_files)
                   [letter_page; small_text_page] _ _ _) _).
  - reflexivity.
  - vm_compute. reflexivity.
  - vm_compute. reflexivity.
  - vm_compute. lia.
Defined.

(** Without orientation correction, or when the orientation records are
    not as many as the pages, the merged output goes on as it is: it is
    moved, not rewritten, and no other file is touched.  A missing merged
    output is an [OSError]. *)
Theorem output_kept_without_rotation o s :
  use_autorotate o = false
  \/ input_file_number_of_pages s
     <> Some (Z.of_nat (length (glob_pages ext_osd (files s)))) ->
  match files s !! tmp_file "-OUTPUT.pdf" with
  | Some f =>
      exists s',
        autorotate_final_output o s = (Ok tt, s')
        /\ files s' !! tmp_file "-OUTPUT-ROTATED.pdf" = Some f
        /\ files s' !! tmp_file "-OUTPUT.pdf" = None
        /\ (forall p, p <> tmp_file "-OUTPUT.pdf" ->
                      p <> tmp_file "-OUTPUT-ROTATED.pdf" ->
                      files s' !! p = files s !! p)
        /\ trace s' = trace s
  | None => exists msg, autorotate_final_output o s = (Raise (OSError msg), s)
  end.
Proof.
  intros Hskip.
  assert (autorotate_final_output o s
          = rename (tmp_file "-OUTPUT.pdf") (tmp_file "-OUTPUT-ROTATED.pdf") s) as ->.
  { unfold autorotate_final_output. unfold bind at 1, get at 1. unfold bind at 1, get at 1.
    destruct (use_autorotate o); [|reflexivity].
    destruct Hskip as [Hoff | Hcount]; [discriminate Hoff|].
    destruct (input_file_number_of_pages s) as [n|]; [|reflexivity].
    destruct (Z.eqb_spec (Z.of_nat (length (glob_pages ext_osd (files s)))) n) as [Heq | _];
      [exfalso; apply Hcount; congruence | reflexivity]. }
  unfold rename, bind, get.
  destruct (files s !! tmp_file "-OUTPUT.pdf") as [f|]; [|eexists; reflexivity].
  eexists. split; [reflexivity|]. cbn [files set_files trace].
  split; [apply lookup_insert_eq|]. split; [|split; [|reflexivity]].
  - rewrite lookup_insert_ne by discriminate. apply lookup_delete_eq.
  - intros p Hsrc Hdst. rewrite lookup_insert_ne by congruence.
    apply lookup_delete_ne. congruence.
Qed.

Lemma output_kept_without_rotation_witness :
  match files (start_state oriented_output_files) !! tmp_file "-OUTPUT.pdf" with
  | Some f =>
      exists s',
        autorotate_final_output default_options (start_state oriented_output_files)
        = (Ok tt, s')
        /\ files s' !! tmp_file "-OUTPUT-ROTATED.pdf" = Some f
        /\ files s' !! tmp_file "-OUTPUT.pdf" = None
        /\ (forall p, p <> tmp_file "-OUTPUT.pdf" ->
                      p <> tmp_file "-OUTPUT-ROTATED.pdf" ->
                      files s' !! p = files (start_state oriented_output_files) !! p)
        /\ trace s' = trace (start_state oriented_output_files)
  | None =>
      exists msg,
        autorotate_final_output default_options (start_state oriented_output_files)
        = (Raise (OSError msg), start_state oriented_output_files)
  end.
Proof.
  apply (output_kept_without_rotation default_options (start_state oriented_output_files)).
  left. reflexivity.
Defined.

End RotationFacts.

Section AdmissionFacts.
Import Hocr Pipeline Claims Properties Examples MoreExamples.
Local Open Scope string_scope.


(** A PDF that can be read passes [validate_pdf_input_file] exactly when
    it has no more pages than the limit (if one is set and the number is
    known), shows no fonts to [pdffonts] (if text is checked for) and is
    not encrypted (if protection is checked for).  Whether text was seen
    on an earlier occasion plays no part. *)
Theorem validate_pdf_input_file_accepts o env s :
  input_file_type s = "application/pdf" ->
  fst (validate_pdf_input_file o env s) = Ok tt
  <-> exists n enc,
        pdf_reader env = Some (n, enc)
        /\ (forall pages limit,
              n = Some pages -> avoid_high_pages_pages o = Some limit ->
              pages <= limit)
        /\ (check_text_mode o = true -> (pdffonts_lines env <= 2)%nat)
        /\ (check_protection_mode o = true -> enc = false).
Proof.
  intros Htype. unfold validate_pdf_input_file.
  destruct (pdf_reader env) as [[n enc]|] eqn:Hreader.
  2:{ split; [intros H; discriminate H | intros (? & ? & H & _); discriminate H]. }
  enough (fst ((modify (set_input_file_number_of_pages n) >>
      check_avoid_high_pages o >>
      modify (set_input_file_is_encrypted enc) >>
      (if check_text_mode o
       then check_for_text env >>= fun t => modify (set_input_file_has_text t)
       else ret tt) >>
      get (fun s => (input_file_type s, input_file_has_text s, input_file_is_encrypted s))
        >>= fun '(type, has_text, encrypted) =>
      (if String.eqb type "application/pdf" && check_text_mode o && has_text
       then cleanup o >>
            raise (Pdf2PdfOcrException
                     "Input file already has text and check text mode is enabled. Exiting.")
       else ret tt) >>
      (if String.eqb type "application/pdf" && check_protection_mode o && encrypted
       then cleanup o >>
            raise (Pdf2PdfOcrException
                     "Input file is encrypted PDF and check encryption mode is enabled. Exiting.")
       else ret tt)) s) = Ok tt
      <-> (forall pages limit,
              n = Some pages -> avoid_high_pages_pages o = Some limit ->
              pages <= limit)
        /\ (check_text_mode o = true -> (pdffonts_lines env <= 2)%nat)
        /\ (check_protection_mode o = true -> enc = false)) as Hmain.
  { rewrite Hmain. split.
    - intros H. exists n, enc. split; [reflexivity | exact H].
    - intros (n' & enc' & [= <- <-] & H). exact H. }
  unfold check_avoid_high_pages, check_for_text, Popen.
  unfold seq_, bind, get, modify, ret, raise.
  cbn [input_file_number_of_pages set_input_file_number_of_pages].
  destruct n as [pages|], (avoid_high_pages_pages o) as [limit|].
  all: try destruct (Z.gtb_spec pages limit) as [Hgt | Hle].
  all: unfold cleanup, modify.
  all: destruct (check_text_mode o), (check_protection_mode o), enc;
    try destruct (Nat.ltb_spec 2 (pdffonts_lines env)) as [Hlines | Hlines].
  all: cbn; rewrite ?Htype; cbn.
  all: split;
    [ intros H; try discriminate H; repeat split; intros;
      try reflexivity; try congruence; try lia
    | intros (Hpages & Htext & Hprot); try reflexivity ].
  all: try (specialize (Hpages _ _ eq_refl eq_refl); lia).
  all: try (specialize (Htext eq_refl); lia).
  all: try (specialize (Hprot eq_refl); discriminate Hprot).
Qed.
Lemma validate_pdf_input_file_accepts_witness :
  fst (validate_pdf_input_file default_options idle_env (staged_state ∅)) = Ok tt
  <-> exists n enc,
        pdf_reader idle_env = Some (n, enc)
        /\ (forall pages limit,
              n = Some pages -> avoid_high_pages_pages default_options = Some limit ->
              pages <= limit)
        /\ (check_text_mode default_options = true ->
            (pdffonts_lines idle_env <= 2)%nat)
        /\ (check_protection_mode default_options = true -> enc = false).
Proof.
  apply (validate_pdf_input_file_accepts default_options idle_env (staged_state ∅)).
  reflexivity.
Defined.




End AdmissionFacts.

Section RebuildRunFacts.
Import Hocr Pipeline Claims Properties Examples MoreExamples.
Local Open Scope string_scope.

(** [rebuild_and_merge] once the colours have been looked at (in smart
    mode; otherwise at once): the parameter string is never empty; when
    [shlex.split] accepts it, every page image is converted once, in the
    order of the file names, all with that string, and nothing else is
    converted; when [shlex.split] rejects it (an open quotation, a
    trailing escape), every worker fails before it starts anything and
    nothing is converted.  If looking at the colours fails, nothing is
    converted either and the error is passed on. *)
Theorem rebuild_converts_each_page o env s :
  let rebuild_list := glob_pages ext_jpg (files s) in
  let checked :=
    if String.eqb (user_convert_params o) "smart"
    then map_outcome (fun x => rbind (read_image (files s) x)
                                 (fun im => Ok (do_check_img_greyscale im)))
           rebuild_list
    else Ok [] in
  match checked with
  | Ok result_check_img =>
      let convert_params :=
        choose_convert_params (user_convert_params o) result_check_img in
      convert_params <> ""
      /\ conversions (trace (snd (rebuild_and_merge o env s)))
         = (conversions (trace s)
            ++ match shlex_split convert_params with
               | Ok _ => map (fun x => (x, convert_params)) rebuild_list
               | Raise _ => []
               end)%list
  | Raise e => rebuild_and_merge o env s = (Raise e, s)
  end.
Proof.
  cbv zeta.
  destruct (if String.eqb (user_convert_params o) "smart"
            then map_outcome (fun x => rbind (read_image (files s) x)
                                (fun im => Ok (do_check_img_greyscale im)))
                   (glob_pages ext_jpg (files s))
            else Ok []) as [result_check_img | e] eqn:Hchecked.
  - split; [apply choose_convert_params_not_empty|].
    apply rebuild_conversions. exact Hchecked.
  - assert ((if String.eqb (user_convert_params o) "smart"
             then lift (map_outcome (fun x => rbind (read_image (files s) x)
                                        (fun im => Ok (do_check_img_greyscale im)))
                          (glob_pages ext_jpg (files s)))
             else ret []) s = (Raise e, s)) as Hcheck.
    { rewrite <- Hchecked.
      destruct (String.eqb (user_convert_params o) "smart"); reflexivity. }
    unfold rebuild_and_merge. unfold bind at 1, get at 1.
    unfold bind at 1. rewrite Hcheck. reflexivity.
Qed.

End RebuildRunFacts.

(** ** Facts about the producer signature *)

Section ProducerFacts.
Import Pipeline Producer.
Local Open Scope string_scope.
Variable decode : list N -> pystr.

Lemma copy_properties_type_error md : forall st,
  copy_properties decode md st = TypeError <-> In (producer_key, OtherObject) md.
Proof.
  induction md as [|[key value] md IH]; intros [info rp]; cbn [copy_properties In].
  - split; [discriminate | tauto].
  - unfold copy_property.
    destruct (String.eqb_spec key producer_key) as [-> | Hkey].
    + destruct value as [t | b |]; cbn [sign].
      * rewrite IH. split; [tauto | intros [[=] | H]; exact H].
      * rewrite IH. split; [tauto | intros [[=] | H]; exact H].
      * split; [intros _; left; reflexivity | reflexivity].
    + destruct value as [t | b |]; rewrite IH;
        (split; [tauto | intros [H | H]; [congruence | exact H]]).
Qed.

Lemma copy_properties_other key md : key <> producer_key -> forall info rp info' rp',
  NoDup (map fst md) ->
  copy_properties decode md (info, rp) = Done (info', rp') ->
  forall v,
    info' !! key = Some v
    <-> (In (key, v) md /\ v <> OtherObject)
        \/ ((forall w, In (key, w) md -> w = OtherObject) /\ info !! key = Some v).
Proof.
  intros Hkey. induction md as [|[k0 v0] md IH]; intros info rp info' rp' Hnd Hrun v.
  - cbn in Hrun. injection Hrun as <- <-. cbn [In]. split; [intros H; right; tauto | tauto].
  - cbn [map fst] in Hnd. apply NoDup_cons in Hnd. destruct Hnd as [Hk0 Hnd].
    cbn [copy_properties] in Hrun.
    destruct (copy_property decode k0 v0 (info, rp)) as [[info1 rp1]|] eqn:Estep;
      [|discriminate Hrun].
    rewrite (IH _ _ _ _ Hnd Hrun v). clear IH Hrun.
    destruct (decide (k0 = key)) as [-> | Hne].
    + assert (forall w, ~ In (key, w) md) as Hnot.
      { intros w Hin. apply Hk0. apply list_elem_of_In.
        change key with (fst (key, w)). apply in_map. exact Hin. }
      unfold copy_property in Estep.
      destruct (String.eqb_spec key producer_key) as [Heq | _]; [contradiction|].
      cbn [In].
      destruct v0 as [t | b |]; injection Estep as <- <-.
      * rewrite lookup_insert_eq. split.
        -- intros [[Hin _] | [_ Hv]]; [destruct (Hnot _ Hin)|].
           left. split; [left; congruence | congruence].
        -- intros [[[Hv | Hin] _] | [Hall _]].
           ++ right. split; [intros w Hw; destruct (Hnot _ Hw) | congruence].
           ++ destruct (Hnot _ Hin).
           ++ specialize (Hall _ (or_introl eq_refl)). discriminate Hall.
      * rewrite lookup_insert_eq. split.
        -- intros [[Hin _] | [_ Hv]]; [destruct (Hnot _ Hin)|].
           left. split; [left; congruence | congruence].
        -- intros [[[Hv | Hin] _] | [Hall _]].
           ++ right. split; [intros w Hw; destruct (Hnot _ Hw) | congruence].
           ++ destruct (Hnot _ Hin).
           ++ specialize (Hall _ (or_introl eq_refl)). discriminate Hall.
      * split.
        -- intros [[Hin _] | [_ Hv]]; [destruct (Hnot _ Hin)|].
           right. split; [|exact Hv]. intros w [Hw | Hw]; [congruence | destruct (Hnot _ Hw)].
        -- intros [[[Hv | Hin] Hno] | [_ Hv]].
           ++ congruence.
           ++ destruct (Hnot _ Hin).
           ++ right. split; [intros w Hw; destruct (Hnot _ Hw) | exact Hv].
    + assert (info1 !! key = info !! key) as Hsame.
      { unfold copy_property in Estep.
        destruct (String.eqb k0 producer_key);
          destruct v0 as [t | b |]; cbn [sign] in Estep;
          try discriminate Estep; injection Estep as <- <-;
          try reflexivity; apply lookup_insert_ne; exact Hne. }
      rewrite Hsame. cbn [In].
      split.
      * intros [[Hin Hv] | [Hall Hv]]; [left; tauto|].
        right. split; [|exact Hv]. intros w [Hw | Hw]; [congruence | apply Hall, Hw].
      * intros [[[Hw | Hin] Hv] | [Hall Hv]]; [congruence | left; tauto |].
        right. split; [|exact Hv]. intros w Hw. apply Hall. right. exact Hw.
Qed.

Lemma copy_properties_producer md : forall info rp info' rp',
  NoDup (map fst md) ->
  copy_properties decode md (info, rp) = Done (info', rp') ->
  (forall v, In (producer_key, v) md ->
             exists sv, sign decode v = Done sv
                        /\ info' !! producer_key = Some sv /\ rp' = true)
  /\ ((forall v, ~ In (producer_key, v) md) ->
      info' !! producer_key = info !! producer_key /\ rp' = rp).
Proof.
  induction md as [|[k0 v0] md IH]; intros info rp info' rp' Hnd Hrun.
  - cbn in Hrun. injection Hrun as <- <-. cbn [In]. split; [tauto | auto].
  - cbn [map fst] in Hnd. apply NoDup_cons in Hnd. destruct Hnd as [Hk0 Hnd].
    cbn [copy_properties] in Hrun.
    destruct (copy_property decode k0 v0 (info, rp)) as [[info1 rp1]|] eqn:Estep;
      [|discriminate Hrun].
    destruct (IH _ _ _ _ Hnd Hrun) as [IHin IHout]. clear IH Hrun.
    unfold copy_property in Estep.
    destruct (String.eqb_spec k0 producer_key) as [-> | Hne].
    + assert (forall w, ~ In (producer_key, w) md) as Hnot.
      { intros w Hin. apply Hk0. apply list_elem_of_In.
        change producer_key with (fst (producer_key, w)). apply in_map. exact Hin. }
      destruct (IHout Hnot) as [Hinfo ->].
      assert (exists sv, sign decode v0 = Done sv
                         /\ info1 !! producer_key = Some sv /\ rp1 = true)
        as (sv & Hsign & Hsv & ->).
      { destruct v0 as [t | b |]; cbn [sign] in Estep |- *;
          [| |discriminate Estep]; injection Estep as <- <-;
          (eexists; split; [reflexivity | split; [apply lookup_insert_eq | reflexivity]]). }
      split.
      * intros v [[= <-] | Hin]; [|destruct (Hnot _ Hin)].
        exists sv. rewrite Hinfo. auto.
      * intros Hnone. destruct (Hnone v0). left. reflexivity.
    + assert (info1 !! producer_key = info !! producer_key /\ rp1 = rp) as [Hsame ->].
      { destruct v0 as [t | b |]; injection Estep as <- <-;
          (split; [|reflexivity]); try reflexivity;
          apply lookup_insert_ne; exact Hne. }
      split.
      * intros v [[= H1 H2] | Hin]; [congruence | apply IHin, Hin].
      * intros Hnone. rewrite <- Hsame. apply IHout.
        intros v Hin. apply (Hnone v). right. exact Hin.
Qed.

(** The information dictionary [edit_producer] writes always names this
    program as producer: after the input's own producer and a semicolon
    when there is one (a byte string is decoded and stripped of
    unprintable characters first), alone when there is none or when the
    input has no dictionary.  The pages are written as read.  The only
    failure is a producer that is neither text nor bytes, which ends in an
    uncaught [TypeError]. *)
Theorem edit_producer_signs pages md :
  NoDup (map fst md) ->
  (edit_producer decode pages (Some md) = TypeError
   <-> In (producer_key, OtherObject) md)
  /\ (forall out info,
        edit_producer decode pages (Some md) = Done (out, info) ->
        out = pages
        /\ (forall t, In (producer_key, TextString t) md ->
                      info !! producer_key
                      = Some (TextString (t ++ pystr_of "; " ++ our_name)%list))
        /\ (forall b, In (producer_key, ByteString b) md ->
                      info !! producer_key
                      = Some (TextString (List.filter is_printable (decode b)
                                          ++ pystr_of "; " ++ our_name)%list))
        /\ ((forall v, ~ In (producer_key, v) md) ->
            info !! producer_key = Some (TextString our_name)))
  /\ edit_producer decode pages None
     = Done (pages, <[producer_key := TextString our_name]> ∅).
Proof.
  intros Hnd. split; [|split; [|reflexivity]].
  - unfold edit_producer.
    rewrite <- (copy_properties_type_error md (∅, false)).
    destruct (copy_properties decode md (∅, false)) as [[info rp]|];
      [split; discriminate | split; reflexivity].
  - intros out info Hrun. unfold edit_producer in Hrun.
    destruct (copy_properties decode md (∅, false)) as [[info0 rp]|] eqn:Ecopy;
      [|discriminate Hrun].
    injection Hrun as <- <-.
    destruct (copy_properties_producer md _ _ _ _ Hnd Ecopy) as [Hin Hout].
    split; [reflexivity|]. split; [|split].
    + intros t Ht. destruct (Hin _ Ht) as (sv & [= <-] & Hsv & ->). exact Hsv.
    + intros b Hb. destruct (Hin _ Hb) as (sv & [= <-] & Hsv & ->). exact Hsv.
    + intros Hnone. destruct (Hout Hnone) as [_ ->]. apply lookup_insert_eq.
Qed.

(** Every other entry of the input's dictionary whose value is text or
    bytes is written unchanged, and nothing else is written: entries of
    any other kind are dropped. *)
Theorem edit_producer_copies_metadata pages md out info :
  NoDup (map fst md) ->
  edit_producer decode pages (Some md) = Done (out, info) ->
  forall key v,
    key <> producer_key ->
    (info !! key = Some v <-> In (key, v) md /\ v <> OtherObject).
Proof.
  intros Hnd Hrun key v Hkey. unfold edit_producer in Hrun.
  destruct (copy_properties decode md (∅, false)) as [[info0 rp]|] eqn:Ecopy;
    [|discriminate Hrun].
  injection Hrun as <- <-.
  assert ((if negb rp then <[producer_key := TextString our_name]> info0 else info0) !! key
          = info0 !! key) as ->.
  { destruct rp; cbn [negb]; [reflexivity|]. apply lookup_insert_ne. congruence. }
  rewrite (copy_properties_other key md Hkey _ _ _ _ Hnd Ecopy v).
  split; [|tauto]. intros [H | [_ H]]; [exact H|].
  rewrite lookup_empty in H. discriminate H.
Qed.

End ProducerFacts.

Section ProducerSamples.
Import Pipeline Producer Examples.
Local Open Scope string_scope.

Lemma sample_metadata_keys : NoDup (map fst sample_metadata).
Proof. apply (bool_decide_unpack _). vm_compute. exact I. Defined.

Lemma sample_info_written :
  edit_producer ascii_decode [letter_page] (Some sample_metadata)
  = Done ([letter_page], sample_info).
Proof. vm_compute. reflexivity. Defined.

Lemma edit_producer_signs_witness :
  sample_info !! producer_key
  = Some (TextString (List.filter is_printable (ascii_decode [71; 83; 7; 200]%N)
                      ++ pystr_of "; " ++ our_name)%list).
Proof.
  refine (proj1 (proj2 (proj2 (proj1 (proj2
            (edit_producer_signs ascii_decode [letter_page] sample_metadata
               sample_metadata_keys)) [letter_page] sample_info sample_info_written)))
            [71; 83; 7; 200]%N _).
  right. left. reflexivity.
Defined.

Lemma edit_producer_copies_metadata_witness :
  sample_info !! "/Title" = Some (TextString (pystr_of "Scan"))
  <-> In ("/Title", TextString (pystr_of "Scan")) sample_metadata
      /\ TextString (pystr_of "Scan") <> OtherObject.
Proof.
  apply (edit_producer_copies_metadata ascii_decode [letter_page] sample_metadata
           [letter_page] sample_info sample_metadata_keys sample_info_written).
  discriminate.
Defined.

End ProducerSamples.

(** ** Facts about the batch *)

Section BatchFacts.
Import Batch.
Local Open Scope string_scope.
Variable ocr : string -> outcome unit.
Variable result : string -> Z -> future.
Variable timeout : option Z.

Lemma loop_handled l : forall all_success started,
  (forall f, In f l -> handled (process ocr result timeout f)) ->
  loop ocr result timeout l all_success started
  = ((started ++ l)%list,
     Ok (all_success
         && forallb (fun f => match process ocr result timeout f with
                              | Ok _ => true
                              | Raise _ => false
                              end) l)).
Proof.
  induction l as [|f l IH]; intros all_success started Hall; cbn [loop forallb].
  - rewrite app_nil_r, andb_true_r. reflexivity.
  - assert (forall g, In g l -> handled (process ocr result timeout g)) as Hrest
        by (intros g Hg; apply Hall; right; exact Hg).
    destruct (Hall f (or_introl eq_refl)) as [Hok | [msg Hfatal]].
    + rewrite Hok. rewrite (IH _ _ Hrest), <- app_assoc. reflexivity.
    + rewrite Hfatal. rewrite (IH _ _ Hrest), <- app_assoc.
      cbn [andb]. rewrite andb_false_r. reflexivity.
Qed.

(** When no run ends in a foreign exception, every file of the batch is
    started, in order, whatever became of the files before it, and the
    exit status is 0 exactly when every run ended well, and 1 otherwise. *)
Theorem batch_goes_on_after_failure l :
  (forall f, In f l -> handled (process ocr result timeout f)) ->
  exists status,
    main ocr result timeout l = (l, Ok status)
    /\ (status = 0 <-> forall f, In f l -> process ocr result timeout f = Ok tt)
    /\ (status = 0 \/ status = 1).
Proof.
  intros Hall. unfold main. rewrite (loop_handled l true [] Hall). cbn [andb app].
  eexists. split; [reflexivity|].
  destruct (forallb _ l) eqn:Eall.
  - split; [|left; reflexivity]. split; [|reflexivity]. intros _ f Hf.
    rewrite forallb_forall in Eall. specialize (Eall f Hf).
    destruct (process ocr result timeout f) as [[]|e]; [reflexivity | discriminate].
  - split; [|right; reflexivity]. split; [discriminate|]. intros Hok. exfalso.
    assert (forallb (fun f => match process ocr result timeout f with
                              | Ok _ => true
                              | Raise _ => false
                              end) l = true) as Htrue.
    { apply forallb_forall. intros f Hf. rewrite (Hok f Hf). reflexivity. }
    congruence.
Qed.

(** A run that ends in any other exception ends the batch there: the
    files after it are not started and there is no exit status of the
    program's own. *)
Theorem batch_stops_on_foreign_exception l1 f l2 e :
  (forall g, In g l1 -> handled (process ocr result timeout g)) ->
  process ocr result timeout f = Raise e ->
  (forall msg, e <> Pdf2PdfOcrException msg) ->
  main ocr result timeout (l1 ++ f :: l2) = ((l1 ++ [f])%list, Raise e).
Proof.
  intros Hall Hf Hforeign. unfold main.
  assert (forall all_success started,
             loop ocr result timeout (l1 ++ f :: l2) all_success started
             = ((started ++ l1 ++ [f])%list, Raise e)) as Hloop.
  { clear - Hall Hf Hforeign. induction l1 as [|g l1 IH]; intros all_success started.
    - cbn [app loop]. rewrite Hf.
      destruct e; try reflexivity. destruct (Hforeign msg eq_refl).
    - assert (forall h, In h l1 -> handled (process ocr result timeout h)) as Hrest
          by (intros h Hh; apply Hall; right; exact Hh).
      cbn [app loop].
      destruct (Hall g (or_introl eq_refl)) as [Hok | [msg Hfatal]].
      + rewrite Hok, (IH Hrest), <- app_assoc. reflexivity.
      + rewrite Hfatal, (IH Hrest), <- app_assoc. reflexivity. }
  rewrite Hloop. reflexivity.
Qed.

End BatchFacts.

Section TimeoutFacts.
Import Batch.
Local Open Scope string_scope.
Variable ocr : string -> outcome unit.
Variable result : string -> Z -> future.

Lemma loop_ext (p q : option Z) l : forall all_success started,
  (forall f, process ocr result p f = process ocr result q f) ->
  loop ocr result p l all_success started = loop ocr result q l all_success started.
Proof.
  induction l as [|f l IH]; intros all_success started Hpq; cbn [loop]; [reflexivity|].
  rewrite Hpq. destruct (process ocr result q f) as [[]|[]]; try reflexivity; apply IH, Hpq.
Qed.

(** A time limit of zero seconds is no time limit; any other limit turns
    a run that exceeds it into a failed document, after which the batch
    goes on. *)
Theorem timeout_effect l :
  main ocr result (Some 0) l = main ocr result None l
  /\ forall t,
       t <> 0 ->
       (forall f, In f l ->
                  result f t = TimeoutError \/ exists r, result f t = finished r /\ handled r) ->
       exists status,
         main ocr result (Some t) l = (l, Ok status)
         /\ (status = 0 <-> forall f, In f l -> result f t = finished (Ok tt)).
Proof.
  split.
  - unfold main. rewrite (loop_ext (Some 0) None); reflexivity.
  - intros t Ht Hall.
    assert (forall f, process ocr result (Some t) f
                      = match result f t with
                        | finished r => r
                        | TimeoutError =>
                            Raise (Pdf2PdfOcrException
                                     ("Script stopped due to timeout of " ++ pretty t
                                      ++ " seconds"))
                        end) as Hproc.
    { intros f. unfold process. destruct (Z.eqb_spec t 0); [contradiction | reflexivity]. }
    unfold main.
    rewrite (loop_handled ocr result (Some t) l true []).
    2:{ intros f Hf. rewrite Hproc.
        destruct (Hall f Hf) as [-> | (r & -> & Hr)]; [right; eexists; reflexivity | exact Hr]. }
    cbn [andb app]. eexists. split; [reflexivity|].
    destruct (forallb _ l) eqn:Eall.
    + split; [|reflexivity]. intros _ f Hf.
      rewrite forallb_forall in Eall. specialize (Eall f Hf). rewrite Hproc in Eall.
      destruct (result f t) as [[[]|e]|]; [reflexivity | discriminate | discriminate].
    + split; [discriminate|]. intros Hok. exfalso.
      assert (forallb (fun f => match process ocr result (Some t) f with
                                | Ok _ => true
                                | Raise _ => false
                                end) l = true) as Htrue.
      { apply forallb_forall. intros f Hf. rewrite Hproc, (Hok f Hf). reflexivity. }
      congruence.
Qed.

End TimeoutFacts.

Section BatchSamples.
Import Batch.
Local Open Scope string_scope.

Lemma batch_goes_on_after_failure_witness :
  exists status,
    main sample_ocr sample_result None ["a.pdf"; "bad.pdf"; "c.pdf"]
    = (["a.pdf"; "bad.pdf"; "c.pdf"], Ok status)
    /\ (status = 0 <-> forall f, In f ["a.pdf"; "bad.pdf"; "c.pdf"] ->
                                process sample_ocr sample_result None f = Ok tt)
    /\ (status = 0 \/ status = 1).
Proof.
  apply (batch_goes_on_after_failure sample_ocr sample_result None
           ["a.pdf"; "bad.pdf"; "c.pdf"]).
  intros f [<- | [<- | [<- | []]]].
  - left. reflexivity.
  - right. eexists. reflexivity.
  - left. reflexivity.
Defined.

Lemma batch_stops_on_foreign_exception_witness :
  main sample_ocr sample_result None (["bad.pdf"] ++ "odd.pdf" :: ["c.pdf"])%list
  = ((["bad.pdf"] ++ ["odd.pdf"])%list, Raise IndexError).
Proof.
  apply (batch_stops_on_foreign_exception sample_ocr sample_result None
           ["bad.pdf"] "odd.pdf" ["c.pdf"] IndexError).
  - intros g [<- | []]. right. eexists. reflexivity.
  - reflexivity.
  - discriminate.
Defined.

Lemma timeout_effect_witness :
  exists status,
    main sample_ocr sample_result (Some 60) ["a.pdf"; "slow.pdf"; "c.pdf"]
    = (["a.pdf"; "slow.pdf"; "c.pdf"], Ok status)
    /\ (status = 0 <-> forall f, In f ["a.pdf"; "slow.pdf"; "c.pdf"] ->
                                sample_result f 60 = finished (Ok tt)).
Proof.
  apply (proj2 (timeout_effect sample_ocr sample_result
                  ["a.pdf"; "slow.pdf"; "c.pdf"]) 60).
  - discriminate.
  - intros f [<- | [<- | [<- | []]]].
    + right. eexists. split; [reflexivity | left; reflexivity].
    + left. reflexivity.
    + right. eexists. split; [reflexivity | left; reflexivity].
Defined.

End BatchSamples.

(** ** Facts about the rasterization *)

Section RasterizeFacts.
Import Ranges Properties Rasterize.
Local Open Scope string_scope.

Lemma pyint_bounds (x : Q) (c : Z) :
  (0 <= x)%Q -> (x <= inject_Z c)%Q -> 0 <= pyint x <= c.
Proof.
  unfold pyint, Qle, inject_Z. destruct x as [num den]. cbn [Qnum Qden].
  intros Hpos Hle. rewrite Z.mul_1_r in Hpos.
  rewrite Z.quot_div_nonneg by lia. split.
  - apply Z.div_pos; lia.
  - apply Z.div_le_upper_bound; lia.
Qed.

Lemma calculate_ranges_returns n w :
  match n with Some pages => pages < 2 ^ 53 | None => True end ->
  1 <= w < 2 ^ 53 ->
  exists r, calculate_ranges n w = Ok r.
Proof.
  intros Hn Hw. destruct n as [pages|]; [|eexists; reflexivity].
  destruct (Z.ltb_spec pages 20) as [Hsmall | Hbig].
  - eexists. unfold calculate_ranges.
    replace (pages <? 20)%Z with true by (symmetry; apply Z.ltb_lt; exact Hsmall).
    reflexivity.
  - eexists. apply calculate_ranges_ok; lia.
Qed.

(** The number of workers is at least one and at most the number of
    processors, whatever fraction of them is asked for; with it, on a
    machine of fewer than 2^53 processors, the page range partitioner
    returns when the page count is unknown and for every page count
    below 2^53. *)
Theorem workers_at_least_one (product : Q) (cpu_count : Z) :
  (0 <= product)%Q -> (product <= inject_Z cpu_count)%Q -> 1 <= cpu_count < 2 ^ 53 ->
  1 <= cpu_to_use product <= cpu_count
  /\ calculate_ranges None (cpu_to_use product) = Ok None
  /\ forall n, n < 2 ^ 53 ->
               exists r, calculate_ranges (Some n) (cpu_to_use product) = Ok r.
Proof.
  intros Hpos Hle Hcpu.
  assert (1 <= cpu_to_use product <= cpu_count) as Hw.
  { pose proof (pyint_bounds product cpu_count Hpos Hle) as Hb.
    unfold cpu_to_use. destruct (Z.eqb_spec (pyint product) 0); lia. }
  split; [exact Hw|]. split; [reflexivity|].
  intros n Hn. apply (calculate_ranges_returns (Some n)); [exact Hn | lia].
Qed.

Lemma workers_at_least_one_witness :
  1 <= cpu_to_use (inject_Z 8 * (1 # 3)) <= 8
  /\ calculate_ranges None (cpu_to_use (inject_Z 8 * (1 # 3))) = Ok None
  /\ forall n, n < 2 ^ 53 ->
               exists r, calculate_ranges (Some n) (cpu_to_use (inject_Z 8 * (1 # 3))) = Ok r.
Proof.
  apply (workers_at_least_one (inject_Z 8 * (1 # 3)) 8).
  - vm_compute. discriminate.
  - vm_compute. discriminate.
  - split; [lia | reflexivity].
Defined.

Lemma times_rasterized_app p evs evs' :
  times_rasterized p (evs ++ evs')
  = (times_rasterized p evs + times_rasterized p evs')%nat.
Proof. unfold times_rasterized. rewrite List.filter_app, length_app. reflexivity. Qed.

Lemma times_rasterized_ranges p f res (rs : list page_range) :
  times_rasterized p (map started (map (fun r => pdftoppm (Some r) f res) rs))
  = length (List.filter (in_range p) rs).
Proof.
  unfold times_rasterized, in_range.
  induction rs as [|r rs IH]; [reflexivity|].
  cbn [map List.filter]. destruct ((fst r <=? p)%Z && (p <=? snd r)%Z); cbn [length];
    rewrite IH; reflexivity.
Qed.

Lemma sources_read_app evs evs' :
  sources_read (evs ++ evs') = (sources_read evs ++ sources_read evs')%list.
Proof. unfold sources_read. apply flat_map_app. Qed.

Lemma sources_read_ranges f res (rs : list page_range) :
  sources_read (map started (map (fun r => pdftoppm (Some r) f res) rs))
  = map (fun _ => f) rs.
Proof.
  unfold sources_read. induction rs as [|r rs IH]; [reflexivity|].
  cbn [map flat_map app]. rewrite IH. reflexivity.
Qed.

(** The images of a PDF of fewer than 2^53 pages, with fewer than 2^53
    workers.  When existing text is to be ignored and ghostscript is not
    installed, starting the text filter fails and no program is started:
    no page is turned into an image.  In every other case, whatever the
    number of workers, every page of the document is turned into an
    image by exactly one of the [pdftoppm] runs started, and all of them
    read the same file, the copy without text exactly when existing text
    is to be ignored. *)
Theorem every_page_rasterized_once returncode path_gs ignore_existing_text
        pages cpu resolution p :
  1 <= cpu < 2 ^ 53 -> 1 <= p <= pages -> pages < 2 ^ 53 ->
  let run := convert_input_to_images returncode path_gs "application/pdf"
               ignore_existing_text (Some pages) cpu resolution in
  (ignore_existing_text = true -> path_gs = None ->
   exists msg, run = ([], Raise (TypeError msg)))
  /\ (ignore_existing_text = false \/ path_gs <> None ->
      times_rasterized p (fst run) = 1%nat
      /\ Forall (eq (if ignore_existing_text then input_file_for_images
                     else the_input_file))
                (sources_read (fst run))).
Proof.
  intros Hcpu Hp Hpages. cbv zeta. split.
  { intros -> ->. eexists. reflexivity. }
  intros Hgs. unfold convert_input_to_images.
  cbn [String.eqb Ascii.eqb Bool.eqb].
  set (src := if ignore_existing_text then input_file_for_images else the_input_file).
  assert (exists pre, filter_text path_gs ignore_existing_text = Ok pre
                      /\ times_rasterized p pre = 0%nat /\ sources_read pre = [])
    as (pre & -> & Hpre0 & Hpre1).
  { unfold filter_text. destruct ignore_existing_text.
    - destruct path_gs as [gs|].
      + eexists. split; [reflexivity|]. split; reflexivity.
      + destruct Hgs as [Hgs | Hgs]; [discriminate Hgs | contradiction].
    - eexists. split; [reflexivity|]. split; reflexivity. }
  destruct (Z.ltb_spec pages 20) as [Hsmall | Hbig].
  - assert (calculate_ranges (Some pages) cpu = Ok None) as ->.
    { unfold calculate_ranges.
      replace (pages <? 20)%Z with true by (symmetry; apply Z.ltb_lt; exact Hsmall).
      reflexivity. }
    destruct (negb _); cbn [fst];
      rewrite ?times_rasterized_app, ?sources_read_app, Hpre0, Hpre1;
      (split; [reflexivity | repeat constructor]).
  - rewrite (calculate_ranges_ok pages cpu ltac:(lia) Hcpu).
    set (ranges := range_loop pages (ceil_div pages cpu)
                     (ceil_div pages (ceil_div pages cpu))).
    assert (length (List.filter (in_range p) ranges) = 1%nat) as Hone.
    { assert (0 < ceil_div pages cpu) as Hsize by (apply ceil_div_pos; lia).
      subst ranges.
      rewrite (partition_holding _ _ _ _ p Hsize
                 (range_loop_partition pages cpu Hbig ltac:(lia))).
      replace ((1 <=? p) && (p <=? pages))%Z with true; [reflexivity|].
      symmetry. apply andb_true_intro. split; apply Z.leb_le; lia. }
    assert (Forall (eq src) (map (fun _ : page_range => src) ranges)) as Hsrc.
    { clear. induction ranges; constructor; [reflexivity | assumption]. }
    destruct (negb _); cbn [fst];
      rewrite ?times_rasterized_app, ?sources_read_app,
        times_rasterized_ranges, sources_read_ranges, Hpre0, Hpre1, Hone;
      cbn [app]; rewrite ?app_nil_r; (split; [reflexivity | exact Hsrc]).
Qed.

Lemma every_page_rasterized_once_witness :
  let log := fst (convert_input_to_images (fun _ => 0) (Some "/usr/bin/gs")
                    "application/pdf" true (Some 45) 4 300) in
  times_rasterized 24 log = 1%nat
  /\ Forall (eq (if true then input_file_for_images else the_input_file))
            (sources_read log).
Proof.
  apply (proj2 (every_page_rasterized_once (fun _ => 0) (Some "/usr/bin/gs") true 45 4 300 24
                  ltac:(split; [lia | reflexivity]) ltac:(lia) eq_refl)).
  right. discriminate.
Defined.

(** How the rasterization ends, for fewer than 2^53 pages and workers.
    For a PDF whose text is to be ignored while ghostscript is not
    installed, it ends in the [TypeError] of the text filter that could
    not be started, with nothing run and no cleanup.  For any other PDF
    it succeeds exactly when every [pdftoppm] run started returns zero
    (what the text filter returns is not looked at) and otherwise ends
    in a fatal error after a cleanup.  Any other input is handed to one
    [convert] run if it is a TIFF, JPEG or PNG image, and is turned away
    without any program being started if not. *)
Theorem rasterization_outcome returncode path_gs input_file_type ignore_existing_text
        n cpu resolution :
  1 <= cpu < 2 ^ 53 ->
  match n with Some pages => pages < 2 ^ 53 | None => True end ->
  let run := convert_input_to_images returncode path_gs input_file_type
               ignore_existing_text n cpu resolution in
  (input_file_type = "application/pdf" ->
   (ignore_existing_text = true -> path_gs = None ->
    exists msg, run = ([], Raise (TypeError msg)))
   /\ (ignore_existing_text = false \/ path_gs <> None ->
       (snd run = Ok tt
        <-> forall r f res, In (started (pdftoppm r f res)) (fst run) ->
                            returncode (pdftoppm r f res) = 0)
       /\ (snd run <> Ok tt ->
           snd run = Raise (Pdf2PdfOcrException "Fail to create images from PDF. Exiting.")
           /\ last (fst run) = Some cleanup_called)))
  /\ (input_file_type <> "application/pdf" ->
      (In input_file_type ["image/tiff"; "image/jpeg"; "image/png"] ->
       run = ([started convert_scene], Ok tt))
      /\ (~ In input_file_type ["image/tiff"; "image/jpeg"; "image/png"] ->
          fst run = [cleanup_called]
          /\ exists msg, snd run = Raise (Pdf2PdfOcrException msg))).
Proof.
  intros Hcpu Hn. cbv zeta. split.
  - intros ->. split.
    { intros -> ->. eexists. reflexivity. }
    intros Hgs.
    assert (exists pre, filter_text path_gs ignore_existing_text = Ok pre
                        /\ forall c, In (started c) pre -> c = gs_filtertext)
      as (pre & Hfilter & Hpre).
    { unfold filter_text. destruct ignore_existing_text.
      - destruct path_gs as [gs|].
        + eexists. split; [reflexivity|]. intros c [[= <-] | []]. reflexivity.
        + destruct Hgs as [Hgs | Hgs]; [discriminate Hgs | contradiction].
      - eexists. split; [reflexivity|]. intros c []. }
    assert (exists calls : list raster_command,
               (forall c, In c calls -> exists r f res, c = pdftoppm r f res)
               /\ convert_input_to_images returncode path_gs "application/pdf"
                    ignore_existing_text n cpu resolution
                  = if negb (forallb (fun ret_code => (ret_code =? 0)%Z)
                               (map returncode calls))
                    then ((pre ++ map started calls ++ [cleanup_called])%list,
                          Raise (Pdf2PdfOcrException
                                   "Fail to create images from PDF. Exiting."))
                    else ((pre ++ map started calls)%list, Ok tt))
      as (calls & Hcalls & ->).
    { destruct (calculate_ranges_returns n cpu Hn Hcpu) as [r Hr].
      unfold convert_input_to_images. cbn [String.eqb Ascii.eqb Bool.eqb].
      rewrite Hfilter, Hr. eexists. split; [|reflexivity].
      intros c Hc. destruct r as [ranges|].
      - apply in_map_iff in Hc. destruct Hc as (r & <- & _). eauto.
      - destruct Hc as [<- | []]. eauto. }
    assert (forall c tl, In (started c) (pre ++ map started calls ++ tl)%list
                         -> c = gs_filtertext \/ In c calls \/ In (started c) tl)
      as Hlog.
    { intros c tl Hin. apply in_app_or in Hin. destruct Hin as [Hin | Hin].
      - left. apply Hpre, Hin.
      - apply in_app_or in Hin. destruct Hin as [Hin | Hin]; [|auto].
        apply in_map_iff in Hin. destruct Hin as (c' & [= <-] & Hc'). auto. }
    destruct (forallb _ (map returncode calls)) eqn:Eall; cbn [negb fst snd].
    + split; [|intros H; destruct (H eq_refl)].
      split; [|reflexivity]. intros _ r f res Hin.
      rewrite forallb_forall in Eall.
      rewrite <- (app_nil_r (map started calls)) in Hin.
      destruct (Hlog _ _ Hin) as [Hgs' | [Hc | []]]; [discriminate Hgs'|].
      apply Z.eqb_eq, Eall, in_map, Hc.
    + split.
      * split; [discriminate|]. intros Hzero. exfalso.
        assert (forallb (fun ret_code => (ret_code =? 0)%Z) (map returncode calls) = true)
          as Htrue; [|congruence].
        apply forallb_forall. intros code Hcode.
        apply in_map_iff in Hcode. destruct Hcode as (c & <- & Hc).
        destruct (Hcalls c Hc) as (r & f & res & ->).
        apply Z.eqb_eq, Hzero.
        apply in_or_app. right. apply in_or_app. left. apply in_map. exact Hc.
      * intros _. split; [reflexivity|].
        rewrite !app_assoc. apply last_snoc.
  - intros Htype. unfold convert_input_to_images.
    destruct (String.eqb_spec input_file_type "application/pdf") as [Heq | _];
      [contradiction|].
    cbn [existsb In].
    destruct (String.eqb_spec input_file_type "image/tiff") as [-> | Htiff];
      [split; [reflexivity | intros H; exfalso; apply H; auto]|].
    destruct (String.eqb_spec input_file_type "image/jpeg") as [-> | Hjpeg];
      [split; [reflexivity | intros H; exfalso; apply H; auto]|].
    destruct (String.eqb_spec input_file_type "image/png") as [-> | Hpng];
      [split; [reflexivity | intros H; exfalso; apply H; auto]|].
    cbn [orb fst snd]. split.
    + intros [H | [H | [H | []]]]; congruence.
    + intros _. split; [reflexivity | eexists; reflexivity].
Qed.

Lemma rasterization_outcome_witness :
  let run := convert_input_to_images (fun _ => 0) None "application/pdf" false
               (Some 45) 4 300 in
  (snd run = Ok tt
   <-> forall r f res, In (started (pdftoppm r f res)) (fst run) ->
                       (fun _ : raster_command => 0) (pdftoppm r f res) = 0)
  /\ (snd run <> Ok tt ->
      snd run = Raise (Pdf2PdfOcrException "Fail to create images from PDF. Exiting.")
      /\ last (fst run) = Some cleanup_called).
Proof.
  apply (proj2 (proj1 (rasterization_outcome (fun _ => 0) None "application/pdf" false
                         (Some 45) 4 300 ltac:(split; [lia | reflexivity]) eq_refl)
                  eq_refl)).
  left. reflexivity.
Defined.

End RasterizeFacts.

Section OrientationProbeFacts.
Import Hocr Pipeline Claims Properties Examples MoreExamples.
Local Open Scope string_scope.

Lemma osd_loop env lang (l : list string) : forall s,
  let run := for_ l (fun x => pool_worker (Popen env (cmd_tesseract_osd lang x))) s in
  fst run = Ok tt
  /\ trace (snd run) = (trace s ++ map (fun x => popen (cmd_tesseract_osd lang x)) l)%list
  /\ blank_pages (snd run) = blank_pages s.
Proof.
  induction l as [|x l IH]; intros s; cbv zeta.
  - cbn [for_ map]. unfold ret. cbn [fst snd]. rewrite app_nil_r. auto.
  - change (for_ (x :: l) (fun x => pool_worker (Popen env (cmd_tesseract_osd lang x))) s)
      with (for_ l (fun x => pool_worker (Popen env (cmd_tesseract_osd lang x)))
              (add_event (popen (cmd_tesseract_osd lang x))
                 (set_files (exec env (cmd_tesseract_osd lang x) (files s)) s))).
    destruct (IH (add_event (popen (cmd_tesseract_osd lang x))
                    (set_files (exec env (cmd_tesseract_osd lang x) (files s)) s)))
      as (Hok & Htrace & Hblank).
    split; [exact Hok|]. split; [|exact Hblank].
    rewrite Htrace. cbn [trace add_event set_files map]. rewrite <- app_assoc. reflexivity.
Qed.

(** With orientation correction on, [autorotate_info] asks tesseract for
    the orientation of exactly the pages that are not blank, once each
    and in page order, and returns whatever those runs do; with it off
    it does nothing. *)
Theorem orientation_probed_for_inked_pages o env (image_file_list : list string) s :
  (use_autorotate o = true ->
   fst (autorotate_info o env image_file_list s) = Ok tt
   /\ trace (snd (autorotate_info o env image_file_list s))
      = (trace s
           ++ map (fun x => popen (cmd_tesseract_osd (tess_langs o) x))
                (List.filter (not_in (blank_pages s)) image_file_list))%list
   /\ blank_pages (snd (autorotate_info o env image_file_list s)) = blank_pages s)
  /\ (use_autorotate o = false -> autorotate_info o env image_file_list s = (Ok tt, s)).
Proof.
  split; intros Hauto.
  - assert (autorotate_info o env image_file_list s
            = for_ (List.filter (not_in (blank_pages s)) image_file_list)
                (fun x => pool_worker (Popen env (cmd_tesseract_osd (tess_langs o) x))) s)
      as -> by (unfold autorotate_info; rewrite Hauto; reflexivity).
    apply osd_loop.
  - unfold autorotate_info. rewrite Hauto. reflexivity.
Qed.

Lemma orientation_probed_for_inked_pages_witness :
  trace (snd (autorotate_info autorotate_options idle_env ["P-1"; "P-2"; "P-3"]
                (mkState "application/pdf" false false (Some 3) false false
                         ["P-2"] [(2550, 3300)] true two_page_files [])))
  = ([] ++ map (fun x => popen (cmd_tesseract_osd (tess_langs autorotate_options) x))
             (List.filter (not_in ["P-2"]) ["P-1"; "P-2"; "P-3"]))%list.
Proof.
  exact (proj1 (proj2 (proj1 (orientation_probed_for_inked_pages autorotate_options
           idle_env ["P-1"; "P-2"; "P-3"]
           (mkState "application/pdf" false false (Some 3) false false
                    ["P-2"] [(2550, 3300)] true two_page_files [])) eq_refl))).
Defined.

End OrientationProbeFacts.
